(** * pdf2ppt: [pdf_to_pptx_converter.py]

    A shallow embedding of [ConversionWorker.run] and
    [ConversionWorker.get_reference_size], of the file list
    ([FileDropListWidget]) and of the handlers of the window
    ([PdfToPptApp]).  The worker drives three external
    libraries (pdf2image, Pillow, python-pptx) and is stopped by the GUI
    thread through the [is_running] flag; what the libraries answer and when
    the flag is cleared are collected in a [world] record, so that every
    theorem holds for any behaviour of the libraries.  A library call is a
    function of its arguments; python-pptx is taken as a plain container of
    slides and shapes, whose slide size must lie between 1 and 56 inches.

    [run] is written in a state and exception monad over the deck, the
    signals emitted so far, the lines printed, the number of reads of the
    flag and the file written.  The texts of the status messages are kept as
    the constructors of [status], one per f-string of [run].

    Python's [int / int], [float * int] and [int(float)] are modelled on
    IEEE-754 binary64 with the executable specification of the standard
    library ([SpecFloat]). *)

From Stdlib Require Import ZArith List Bool Lia String Ascii QArith Qround.
From Stdlib Require Import DecimalString.
From Stdlib Require Import Floats.SpecFloat.
Import ListNotations.
Open Scope Z_scope.

(** ** Python strings *)

Module PyStr.
Local Open Scope string_scope.

(** [str.lower] on the ASCII range. *)
Definition lower_ascii (c : ascii) : ascii :=
  let n := nat_of_ascii c in
  if ((65 <=? n) && (n <=? 90))%nat then ascii_of_nat (n + 32) else c.

Fixpoint lower (s : string) : string :=
  match s with
  | EmptyString => EmptyString
  | String c r => String (lower_ascii c) (lower r)
  end.

(** [str.endswith]. *)
Definition endswith (s suffix : string) : bool :=
  let n := String.length s in
  let m := String.length suffix in
  ((m <=? n)%nat && String.eqb (substring (n - m) m s) suffix)%bool.

(** [os.path.basename] (POSIX): what follows the last slash. *)
Fixpoint basename_from (acc p : string) : string :=
  match p with
  | EmptyString => acc
  | String c r =>
      if Ascii.eqb c "/" then basename_from EmptyString r
      else basename_from (acc ++ String c EmptyString) r
  end.

Definition basename (p : string) : string := basename_from EmptyString p.

(** [os.path.join] of a directory and a relative file name (POSIX). *)
Definition path_join (dir name : string) : string :=
  if String.eqb dir EmptyString then name
  else if endswith dir "/" then dir ++ name
  else dir ++ "/" ++ name.

End PyStr.

(** ** Python numbers *)

Module PyNum.

Definition prec : Z := 53.
Definition emax : Z := 1024.

(** Conversion of an [int] operand of a float operation. *)
Definition float_of_int (n : Z) : spec_float :=
  binary_normalize prec emax n 0 false.

(** [a / b] on two [int]s: the correctly rounded quotient;
    [None] stands for [ZeroDivisionError] and [OverflowError]. *)
Definition int_truediv (a b : Z) : option spec_float :=
  match b with
  | Z0 => None
  | _ =>
      match a with
      | Z0 => Some (S754_zero (b <? 0))
      | _ =>
          let '(q, e, l) :=
            SFdiv_core_binary prec emax (Z.abs a) 0 (Z.abs b) 0 in
          match binary_round_aux prec emax (xorb (a <? 0) (b <? 0)) q e l with
          | S754_infinity _ => None
          | S754_nan => None
          | f => Some f
          end
      end
  end.

(** [x * n] for a float [x] and an [int] [n]. *)
Definition float_mul_int (x : spec_float) (n : Z) : spec_float :=
  SFmul prec emax x (float_of_int n).

(** [int(x)]: truncation toward zero; [None] stands for the
    [OverflowError] / [ValueError] raised on infinities and NaN. *)
Definition py_int (x : spec_float) : option Z :=
  match x with
  | S754_zero _ => Some 0
  | S754_finite s m e =>
      let a :=
        match e with
        | Z0 => Zpos m
        | Zpos _ => Z.shiftl (Zpos m) e
        | Zneg p => Z.shiftr (Zpos m) (Zpos p)
        end in
      Some (if s then - a else a)
  | S754_infinity _ => None
  | S754_nan => None
  end.

(** The rational value of a float (zero for the non-finite ones). *)
Definition SF2Q (x : spec_float) : Q :=
  match x with
  | S754_finite s m e =>
      let v :=
        match e with
        | Z0 => inject_Z (Zpos m)
        | Zpos _ => inject_Z (Z.shiftl (Zpos m) e)
        | Zneg p => Qmake (Zpos m) (2 ^ p)%positive
        end in
      if s then Qopp v else v
  | _ => 0%Q
  end.

(** [int(a / b * c)] for [int]s [a], [b], [c]. *)
Definition int_div_mul (a b c : Z) : option Z :=
  match int_truediv a b with
  | None => None
  | Some q => py_int (float_mul_int q c)
  end.

End PyNum.

(** ** Data model *)

(** An exception, carrying [str(e)]. *)
Inductive exn : Type := Exception (msg : string).

Definition exn_message (e : exn) : string :=
  match e with Exception msg => msg end.

Inductive result (A : Type) : Type :=
| Ok (a : A)
| Raise (e : exn).
Arguments Ok {A} a.
Arguments Raise {A} e.

(** A Pillow image: the identity of its pixel data, its mode and its size. *)
Record image : Type := mkImage {
  pixels : nat;
  mode : string;
  size : Z * Z
}.

(** The bytes [img.save(stream, format="JPEG", quality=q)] leaves in the stream. *)
Record jpeg : Type := mkJpeg {
  jpeg_source : image;
  jpeg_quality : Z
}.

(** A picture shape, as placed by [add_picture(stream, left, top, width, height)]. *)
Record picture : Type := mkPicture {
  pic_stream : jpeg;
  pic_left : Z;
  pic_top : Z;
  pic_width : Z;
  pic_height : Z
}.

(** A slide is the list of its shapes. *)
Definition slide : Type := list picture.

Record Presentation : Type := mkPresentation {
  slide_width : Z;
  slide_height : Z;
  slides : list slide
}.

(** [Presentation()]: the default template of python-pptx, 10in x 7.5in, no slide. *)
Definition default_Presentation : Presentation :=
  {| slide_width := 9144000; slide_height := 6858000; slides := [] |}.

(** The texts given to [status_updated]; each constructor is one f-string
    of [run]. *)
Inductive status : Type :=
| Initializing
| CheckingReference (file_name : string)
| SizeFallback
| ReadingPdf (i total_files : nat) (file_name : string)
| NoImagesWarning (file_name : string)
| OpeningImage (i total_files : nat) (file_name : string)
| ConvertingPage (i total_files : nat) (file_name : string) (page total_pages : nat)
| ErrorOccurred (file_name : string) (e : exn)
| Saving
| SaveDone
| SaveFailed (e : exn).

(** The Qt signals of the worker. *)
Inductive signal : Type :=
| status_updated (msg : status)
| progress_updated (value : Z)
| finished_signal (output_dir : string).

(** ** The environment of the worker

    What the libraries answer, and when the GUI thread calls [stop]. *)
Record world : Type := mkWorld {
  (** [convert_from_path(path, dpi=, first_page=, last_page=, fmt=)] *)
  convert_from_path :
    string -> Z -> option (Z * Z) -> option string -> result (list image);
  (** [Image.open(path)] *)
  Image_open : string -> result image;
  (** the error [img.convert(mode)] raises, if any *)
  convert_error : image -> string -> option exn;
  (** the error [img.save(stream, format=, quality=)] raises, if any *)
  save_error : image -> string -> Z -> option exn;
  (** the error [prs.save(path)] raises, if any *)
  prs_save_error : string -> option exn;
  (** [datetime.now().strftime("%Y%m%d_%H%M%S")] *)
  timestamp_now : string;
  (** [stop()] clears [is_running], which is never set again: the flag reads
      [True] for the first [k] polls of the worker and [False] afterwards
      ([None]: [stop] is not called during the run). *)
  stop_after : option nat
}.

(** The state of a run: the deck, the signals emitted so far (oldest first),
    what was printed, how often [is_running] was read and the file written. *)
Record state : Type := mkState {
  prs : option Presentation;
  emitted : list signal;
  printed : list string;
  polls : nat;
  written : option (string * Presentation)
}.

Definition initial : state :=
  {| prs := None; emitted := []; printed := []; polls := 0; written := None |}.

(** ** State and exception monad *)

Definition M (A : Type) : Type := state -> result A * state.

Definition ret {A} (a : A) : M A := fun s => (Ok a, s).

Definition bind {A B} (m : M A) (k : A -> M B) : M B :=
  fun s =>
    match m s with
    | (Ok a, s') => k a s'
    | (Raise e, s') => (Raise e, s')
    end.

Definition raise {A} (e : exn) : M A := fun s => (Raise e, s).

(** [try: m  except Exception as e: h e] *)
Definition try_except {A} (m : M A) (h : exn -> M A) : M A :=
  fun s =>
    match m s with
    | (Ok a, s') => (Ok a, s')
    | (Raise e, s') => h e s'
    end.

Declare Scope py_scope.
Delimit Scope py_scope with py.
Notation "x <- m ;; k" := (bind m (fun x => k))
  (at level 61, m at next level, right associativity) : py_scope.
Notation "m ;; k" := (bind m (fun _ => k))
  (at level 61, right associativity) : py_scope.
Open Scope py_scope.

Definition of_result {A} (r : result A) : M A := fun s => (r, s).

Definition of_option {A} (what : string) (o : option A) : M A :=
  match o with
  | Some a => ret a
  | None => raise (Exception what)
  end.

Definition of_error (o : option exn) : M unit :=
  match o with
  | Some e => raise e
  | None => ret tt
  end.

(** ** Primitive operations of the worker *)

Definition emit (sg : signal) : M unit :=
  fun s => (Ok tt, {| prs := prs s; emitted := emitted s ++ [sg];
                      printed := printed s; polls := polls s;
                      written := written s |}).

Definition print (line : string) : M unit :=
  fun s => (Ok tt, {| prs := prs s; emitted := emitted s;
                      printed := printed s ++ [line]; polls := polls s;
                      written := written s |}).

Definition flag_at (stop : option nat) (n : nat) : bool :=
  match stop with
  | None => true
  | Some k => (n <? k)%nat
  end.

(** One read of [self.is_running]. *)
Definition is_running (w : world) : M bool :=
  fun s => (Ok (flag_at (stop_after w) (polls s)),
            {| prs := prs s; emitted := emitted s; printed := printed s;
               polls := S (polls s); written := written s |}).

Definition update_prs (f : Presentation -> Presentation) : M unit :=
  fun s => (Ok tt, {| prs := option_map f (prs s); emitted := emitted s;
                      printed := printed s; polls := polls s;
                      written := written s |}).

(** [prs = Presentation()] *)
Definition new_Presentation : M unit :=
  fun s => (Ok tt, {| prs := Some default_Presentation; emitted := emitted s;
                      printed := printed s; polls := polls s;
                      written := written s |}).

(** The extent python-pptx accepts for a slide: 1 to 56 inches. *)
Definition slide_size_accepted (value : Z) : bool :=
  (914400 <=? value) && (value <=? 51206400).

(** The [ValueError] of python-pptx for any other extent. *)
Definition slide_size_error (value : Z) : exn :=
  Exception ("value must be in range(914400, 51206400) (1-56 inches), got "
             ++ NilZero.string_of_int (Z.to_int value))%string.

(** [prs.slide_width = cx] *)
Definition set_slide_width (cx : Z) : M unit :=
  if slide_size_accepted cx then
    update_prs (fun d => {| slide_width := cx; slide_height := slide_height d;
                            slides := slides d |})
  else raise (slide_size_error cx).

(** [prs.slide_height = cy] *)
Definition set_slide_height (cy : Z) : M unit :=
  if slide_size_accepted cy then
    update_prs (fun d => {| slide_width := slide_width d; slide_height := cy;
                            slides := slides d |})
  else raise (slide_size_error cy).

(** [slide = prs.slides.add_slide(layout)]: a new last slide without shapes. *)
Definition add_slide : M unit :=
  update_prs (fun d => {| slide_width := slide_width d;
                          slide_height := slide_height d;
                          slides := slides d ++ [[]] |}).

Definition on_last {A} (f : A -> A) (l : list A) : list A :=
  match rev l with
  | [] => []
  | x :: r => rev r ++ [f x]
  end.

(** [slide.shapes.add_picture(stream, 0, 0, width=prs.slide_width,
    height=prs.slide_height)] on the slide added last. *)
Definition add_picture (stream : jpeg) : M unit :=
  update_prs (fun d =>
    let p := {| pic_stream := stream; pic_left := 0; pic_top := 0;
                pic_width := slide_width d; pic_height := slide_height d |} in
    {| slide_width := slide_width d; slide_height := slide_height d;
       slides := on_last (fun shapes => shapes ++ [p]) (slides d) |}).

(** [prs.save(save_path)] *)
Definition prs_save (w : world) (save_path : string) : M unit :=
  fun s =>
    match prs_save_error w save_path with
    | Some e => (Raise e, s)
    | None =>
        (Ok tt, {| prs := prs s; emitted := emitted s; printed := printed s;
                   polls := polls s;
                   written := option_map (fun d => (save_path, d)) (prs s) |})
    end.

(** [img.convert(m)] *)
Definition Image_convert (w : world) (img : image) (m : string) : result image :=
  match convert_error w img m with
  | Some e => Raise e
  | None => Ok {| pixels := pixels img; mode := m; size := size img |}
  end.

(** ** [ConversionWorker] *)

Definition is_pdf (file_path : string) : bool :=
  PyStr.endswith (PyStr.lower file_path) ".pdf"%string.

Definition get_reference_size (w : world) (dpi : Z) (file_path : string)
  : option (Z * Z) :=
  if is_pdf file_path then
    match convert_from_path w file_path dpi (Some (1, 1)) None with
    | Ok (img :: _) => Some (size img)
    | Ok [] => None
    | Raise _ => None
    end
  else
    match Image_open w file_path with
    | Ok img => Some (size img)
    | Raise _ => None
    end.

(** [int(pixels / dpi * 914400)] *)
Definition emu_of_pixels (px dpi : Z) : option Z :=
  PyNum.int_div_mul px dpi 914400.

(** [int((processed_count / total_files) * 100)] *)
Definition percent (processed_count total_files : Z) : option Z :=
  PyNum.int_div_mul processed_count total_files 100.

Definition jpg_quality (dpi : Z) : Z := if dpi >=? 300 then 95 else 85.

(** The images of one file: lines 93-116.  [Ok None] is the [continue]
    taken inside the [try]; [Raise] goes to the outer [except]. *)
Definition load_images (w : world) (dpi : Z) (i total_files : nat)
    (file_path file_name : string) : M (option (list image)) :=
  if is_pdf file_path then
    emit (status_updated (ReadingPdf (i + 1) total_files file_name)) ;;
    images <- of_result (convert_from_path w file_path dpi None (Some "jpeg"%string)) ;;
    match images with
    | [] => emit (status_updated (NoImagesWarning file_name)) ;; ret None
    | _ => ret (Some images)
    end
  else
    emit (status_updated (OpeningImage (i + 1) total_files file_name)) ;;
    try_except
      (img <- of_result (Image_open w file_path) ;;
       img <- (if String.eqb (mode img) "RGBA"%string || String.eqb (mode img) "P"%string
               then of_result (Image_convert w img "RGB"%string)
               else ret img) ;;
       ret (Some [img]))
      (fun e => print ("Error: " ++ exn_message e)%string ;; ret None).

(** The page loop: lines 120-142. *)
Fixpoint add_pages (w : world) (dpi : Z) (i total_files : nat)
    (file_name : string) (total_pages p_idx : nat) (images : list image)
  : M unit :=
  match images with
  | [] => ret tt
  | img :: rest =>
      running <- is_running w ;;
      if negb running then ret tt
      else
        emit (status_updated
                (ConvertingPage (i + 1) total_files file_name (p_idx + 1) total_pages)) ;;
        add_slide ;;
        of_error (save_error w img "JPEG"%string (jpg_quality dpi)) ;;
        add_picture {| jpeg_source := img; jpeg_quality := jpg_quality dpi |} ;;
        add_pages w dpi i total_files file_name total_pages (S p_idx) rest
  end.

(** How one iteration of the file loop ends. *)
Inductive flow : Type :=
| Continue      (* [continue]: the rest of the body is skipped *)
| FallThrough.  (* the body is left at its end *)

(** The [try] statement of the file loop: lines 92-145. *)
Definition process_file (w : world) (dpi : Z) (i total_files : nat)
    (file_path : string) : M flow :=
  let file_name := PyStr.basename file_path in
  try_except
    (images_to_process <- load_images w dpi i total_files file_path file_name ;;
     match images_to_process with
     | None => ret Continue
     | Some images =>
         add_pages w dpi i total_files file_name (List.length images) 0 images ;;
         ret FallThrough
     end)
    (fun e => emit (status_updated (ErrorOccurred file_name e)) ;; ret FallThrough).

(** The file loop: lines 86-149.  The result is the final [processed_count]. *)
Fixpoint process_files (w : world) (dpi : Z) (total_files i : nat)
    (files : list string) (processed_count : Z) : M Z :=
  match files with
  | [] => ret processed_count
  | file_path :: rest =>
      running <- is_running w ;;
      if negb running then ret processed_count
      else
        fl <- process_file w dpi i total_files file_path ;;
        match fl with
        | Continue => process_files w dpi total_files (S i) rest processed_count
        | FallThrough =>
            let processed_count := processed_count + 1 in
            progress <- of_option "percent"%string
                          (percent processed_count (Z.of_nat total_files)) ;;
            emit (progress_updated progress) ;;
            process_files w dpi total_files (S i) rest processed_count
        end
  end.

(** Lines 72-78. *)
Definition decide_slide_size (w : world) (dpi : Z) (first_file : string) : M unit :=
  match get_reference_size w dpi first_file with
  | Some (width_px, height_px) =>
      cx <- of_option "slide_width"%string (emu_of_pixels width_px dpi) ;;
      set_slide_width cx ;;
      cy <- of_option "slide_height"%string (emu_of_pixels height_px dpi) ;;
      set_slide_height cy
  | None => emit (status_updated SizeFallback)
  end.

(** Lines 152-158. *)
Definition save_step (w : world) (save_path : string) : M unit :=
  running <- is_running w ;;
  if running then
    emit (status_updated Saving) ;;
    try_except
      (prs_save w save_path ;; emit (status_updated SaveDone))
      (fun e => emit (status_updated (SaveFailed e)))
  else ret tt.

Definition output_filename (w : world) : string :=
  ("Combined_Slides_" ++ timestamp_now w ++ ".pptx")%string.

(** [ConversionWorker.run] *)
Definition run (w : world) (file_list : list string) (output_dir : string)
    (dpi : Z) : M unit :=
  let total_files := List.length file_list in
  emit (status_updated Initializing) ;;
  match file_list with
  | [] => ret tt
  | first_file :: _ =>
      emit (status_updated (CheckingReference (PyStr.basename first_file))) ;;
      new_Presentation ;;
      decide_slide_size w dpi first_file ;;
      let save_path := PyStr.path_join output_dir (output_filename w) in
      process_files w dpi total_files 0 file_list 0 ;;
      save_step w save_path ;;
      emit (finished_signal output_dir)
  end.

(** A whole run of a fresh worker. *)
Definition execute (w : world) (file_list : list string) (output_dir : string)
    (dpi : Z) : result unit * state :=
  run w file_list output_dir dpi initial.

Definition final (w : world) (file_list : list string) (output_dir : string)
    (dpi : Z) : state :=
  snd (execute w file_list output_dir dpi).

(** The slides of the deck held by a state. *)
Definition deck_slides (s : state) : list slide :=
  match prs s with
  | Some d => slides d
  | None => []
  end.

(** ** A concrete environment

    [a.pdf] has two pages; [b.jpg] is an RGB image; [gray_alpha.png] is a
    greyscale image with an alpha channel (Pillow mode [LA]); [logo.png] is
    an RGBA image; [scan.png] is an A4 page scanned at 300 dpi; any other
    file cannot be read.  Pillow's JPEG writer
    accepts the modes of [jpeg_modes] and raises on every other one. *)
Module Sample.
Local Open Scope string_scope.

Definition page (n : nat) : image :=
  {| pixels := n; mode := "RGB"; size := (1275, 1650) |}.

Definition photo : image :=
  {| pixels := 3; mode := "RGB"; size := (800, 600) |}.

Definition gray_alpha : image :=
  {| pixels := 4; mode := "LA"; size := (256, 256) |}.

Definition scan : image :=
  {| pixels := 6; mode := "RGB"; size := (2480, 3508) |}.

Definition logo : image :=
  {| pixels := 5; mode := "RGBA"; size := (640, 480) |}.

Definition jpeg_modes : list string :=
  ["1"; "L"; "RGB"; "RGBX"; "CMYK"; "YCbCr"].

Definition env (stop : option nat) : world :=
  {| convert_from_path := fun path _ pages _ =>
       if String.eqb path "a.pdf" then
         match pages with
         | Some _ => Ok [page 1]
         | None => Ok [page 1; page 2]
         end
       else Raise (Exception "Unable to get page count");
     Image_open := fun path =>
       if String.eqb path "b.jpg" then Ok photo
       else if String.eqb path "gray_alpha.png" then Ok gray_alpha
       else if String.eqb path "logo.png" then Ok logo
       else if String.eqb path "scan.png" then Ok scan
       else Raise (Exception "cannot identify image file");
     convert_error := fun _ _ => None;
     save_error := fun img _ _ =>
       if existsb (String.eqb (mode img)) jpeg_modes then None
       else Some (Exception "cannot write mode as JPEG");
     prs_save_error := fun _ => None;
     timestamp_now := "20240101_120000";
     stop_after := stop |}.

(** The job of the specification's example. *)
Definition job : list string := ["a.pdf"; "bad.png"; "b.jpg"].

End Sample.

(** ** What a run leaves in the deck

    The deck a run builds, written as functions of the environment alone:
    [n] counts the reads of [is_running] made so far. *)

(** The deck after lines 69-78, [None] when these lines raise: the size
    arithmetic fails, or python-pptx refuses the width or the height. *)
Definition sized_deck (w : world) (dpi : Z) (first_file : string)
  : option Presentation :=
  match get_reference_size w dpi first_file with
  | Some (width_px, height_px) =>
      match emu_of_pixels width_px dpi, emu_of_pixels height_px dpi with
      | Some cx, Some cy =>
          if slide_size_accepted cx && slide_size_accepted cy then
            Some {| slide_width := cx; slide_height := cy; slides := [] |}
          else None
      | _, _ => None
      end
  | None => Some default_Presentation
  end.

(** The images the page loop receives for a file: none when the file is
    skipped or its loading raises. *)
Definition images_of (w : world) (dpi : Z) (file_path : string) : list image :=
  if is_pdf file_path then
    match convert_from_path w file_path dpi None (Some "jpeg"%string) with
    | Ok images => images
    | Raise _ => []
    end
  else
    match Image_open w file_path with
    | Ok img =>
        if String.eqb (mode img) "RGBA"%string || String.eqb (mode img) "P"%string
        then match Image_convert w img "RGB"%string with
             | Ok img' => [img']
             | Raise _ => []
             end
        else [img]
    | Raise _ => []
    end.

(** The picture [add_picture] places for an image. *)
Definition full_bleed (dpi cx cy : Z) (img : image) : picture :=
  {| pic_stream := {| jpeg_source := img; jpeg_quality := jpg_quality dpi |};
     pic_left := 0; pic_top := 0; pic_width := cx; pic_height := cy |}.

Fixpoint pages_out (w : world) (dpi cx cy : Z) (n : nat) (images : list image)
  : list slide * nat :=
  match images with
  | [] => ([], n)
  | img :: rest =>
      if flag_at (stop_after w) n then
        match save_error w img "JPEG"%string (jpg_quality dpi) with
        | Some _ => ([[]], S n)
        | None =>
            let (more, n') := pages_out w dpi cx cy (S n) rest in
            ([full_bleed dpi cx cy img] :: more, n')
        end
      else ([], S n)
  end.

Fixpoint files_out (w : world) (dpi cx cy : Z) (n : nat) (files : list string)
  : list slide * nat :=
  match files with
  | [] => ([], n)
  | file_path :: rest =>
      if flag_at (stop_after w) n then
        let (here, n1) := pages_out w dpi cx cy (S n) (images_of w dpi file_path) in
        let (more, n2) := files_out w dpi cx cy n1 rest in
        ((here ++ more)%list, n2)
      else ([], S n)
  end.

(** The slides one file contributes to a run that is not cancelled. *)
Definition item_slides (w : world) (dpi : Z) (d : Presentation)
    (file_path : string) : list slide :=
  fst (pages_out w dpi (slide_width d) (slide_height d) 0 (images_of w dpi file_path)).

Definition grow (d : Presentation) (new : list slide) : Presentation :=
  {| slide_width := slide_width d; slide_height := slide_height d;
     slides := (slides d ++ new)%list |}.

Definition is_finished (sg : signal) : bool :=
  match sg with
  | finished_signal _ => true
  | _ => false
  end.

(** The values given to [progress_updated], oldest first. *)
Fixpoint progress_values (l : list signal) : list Z :=
  match l with
  | [] => []
  | progress_updated v :: r => v :: progress_values r
  | _ :: r => progress_values r
  end.


(** [s'] is [s] after work that added the slides [new] at the end of the
    deck, read the flag up to poll [n'], wrote no file and emitted no
    [finished_signal]. *)
Definition extends (new : list slide) (n' : nat) (s s' : state) : Prop :=
  (exists d, prs s = Some d /\ prs s' = Some (grow d new)) /\
  polls s' = n' /\
  written s' = written s /\
  exists ev, emitted s' = (emitted s ++ ev)%list /\ existsb is_finished ev = false.

(** Rasterizing or loading the file raises: [convert_from_path],
    [Image.open] or [convert] fails. *)
Definition unreadable (w : world) (dpi : Z) (file_path : string) : bool :=
  if is_pdf file_path then
    match convert_from_path w file_path dpi None (Some "jpeg"%string) with
    | Ok _ => false
    | Raise _ => true
    end
  else
    match Image_open w file_path with
    | Ok img =>
        if String.eqb (mode img) "RGBA"%string || String.eqb (mode img) "P"%string
        then match convert_error w img "RGB"%string with
             | Some _ => true
             | None => false
             end
        else false
    | Raise _ => true
    end.

(** Lines 75-76 do not raise for this job: the size arithmetic of the
    first file is defined, and python-pptx accepts the width and the height
    it gives (1 to 56 inches). *)
Definition size_defined (w : world) (dpi : Z) (file_list : list string) : bool :=
  match file_list with
  | [] => true
  | first_file :: _ =>
      match sized_deck w dpi first_file with
      | Some _ => true
      | None => false
      end
  end.

(** Every page of every file is accepted by the JPEG writer. *)
Definition encodable (w : world) (dpi : Z) (file_path : string) : bool :=
  forallb (fun img =>
             match save_error w img "JPEG"%string (jpg_quality dpi) with
             | Some _ => false
             | None => true
             end) (images_of w dpi file_path).

(** The file is processed without any error: it is read, and each of its
    pages is encoded. *)
Definition successfully_processed (w : world) (dpi : Z) (file_path : string)
  : bool :=
  negb (unreadable w dpi file_path) && encodable w dpi file_path.

(** The sum of the page counts of the successfully processed files. *)
Definition pages_of_successful (w : world) (dpi : Z) (files : list string) : nat :=
  list_sum (map (fun f => if successfully_processed w dpi f
                          then List.length (images_of w dpi f) else 0%nat) files).

(** Pillow modes with an alpha channel or a palette. *)
Definition carries_alpha_or_palette (m : string) : bool :=
  existsb (String.eqb m) ["RGBA"; "LA"; "PA"; "RGBa"; "La"; "P"]%string.

(** Truncation of a rational toward zero. *)
Definition Qtrunc (q : Q) : Z :=
  if Qle_bool 0 q then Qfloor q else Qceiling q.

(** A float that is zero or finite, below [2 ^ D] in magnitude and with an
    exponent of at most [E]. *)
Definition finite_below (D E : Z) (x : spec_float) : Prop :=
  match x with
  | S754_zero _ => True
  | S754_finite _ m e => Zdigits2 (Zpos m) + e <= D /\ e <= E
  | _ => False
  end.

(** The sign bit of a float. *)
Definition is_negative (x : spec_float) : bool :=
  match x with
  | S754_zero s => s
  | S754_infinity s => s
  | S754_nan => false
  | S754_finite s _ _ => s
  end.

(** [save_path] of [run]. *)
Definition save_path (w : world) (output_dir : string) : string :=
  PyStr.path_join output_dir (output_filename w).

(** What [run] leaves in [written] after a loop that built [d] and read the
    flag [n] times. *)
Definition saved (w : world) (output_dir : string) (n : nat) (d : Presentation)
  : option (string * Presentation) :=
  if flag_at (stop_after w) n then
    match prs_save_error w (save_path w output_dir) with
    | None => Some (save_path w output_dir, d)
    | Some _ => None
    end
  else None.

(** The same environment, in which [stop] is never called. *)
Definition uncancelled (w : world) : world :=
  {| convert_from_path := convert_from_path w;
     Image_open := Image_open w;
     convert_error := convert_error w;
     save_error := save_error w;
     prs_save_error := prs_save_error w;
     timestamp_now := timestamp_now w;
     stop_after := None |}.

(** A picture placed at the origin with the extent [cx] x [cy], encoded at
    the quality of the resolution. *)
Definition placed (dpi cx cy : Z) (p : picture) : Prop :=
  pic_left p = 0 /\ pic_top p = 0 /\ pic_width p = cx /\ pic_height p = cy /\
  jpeg_quality (pic_stream p) = jpg_quality dpi.

(** The slide lines 129-141 leave for a page: the picture of the page, at
    the origin and of the extent [cx] x [cy], or nothing when the JPEG
    writer refuses the page. *)
Definition slide_for (w : world) (dpi cx cy : Z) (img : image) : slide :=
  match save_error w img "JPEG"%string (jpg_quality dpi) with
  | Some _ => []
  | None => [full_bleed dpi cx cy img]
  end.

(** The slides of the page loop when [stop] is never called, each with the
    number of the read of [is_running] that precedes it (the read of line
    121 for its page, counted from 0); [n] reads were made before. *)
Fixpoint pages_reads (w : world) (dpi cx cy : Z) (n : nat) (images : list image)
  : list (nat * slide) * nat :=
  match images with
  | [] => ([], n)
  | img :: rest =>
      match save_error w img "JPEG"%string (jpg_quality dpi) with
      | Some _ => ([(n, [])], S n)
      | None =>
          let (more, n') := pages_reads w dpi cx cy (S n) rest in
          ((n, [full_bleed dpi cx cy img]) :: more, n')
      end
  end.

Fixpoint files_reads (w : world) (dpi cx cy : Z) (n : nat) (files : list string)
  : list (nat * slide) * nat :=
  match files with
  | [] => ([], n)
  | file_path :: rest =>
      let (here, n1) :=
        pages_reads w dpi cx cy (S n) (images_of w dpi file_path) in
      let (more, n2) := files_reads w dpi cx cy n1 rest in
      ((here ++ more)%list, n2)
  end.

(** The slides of the job when [stop] is never called, each with the number
    of the read of the flag that precedes it. *)
Definition slide_reads (w : world) (dpi : Z) (file_list : list string)
  : list (nat * slide) :=
  match file_list with
  | [] => []
  | first_file :: _ =>
      match sized_deck w dpi first_file with
      | Some d0 =>
          fst (files_reads w dpi (slide_width d0) (slide_height d0) 0 file_list)
      | None => []
      end
  end.

(** The read of the flag came before [stop]: it was one of the first [k]. *)
Definition before_stop (k : nat) (t : nat * slide) : bool :=
  (fst t <? k)%nat.

(** ** Further functions of the environment and of the trace *)

(** The same environment with [stop] called after [stop] reads of the flag. *)
Definition stopped_at (w : world) (stop : option nat) : world :=
  {| convert_from_path := convert_from_path w;
     Image_open := Image_open w;
     convert_error := convert_error w;
     save_error := save_error w;
     prs_save_error := prs_save_error w;
     timestamp_now := timestamp_now w;
     stop_after := stop |}.

(** The status emitted by lines 77-78. *)
Definition sizing_signals (w : world) (dpi : Z) (first_file : string)
  : list signal :=
  match get_reference_size w dpi first_file with
  | Some _ => []
  | None => [status_updated SizeFallback]
  end.

(** The state in which the file loop starts. *)
Definition loop_start (w : world) (dpi : Z) (first_file : string)
    (d0 : Presentation) : state :=
  {| prs := Some d0;
     emitted := [status_updated Initializing;
                 status_updated (CheckingReference (PyStr.basename first_file))]
                ++ sizing_signals w dpi first_file;
     printed := [];
     polls := 0;
     written := None |}.

(** The file is left by one of the two [continue]: a PDF without page, or an
    image whose opening or conversion raises. *)
Definition skipped (w : world) (dpi : Z) (file_path : string) : bool :=
  if is_pdf file_path then
    match convert_from_path w file_path dpi None (Some "jpeg"%string) with
    | Ok [] => true
    | _ => false
    end
  else
    match Image_open w file_path with
    | Ok img =>
        if String.eqb (mode img) "RGBA"%string || String.eqb (mode img) "P"%string
        then match convert_error w img "RGB"%string with
             | Some _ => true
             | None => false
             end
        else false
    | Raise _ => true
    end.

(** The line printed for an image whose opening or conversion raises. *)
Definition print_of (w : world) (file_path : string) : list string :=
  if is_pdf file_path then []
  else
    match Image_open w file_path with
    | Ok img =>
        if String.eqb (mode img) "RGBA"%string || String.eqb (mode img) "P"%string
        then match convert_error w img "RGB"%string with
             | Some e => [("Error: " ++ exn_message e)%string]
             | None => []
             end
        else []
    | Raise e => [("Error: " ++ exn_message e)%string]
    end.

(** The error of the first page the JPEG writer refuses. *)
Fixpoint first_refusal (w : world) (dpi : Z) (images : list image) : option exn :=
  match images with
  | [] => None
  | img :: rest =>
      match save_error w img "JPEG"%string (jpg_quality dpi) with
      | Some e => Some e
      | None => first_refusal w dpi rest
      end
  end.

(** The error reported by the outer [except] for a file: the error of the
    rasterizer, or of the first refused page. *)
Definition error_of (w : world) (dpi : Z) (file_path : string) : list exn :=
  if is_pdf file_path then
    match convert_from_path w file_path dpi None (Some "jpeg"%string) with
    | Ok images =>
        match first_refusal w dpi images with
        | Some e => [e]
        | None => []
        end
    | Raise e => [e]
    end
  else
    match first_refusal w dpi (images_of w dpi file_path) with
    | Some e => [e]
    | None => []
    end.

(** The files and errors given to the status of line 145, oldest first. *)
Fixpoint errors_reported (l : list signal) : list (string * exn) :=
  match l with
  | [] => []
  | status_updated (ErrorOccurred name e) :: r => (name, e) :: errors_reported r
  | _ :: r => errors_reported r
  end.

(** The statuses of the save step, when the flag is read for the [n]-th
    time at line 152. *)
Definition save_signals (w : world) (output_dir : string) (n : nat)
  : list signal :=
  if flag_at (stop_after w) n then
    match prs_save_error w (save_path w output_dir) with
    | None => [status_updated Saving; status_updated SaveDone]
    | Some e => [status_updated Saving; status_updated (SaveFailed e)]
    end
  else [].

(** The files that reach the update of the progress. *)
Definition handled (w : world) (dpi : Z) (files : list string) : list string :=
  filter (fun f => negb (skipped w dpi f)) files.


(** ** [FileDropListWidget]

    The list widget is the list of the texts of its rows; [addItem] appends
    one.  What the file system answers to [os.path.isfile], [os.path.isdir]
    and [os.walk] is collected in a record: [os_walk] gives the triples
    [(root, dirs, files)] that the generator yields, in its order.  The
    file names that [os.walk] yields are single path components, which
    [PyStr.path_join] joins to [root] as [os.path.join] does. *)

Record filesystem := {
  os_path_isfile : string -> bool;
  os_path_isdir : string -> bool;
  os_walk : string -> list (string * list string * list string)
}.

Definition VALID_EXTENSIONS : list string :=
  [".pdf"; ".png"; ".jpg"; ".jpeg"; ".bmp"; ".tiff"]%string.

(** [s.endswith(suffixes)] for a tuple of suffixes. *)
Definition endswith_any (s : string) (suffixes : list string) : bool :=
  existsb (PyStr.endswith s) suffixes.

(** [path.lower().endswith(self.VALID_EXTENSIONS)]. *)
Definition has_valid_extension (path : string) : bool :=
  endswith_any (PyStr.lower path) VALID_EXTENSIONS.

(** [path in items]. *)
Definition contains (items : list string) (path : string) : bool :=
  existsb (String.eqb path) items.

(** Lines 197-199 and 208-210: the item is added unless its text is there. *)
Definition add_unique (items : list string) (path : string) : list string :=
  if contains items path then items else items ++ [path].

(** The body of the inner loop of [add_folder], for one [file] of [root]. *)
Definition add_walked_file (root : string) (items : list string)
    (file : string) : list string :=
  if has_valid_extension file then add_unique items (PyStr.path_join root file)
  else items.

(** The body of the outer loop of [add_folder], for one triple of the walk. *)
Definition add_walked_dir (items : list string)
    (entry : string * list string * list string) : list string :=
  let '(root, _, files) := entry in
  fold_left (add_walked_file root) files items.

Definition add_folder (fs : filesystem) (items : list string)
    (folder_path : string) : list string :=
  fold_left add_walked_dir (os_walk fs folder_path) items.

(** The body of the loop of [add_files]. *)
Definition add_path (fs : filesystem) (items : list string) (path : string)
  : list string :=
  if os_path_isfile fs path && has_valid_extension path then
    add_unique items path
  else if os_path_isdir fs path then add_folder fs items path
  else items.

Definition add_files (fs : filesystem) (items : list string)
    (file_paths : list string) : list string :=
  fold_left (add_path fs) file_paths items.

(** [dropEvent]: [urls] is [Some] of the local files of the dropped URLs
    when the MIME data has URLs.  The result tells whether the event is
    accepted. *)
Definition dropEvent (fs : filesystem) (items : list string)
    (urls : option (list string)) : list string * bool :=
  match urls with
  | Some files => (add_files fs items files, true)
  | None => (items, false)
  end.

(** What a loop over a list adds to the items: only new, distinct texts
    that satisfy [P], after the items that were there. *)
Definition appends_only (P : string -> Prop) (items items' : list string)
  : Prop :=
  exists added,
    items' = items ++ added /\
    Forall P added /\
    Forall (fun p => ~ In p items) added /\
    NoDup added.

(** The texts with one of the six extensions. *)
Definition valid (path : string) : Prop := has_valid_extension path = true.

(** A loop body never drops an item. *)
Definition grows {A : Type} (step : list string -> A -> list string) : Prop :=
  forall items x p, In p items -> In p (step items x).

(** A loop body changes nothing in a list that holds all it would add. *)
Definition absorbed {A : Type} (step : list string -> A -> list string)
  : Prop :=
  forall items items' x,
    incl (step items x) items' -> step items' x = items'.

Module Desk.

(** A folder with a report, two scans (one of them with an upper-case
    extension), a text file and a sub-folder. *)
Definition fs : filesystem :=
  {| os_path_isfile := fun p =>
       existsb (String.eqb p) ["/in/cover.PNG"; "/in/notes.txt"]%string;
     os_path_isdir := fun p => String.eqb p "/in/scans"%string;
     os_walk := fun p =>
       if String.eqb p "/in/scans"%string then
         [("/in/scans", ["old"], ["a.pdf"; "readme.md"; "b.JPG"]);
          ("/in/scans/old", [], ["c.tiff"])]%string
       else [] |}.

Definition dropped : list string :=
  ["/in/cover.PNG"; "/in/notes.txt"; "/in/scans"; "/in/cover.PNG"]%string.

End Desk.

(** ** [PdfToPptApp]

    The window is a record of what its widgets show and of which of them
    are enabled.  The answers of Qt that a handler reads (the current row,
    the rows of the selected items, what a dialog returns) are arguments
    of the handler. *)

From Stdlib Require Import Sorting.Permutation.

(** The items of [combo_dpi], in the order of [init_ui]. *)
Inductive quality : Type := Screen | Standard | Print | Best.

(** The user data of an item of [combo_dpi]. *)
Definition item_data (q : quality) : Z :=
  match q with
  | Screen => 96
  | Standard => 150
  | Print => 300
  | Best => 400
  end.

(** The texts of [status_label]. *)
Inductive label : Type :=
| Waiting
| ResetDone
| Preparing
| Completed
| FolderNotOpened (e : exn)
| Message (msg : status).

(** The texts of [btn_convert]. *)
Inductive caption : Type := StartConversion | Processing.

(** The arguments a [ConversionWorker] is made with. *)
Record ConversionWorker : Type := mkWorker {
  worker_file_list : list string;
  worker_output_dir : string;
  worker_dpi : Z
}.

Record window : Type := mkWindow {
  (** [isEnabled()] of the widgets *)
  btn_add_file : bool;
  btn_add_folder : bool;
  btn_clear : bool;
  btn_remove : bool;
  btn_up : bool;
  btn_down : bool;
  list_widget : bool;
  combo_dpi : bool;
  btn_convert : bool;
  (** what the widgets show *)
  list_items : list string;
  currentData : quality;
  btn_convert_text : caption;
  progress_bar : Z;
  status_label : label;
  (** [self.worker] *)
  worker : option ConversionWorker
}.

(** The window after [__init__]. *)
Definition init_ui : window :=
  {| btn_add_file := true; btn_add_folder := true; btn_clear := true;
     btn_remove := true; btn_up := true; btn_down := true;
     list_widget := true; combo_dpi := true; btn_convert := true;
     list_items := [];
     currentData := Print;
     btn_convert_text := StartConversion;
     progress_bar := 0;
     status_label := Waiting;
     worker := None |}.

(** What opening a folder with the program of the platform raises, if
    anything ([os.startfile], [open], [xdg-open]). *)
Record desktop : Type := { open_error : string -> option exn }.

Definition set_list_items (items : list string) (win : window) : window :=
  {| btn_add_file := btn_add_file win; btn_add_folder := btn_add_folder win;
     btn_clear := btn_clear win; btn_remove := btn_remove win;
     btn_up := btn_up win; btn_down := btn_down win;
     list_widget := list_widget win; combo_dpi := combo_dpi win;
     btn_convert := btn_convert win;
     list_items := items;
     currentData := currentData win;
     btn_convert_text := btn_convert_text win;
     progress_bar := progress_bar win;
     status_label := status_label win;
     worker := worker win |}.

Definition setCurrentIndex (q : quality) (win : window) : window :=
  {| btn_add_file := btn_add_file win; btn_add_folder := btn_add_folder win;
     btn_clear := btn_clear win; btn_remove := btn_remove win;
     btn_up := btn_up win; btn_down := btn_down win;
     list_widget := list_widget win; combo_dpi := combo_dpi win;
     btn_convert := btn_convert win;
     list_items := list_items win;
     currentData := q;
     btn_convert_text := btn_convert_text win;
     progress_bar := progress_bar win;
     status_label := status_label win;
     worker := worker win |}.

(** [progress_bar.setValue]: the bar keeps its range of 0 to 100, and a
    value outside the range is ignored. *)
Definition setValue (value : Z) (win : window) : window :=
  if (0 <=? value) && (value <=? 100) then
    {| btn_add_file := btn_add_file win; btn_add_folder := btn_add_folder win;
       btn_clear := btn_clear win; btn_remove := btn_remove win;
       btn_up := btn_up win; btn_down := btn_down win;
       list_widget := list_widget win; combo_dpi := combo_dpi win;
       btn_convert := btn_convert win;
       list_items := list_items win;
       currentData := currentData win;
       btn_convert_text := btn_convert_text win;
       progress_bar := value;
       status_label := status_label win;
       worker := worker win |}
  else win.

Definition setText (text : label) (win : window) : window :=
  {| btn_add_file := btn_add_file win; btn_add_folder := btn_add_folder win;
     btn_clear := btn_clear win; btn_remove := btn_remove win;
     btn_up := btn_up win; btn_down := btn_down win;
     list_widget := list_widget win; combo_dpi := combo_dpi win;
     btn_convert := btn_convert win;
     list_items := list_items win;
     currentData := currentData win;
     btn_convert_text := btn_convert_text win;
     progress_bar := progress_bar win;
     status_label := text;
     worker := worker win |}.

Definition set_worker (wk : option ConversionWorker) (win : window) : window :=
  {| btn_add_file := btn_add_file win; btn_add_folder := btn_add_folder win;
     btn_clear := btn_clear win; btn_remove := btn_remove win;
     btn_up := btn_up win; btn_down := btn_down win;
     list_widget := list_widget win; combo_dpi := combo_dpi win;
     btn_convert := btn_convert win;
     list_items := list_items win;
     currentData := currentData win;
     btn_convert_text := btn_convert_text win;
     progress_bar := progress_bar win;
     status_label := status_label win;
     worker := wk |}.

(** [toggle_ui]: [btn_convert] is connected to [start_conversion] once
    before and once after the call. *)
Definition toggle_ui (enabled : bool) (win : window) : window :=
  {| btn_add_file := enabled; btn_add_folder := enabled;
     btn_clear := enabled; btn_remove := enabled;
     btn_up := enabled; btn_down := enabled;
     list_widget := enabled; combo_dpi := enabled;
     btn_convert := if enabled then true else false;
     list_items := list_items win;
     currentData := currentData win;
     btn_convert_text := if enabled then StartConversion else Processing;
     progress_bar := progress_bar win;
     status_label := status_label win;
     worker := worker win |}.

(** *** The rows of the list *)

(** [takeItem(row)]: the item of the row, if there is one, and the rows
    that are left. *)
Definition takeItem (row : Z) (items : list string)
  : option string * list string :=
  if (0 <=? row) && (row <? Z.of_nat (List.length items)) then
    (nth_error items (Z.to_nat row),
     firstn (Z.to_nat row) items ++ skipn (S (Z.to_nat row)) items)
  else (None, items).

(** [insertItem(row, item)]: a row below zero is the first one, a row
    past the end the one after the last; nothing is inserted for no item. *)
Definition insertItem (row : Z) (item : option string) (items : list string)
  : list string :=
  match item with
  | None => items
  | Some text =>
      let r :=
        if row <? 0 then 0%nat
        else if Z.of_nat (List.length items) <? row then List.length items
        else Z.to_nat row in
      firstn r items ++ text :: skipn r items
  end.

(** [move_item_up], for the answer [curr_row] of [currentRow()]: the rows
    afterwards and the argument of [setCurrentRow], if it is called. *)
Definition move_item_up (curr_row : Z) (items : list string)
  : list string * option Z :=
  if 0 <? curr_row then
    let '(item, items1) := takeItem curr_row items in
    (insertItem (curr_row - 1) item items1, Some (curr_row - 1))
  else (items, None).

Definition move_item_down (curr_row : Z) (items : list string)
  : list string * option Z :=
  if (curr_row <? Z.of_nat (List.length items) - 1) && (0 <=? curr_row) then
    let '(item, items1) := takeItem curr_row items in
    (insertItem (curr_row + 1) item items1, Some (curr_row + 1))
  else (items, None).

(** [remove_selected_item]: [rows] are the answers of [row(item)] for the
    selected items, each at the time the item is taken. *)
Definition remove_selected_item (rows : list Z) (items : list string)
  : list string :=
  fold_left (fun items row => snd (takeItem row items)) rows items.

(** *** The handlers *)

(** [files] is what [getOpenFileNames] returns. *)
Definition open_file_dialog (fs : filesystem) (files : list string)
    (win : window) : window :=
  match files with
  | [] => win
  | _ => set_list_items (add_files fs (list_items win) files) win
  end.

(** [folder] is what [getExistingDirectory] returns. *)
Definition open_folder_dialog (fs : filesystem) (folder : string)
    (win : window) : window :=
  if String.eqb folder ""%string then win
  else set_list_items (add_folder fs (list_items win) folder) win.

Definition clear_list_and_reset (win : window) : window :=
  toggle_ui true
    (set_worker None
       (setText ResetDone (setValue 0 (set_list_items [] win)))).

(** [output_dir] is what the dialog for the output folder returns. *)
Definition start_conversion (output_dir : string) (win : window) : window :=
  match list_items win with
  | [] => win
  | _ =>
      if String.eqb output_dir ""%string then win
      else
        let selected_dpi := item_data (currentData win) in
        let win := setText Preparing (setValue 0 (toggle_ui false win)) in
        let file_list := list_items win in
        set_worker (Some (mkWorker file_list output_dir selected_dpi)) win
  end.

Definition update_progress (value : Z) (win : window) : window :=
  setValue value win.

Definition update_status (message : status) (win : window) : window :=
  setText (Message message) win.

Definition open_folder (d : desktop) (path : string) (win : window) : window :=
  match open_error d path with
  | None => win
  | Some e => setText (FolderNotOpened e) win
  end.

Definition conversion_finished (d : desktop) (output_dir : string)
    (win : window) : window :=
  open_folder d output_dir
    (setText Completed (setValue 100 (toggle_ui true win))).

(** *** Events

    A disabled widget gives no event to its handler.  The events of the
    user carry the answers of Qt and of the file system that the handler
    reads; the signals of the worker go to the slots they are connected to
    in [start_conversion]. *)

Inductive user_event : Type :=
| click_add_file (fs : filesystem) (files : list string)
| click_add_folder (fs : filesystem) (folder : string)
| click_clear
| click_remove (rows : list Z)
| click_up (curr_row : Z)
| click_down (curr_row : Z)
| click_convert (output_dir : string)
| drop (fs : filesystem) (urls : option (list string))
| choose_dpi (q : quality).

Definition on_user (e : user_event) (win : window) : window :=
  match e with
  | click_add_file fs files =>
      if btn_add_file win then open_file_dialog fs files win else win
  | click_add_folder fs folder =>
      if btn_add_folder win then open_folder_dialog fs folder win else win
  | click_clear =>
      if btn_clear win then clear_list_and_reset win else win
  | click_remove rows =>
      if btn_remove win then
        set_list_items (remove_selected_item rows (list_items win)) win
      else win
  | click_up curr_row =>
      if btn_up win then
        set_list_items (fst (move_item_up curr_row (list_items win))) win
      else win
  | click_down curr_row =>
      if btn_down win then
        set_list_items (fst (move_item_down curr_row (list_items win))) win
      else win
  | click_convert output_dir =>
      if btn_convert win then start_conversion output_dir win else win
  | drop fs urls =>
      if list_widget win then
        set_list_items (fst (dropEvent fs (list_items win) urls)) win
      else win
  | choose_dpi q =>
      if combo_dpi win then setCurrentIndex q win else win
  end.

(** The connections made in [start_conversion]. *)
Definition deliver (d : desktop) (win : window) (sg : signal) : window :=
  match sg with
  | progress_updated value => update_progress value win
  | status_updated message => update_status message win
  | finished_signal output_dir => conversion_finished d output_dir win
  end.

Inductive event : Type :=
| user (e : user_event)
| delivered (d : desktop) (sg : signal).

Definition handle (win : window) (ev : event) : window :=
  match ev with
  | user e => on_user e win
  | delivered d sg => deliver d win sg
  end.

(** Every widget that has a handler is disabled. *)
Definition locked (win : window) : bool :=
  negb (btn_add_file win || btn_add_folder win || btn_clear win
        || btn_remove win || btn_up win || btn_down win
        || list_widget win || combo_dpi win || btn_convert win).

(** An event other than the delivery of [finished_signal]. *)
Definition before_the_end (ev : event) : bool :=
  match ev with
  | delivered _ (finished_signal _) => false
  | _ => true
  end.

(** The job of the window runs in [w]; its signals are delivered in the
    order in which they were emitted. *)
Definition run_worker (w : world) (d : desktop) (win : window) : window :=
  match worker win with
  | Some job =>
      fold_left (deliver d)
        (emitted (final w (worker_file_list job) (worker_output_dir job)
                    (worker_dpi job)))
        win
  | None => win
  end.

(** What a started job is made of. *)
Definition well_formed (job : ConversionWorker) : Prop :=
  worker_file_list job <> [] /\
  NoDup (worker_file_list job) /\
  worker_output_dir job <> ""%string /\
  In (worker_dpi job) [96; 150; 300; 400].

(** What holds of the window whatever happened to it. *)
Definition sound (win : window) : Prop :=
  NoDup (list_items win) /\
  match worker win with
  | Some job => well_formed job
  | None => True
  end.

Module Session.

Definition d : desktop := {| open_error := fun _ => None |}.

(** The window with the three files of [Sample.job] in its list. *)
Definition win : window := set_list_items Sample.job init_ui.

End Session.
(** * Facts *)

(** ** Binary64 arithmetic never overflows on the worker's operands *)

Section Rounding.
Import PyNum.

Lemma digits2_pos_size p : digits2_pos p = Pos.size p.
Proof. induction p; simpl; congruence. Qed.

Lemma Zdigits2_log2 m : 0 < m -> Zdigits2 m = Z.log2 m + 1.
Proof.
  destruct m as [|p|p]; try lia. intros _.
  destruct p; simpl; rewrite ?digits2_pos_size; lia.
Qed.

Lemma Zdigits2_nonneg m : 0 <= Zdigits2 m.
Proof. destruct m; simpl; lia. Qed.

Lemma Zdigits2_le a b : 0 <= a <= b -> Zdigits2 a <= Zdigits2 b.
Proof.
  intros [Ha Hab].
  destruct (Z.eq_dec a 0) as [->|Hn]; [apply Zdigits2_nonneg|].
  rewrite !Zdigits2_log2 by lia.
  pose proof (Z.log2_le_mono a b Hab). lia.
Qed.

Lemma Zdigits2_succ m : 0 <= m -> Zdigits2 (m + 1) <= Zdigits2 m + 1.
Proof.
  intros Hm. destruct (Z.eq_dec m 0) as [->|Hn]; [simpl; lia|].
  rewrite !Zdigits2_log2 by lia.
  pose proof (Z.log2_succ_le m).
  replace (Z.succ m) with (m + 1) in * by lia. lia.
Qed.

Lemma Zdigits2_shiftl m s :
  0 < m -> 0 <= s -> Zdigits2 (Z.shiftl m s) = Zdigits2 m + s.
Proof.
  intros Hm Hs.
  assert (0 < Z.shiftl m s).
  { rewrite Z.shiftl_mul_pow2 by lia.
    apply Z.mul_pos_pos; [lia|]. apply Z.pow_pos_nonneg; lia. }
  rewrite !Zdigits2_log2 by lia. rewrite Z.log2_shiftl by lia. lia.
Qed.

Lemma Zdigits2_div m b :
  0 < m -> 0 < b -> Zdigits2 (m / b) <= Z.max 1 (Zdigits2 m - Zdigits2 b + 1).
Proof.
  intros Hm Hb.
  assert (Hq : 0 <= m / b) by (apply Z.div_pos; lia).
  destruct (Z.eq_dec (m / b) 0) as [->|Hn]; [simpl; lia|].
  rewrite !Zdigits2_log2 by lia.
  assert (Hp : 0 < 2 ^ Z.log2 b)
    by (apply Z.pow_pos_nonneg; [lia|apply Z.log2_nonneg]).
  assert (Hle : m / b <= m / 2 ^ Z.log2 b).
  { apply Z.div_le_compat_l; [lia|]. split; [exact Hp|].
    apply Z.log2_spec; lia. }
  rewrite <- Z.shiftr_div_pow2 in Hle by apply Z.log2_nonneg.
  pose proof (Z.log2_le_mono _ _ Hle) as H1.
  rewrite Z.log2_shiftr in H1 by lia. lia.
Qed.

Lemma Zdigits2_mul a b :
  0 < a -> 0 < b -> Zdigits2 (a * b) <= Zdigits2 a + Zdigits2 b.
Proof.
  intros Ha Hb. rewrite !Zdigits2_log2 by nia.
  pose proof (Z.log2_mul_above a b ltac:(lia) ltac:(lia)). lia.
Qed.

(** One right shift drops one digit. *)
Lemma shr_1_digits r :
  0 <= shr_m r ->
  0 <= shr_m (shr_1 r) /\
  Zdigits2 (shr_m (shr_1 r)) = Z.max (Zdigits2 (shr_m r) - 1) 0.
Proof.
  destruct r as [m b c]; cbn [shr_m]. intros Hm.
  destruct m as [|[p|p|]|p]; try lia;
    cbn [shr_1 shr_m Zdigits2 digits2_pos]; rewrite ?Pos2Z.inj_succ; lia.
Qed.

Lemma iter_shr_1_digits p : forall r,
  0 <= shr_m r ->
  0 <= shr_m (iter_pos shr_1 p r) /\
  Zdigits2 (shr_m (iter_pos shr_1 p r))
  = Z.max (Zdigits2 (shr_m r) - Zpos p) 0.
Proof.
  induction p as [p IH|p IH|]; intros r Hr; simpl.
  - destruct (shr_1_digits r Hr) as [H1 E1].
    destruct (IH _ H1) as [H2 E2]. destruct (IH _ H2) as [H3 E3].
    split; [exact H3|]. rewrite E3, E2, E1. lia.
  - destruct (IH _ Hr) as [H2 E2]. destruct (IH _ H2) as [H3 E3].
    split; [exact H3|]. rewrite E3, E2. lia.
  - destruct (shr_1_digits r Hr) as [H1 E1].
    split; [exact H1|]. rewrite E1. lia.
Qed.

Lemma shr_record_of_loc_m m l : shr_m (shr_record_of_loc m l) = m.
Proof. destruct l as [|[]]; reflexivity. Qed.

Lemma fexp_eq x : fexp prec emax x = Z.max (x - 53) (-1074).
Proof. reflexivity. Qed.

(** After [shr_fexp] the exponent is [max e (fexp (digits m + e))] and
    the magnitude has not grown. *)
Lemma shr_fexp_bounds m e l mrs e1 :
  0 <= m ->
  shr_fexp prec emax m e l = (mrs, e1) ->
  0 <= shr_m mrs /\
  e1 = Z.max e (fexp prec emax (Zdigits2 m + e)) /\
  Zdigits2 (shr_m mrs) + e1 <= Z.max (Zdigits2 m + e) e1.
Proof.
  intros Hm. unfold shr_fexp, shr.
  set (n := fexp prec emax (Zdigits2 m + e) - e).
  destruct n as [|p|p] eqn:En; intros H; inversion H; subst; clear H;
    rewrite ?shr_record_of_loc_m.
  - repeat split; lia.
  - destruct (iter_shr_1_digits p (shr_record_of_loc m l)) as [H1 E1].
    { rewrite shr_record_of_loc_m; exact Hm. }
    rewrite shr_record_of_loc_m in E1.
    repeat split; lia.
  - repeat split; lia.
Qed.

Lemma round_nearest_even_bounds m l :
  0 <= m ->
  0 <= round_nearest_even m l /\
  Zdigits2 (round_nearest_even m l) <= Zdigits2 m + 1.
Proof.
  intros Hm. pose proof (Zdigits2_succ m Hm).
  unfold round_nearest_even.
  destruct l as [|[]]; try destruct (Z.even m); split; lia.
Qed.

(** Rounding a mantissa of bounded magnitude gives zero or a finite float. *)
Lemma binary_round_aux_finite s m e l D E :
  0 <= m -> Zdigits2 m + e <= D -> e <= E ->
  -1074 <= E <= 971 -> D - 52 <= E <= D -> D <= 1023 ->
  finite_below (D + 1) E (binary_round_aux prec emax s m e l).
Proof.
  intros Hm HD HE HEb HDE HDb. unfold binary_round_aux.
  destruct (shr_fexp prec emax m e l) as [mrs1 e1] eqn:S1.
  destruct (shr_fexp_bounds _ _ _ _ _ Hm S1) as (P1 & -> & M1).
  set (e1 := Z.max e (fexp prec emax (Zdigits2 m + e))) in *.
  destruct (round_nearest_even_bounds (shr_m mrs1) (loc_of_shr_record mrs1) P1)
    as [P2 M2].
  set (m2 := round_nearest_even (shr_m mrs1) (loc_of_shr_record mrs1)) in *.
  destruct (shr_fexp prec emax m2 e1 loc_Exact) as [mrs3 e3] eqn:S3.
  destruct (shr_fexp_bounds _ _ _ _ _ P2 S3) as (P3 & -> & M3).
  assert (He1 : e1 <= E) by (unfold e1; rewrite fexp_eq; lia).
  assert (Hm2 : Zdigits2 m2 + e1 <= D + 1)
    by (unfold e1 in *; rewrite fexp_eq in *; lia).
  set (e3 := Z.max e1 (fexp prec emax (Zdigits2 m2 + e1))) in *.
  assert (He3 : e3 <= E) by (unfold e3; rewrite fexp_eq; lia).
  destruct (shr_m mrs3) as [|p|p] eqn:Em; cbn [finite_below]; [exact I| |lia].
  replace (e3 <=? emax - prec) with true.
  - cbn [finite_below]. lia.
  - symmetry. apply Z.leb_le. unfold emax, prec. lia.
Qed.

Lemma SFdiv_core_binary_bounds a b q e l :
  0 < a -> 0 < b ->
  SFdiv_core_binary prec emax a 0 b 0 = (q, e, l) ->
  0 <= q /\ -1074 <= e <= 0 /\
  Zdigits2 q + e <= Z.max 1 (Zdigits2 a - Zdigits2 b + 1).
Proof.
  intros Ha Hb. unfold SFdiv_core_binary.
  rewrite !Z.add_0_r, Z.sub_diag, Z.sub_0_l.
  set (e' := Z.min (fexp prec emax (Zdigits2 a - Zdigits2 b)) 0).
  assert (He : -1074 <= e' <= 0) by (unfold e'; rewrite fexp_eq; lia).
  set (m' := match - e' with
             | Z0 => a
             | Zpos _ => Z.shiftl a (- e')
             | Zneg _ => 0
             end).
  assert (Hm' : m' = Z.shiftl a (- e')).
  { unfold m'. destruct (- e') eqn:E; try reflexivity; lia. }
  assert (Hpos : 0 < m').
  { rewrite Hm', Z.shiftl_mul_pow2 by lia.
    apply Z.mul_pos_pos; [lia|]. apply Z.pow_pos_nonneg; lia. }
  pose proof (Zdigits2_div m' b Hpos Hb) as Hd.
  rewrite Hm' in Hd at 2. rewrite Zdigits2_shiftl in Hd by lia.
  assert (Hq : 0 <= m' / b) by (apply Z.div_pos; lia).
  unfold Z.div in Hd, Hq.
  destruct (Z.div_eucl m' b) as [q' r']. cbn [fst] in Hd, Hq.
  intros H; inversion H; subst; clear H. lia.
Qed.

(** [a / b] does not raise when the quotient is below [2 ^ D]. *)
Lemma int_truediv_finite a b D E :
  b <> 0 ->
  Zdigits2 (Z.abs a) - Zdigits2 (Z.abs b) + 1 <= D ->
  1 <= D <= 1023 -> 0 <= E <= 971 -> D - 52 <= E <= D ->
  exists f, int_truediv a b = Some f /\ finite_below (D + 1) E f.
Proof.
  intros Hb HD HDb HEb HDE. unfold int_truediv.
  destruct (Z.eq_dec a 0) as [->|Ha].
  { destruct b; try lia; eexists; split; try reflexivity; exact I. }
  destruct (SFdiv_core_binary prec emax (Z.abs a) 0 (Z.abs b) 0)
    as [[q e] l] eqn:Ediv.
  destruct (SFdiv_core_binary_bounds (Z.abs a) (Z.abs b) q e l
              ltac:(lia) ltac:(lia) Ediv) as (Hq & He & Hm).
  pose proof (binary_round_aux_finite (xorb (a <? 0) (b <? 0)) q e l D E
                Hq ltac:(lia) ltac:(lia) ltac:(lia) HDE ltac:(lia)) as Hf.
  destruct (binary_round_aux prec emax (xorb (a <? 0) (b <? 0)) q e l)
    as [s| s| |s m' e'];
    cbn [finite_below] in Hf; try contradiction;
    destruct a; try lia; destruct b; try lia;
    eexists; (split; [reflexivity|]); exact Hf.
Qed.

Lemma float_mul_int_finite x c D E Dc Ec D' E' :
  finite_below D E x ->
  finite_below Dc Ec (float_of_int c) ->
  D + Dc <= D' -> E + Ec <= E' ->
  -1074 <= E' <= 971 -> D' - 52 <= E' <= D' -> D' <= 1023 ->
  finite_below (D' + 1) E' (float_mul_int x c).
Proof.
  intros Hx Hc HD HE HEb HDE HDb. unfold float_mul_int.
  destruct (float_of_int c) as [sc|sc| |sc mc ec];
    cbn [finite_below] in Hc; try contradiction;
    destruct x as [sx|sx| |sx mx ex];
    cbn [finite_below] in Hx; try contradiction;
    cbn [SFmul finite_below]; try exact I.
  apply binary_round_aux_finite; try lia.
  pose proof (Zdigits2_mul (Zpos mx) (Zpos mc) ltac:(lia) ltac:(lia)) as Hmul.
  change (Zpos (mx * mc)) with (Zpos mx * Zpos mc). lia.
Qed.

Lemma py_int_finite D E x : finite_below D E x -> exists v, py_int x = Some v.
Proof.
  destruct x; cbn [finite_below py_int]; try contradiction; eauto.
Qed.

End Rounding.

(** [int((processed_count / total_files) * 100)] never raises inside the
    file loop. *)
Lemma percent_defined k n : 1 <= k <= n -> exists v, percent k n = Some v.
Proof.
  intros Hkn. unfold percent, PyNum.int_div_mul.
  destruct (int_truediv_finite k n 1 0) as (f & -> & Hf); try lia.
  { pose proof (Zdigits2_le (Z.abs k) (Z.abs n) ltac:(lia)). lia. }
  apply (py_int_finite 10 0).
  apply (float_mul_int_finite f 100 2 0 7 (-46) 9 0); try lia; [exact Hf|].
  vm_compute. split; discriminate.
Qed.

(** [int(pixels / dpi * 914400)] does not raise for a non-zero resolution
    and pixel counts below [2 ^ 64]. *)
Lemma emu_of_pixels_defined px dpi :
  dpi <> 0 -> Z.abs px < 2 ^ 64 -> exists v, emu_of_pixels px dpi = Some v.
Proof.
  intros Hd Hpx. unfold emu_of_pixels, PyNum.int_div_mul.
  destruct (int_truediv_finite px dpi 65 13) as (f & -> & Hf); try lia.
  { assert (Zdigits2 (Z.abs px) <= 64).
    { destruct (Z.eq_dec px 0) as [->|Hn]; [simpl; lia|].
      rewrite Zdigits2_log2 by lia.
      assert (Z.log2 (Z.abs px) < 64) by (apply Z.log2_lt_pow2; lia). lia. }
    assert (1 <= Zdigits2 (Z.abs dpi)).
    { rewrite Zdigits2_log2 by lia. pose proof (Z.log2_nonneg (Z.abs dpi)). lia. }
    lia. }
  apply (py_int_finite 87 40).
  apply (float_mul_int_finite f 914400 66 13 20 (-33) 86 40); try lia; [exact Hf|].
  vm_compute. split; discriminate.
Qed.

(** ** The deck built by the loops *)

Lemma on_last_snoc {A} (f : A -> A) (l : list A) (x : A) :
  on_last f (l ++ [x]) = l ++ [f x].
Proof.
  unfold on_last. rewrite rev_app_distr. simpl.
  rewrite rev_involutive. reflexivity.
Qed.

Lemma grow_nil d : grow d [] = d.
Proof. destruct d; unfold grow; simpl. rewrite app_nil_r. reflexivity. Qed.

Lemma grow_grow d l1 l2 : grow (grow d l1) l2 = grow d (l1 ++ l2).
Proof. unfold grow; simpl. rewrite app_assoc. reflexivity. Qed.

Lemma extends_frame s s' d :
  prs s = Some d -> prs s' = prs s -> polls s' = polls s ->
  written s' = written s ->
  (exists ev, emitted s' = emitted s ++ ev /\ existsb is_finished ev = false) ->
  extends [] (polls s) s s'.
Proof.
  intros Hd Hp Hn Hw Hev. unfold extends. repeat split; auto.
  exists d. rewrite grow_nil. split; congruence.
Qed.

Lemma extends_refl s d : prs s = Some d -> extends [] (polls s) s s.
Proof.
  intros Hd. apply (extends_frame s s d); auto.
  exists []. rewrite app_nil_r. auto.
Qed.

Lemma extends_trans new1 n1 new2 n2 s s1 s2 :
  extends new1 n1 s s1 -> extends new2 n2 s1 s2 ->
  extends (new1 ++ new2) n2 s s2.
Proof.
  intros ((d & Hd & Hd1) & Hn1 & Hw1 & ev1 & He1 & Hf1)
         ((d1 & Hd1' & Hd2) & Hn2 & Hw2 & ev2 & He2 & Hf2).
  unfold extends. repeat split; try congruence.
  - exists d. split; [exact Hd|].
    rewrite Hd1 in Hd1'. inversion Hd1'; subst d1.
    rewrite Hd2, grow_grow. reflexivity.
  - exists (ev1 ++ ev2). rewrite He2, He1, app_assoc. split; [reflexivity|].
    rewrite existsb_app, Hf1, Hf2. reflexivity.
Qed.

Lemma extends_emit sg s d :
  prs s = Some d -> is_finished sg = false ->
  extends [] (polls s) s (snd (emit sg s)).
Proof.
  intros Hd Hsg. apply (extends_frame _ _ d); auto.
  exists [sg]. simpl. rewrite Hsg. auto.
Qed.

Lemma extends_poll w s d :
  prs s = Some d -> extends [] (S (polls s)) s (snd (is_running w s)).
Proof.
  intros Hd. unfold extends; simpl. repeat split.
  - exists d. rewrite grow_nil. auto.
  - exists []. rewrite app_nil_r. auto.
Qed.

Lemma extends_prs new n s s' d :
  extends new n s s' -> prs s = Some d -> prs s' = Some (grow d new).
Proof.
  intros ((d0 & Hd0 & Hd1) & _) Hd. congruence.
Qed.

(** The page loop adds the slides of [pages_out]. *)
Lemma add_pages_deck w dpi i total name tp : forall images p_idx s d,
  prs s = Some d ->
  exists r s',
    add_pages w dpi i total name tp p_idx images s = (r, s') /\
    extends
      (fst (pages_out w dpi (slide_width d) (slide_height d) (polls s) images))
      (snd (pages_out w dpi (slide_width d) (slide_height d) (polls s) images))
      s s'.
Proof.
  induction images as [|img rest IH]; intros p_idx s d Hd.
  - exists (Ok tt), s. split; [reflexivity|]. simpl. eapply extends_refl; eauto.
  - destruct s as [p em pr po wr]. cbn in Hd. subst p.
    cbn [add_pages pages_out]. unfold bind at 1. cbn [is_running polls].
    destruct (flag_at (stop_after w) po) eqn:Hflag; cbn [negb].
    + unfold bind, emit, add_slide, update_prs, of_error; cbn.
      destruct (save_error w img "JPEG" (jpg_quality dpi)) as [e|] eqn:Hsave.
      * unfold raise. eexists _, _. split; [reflexivity|].
        unfold extends; cbn. repeat split.
        -- exists d. split; reflexivity.
        -- eexists [_]. split; reflexivity.
      * unfold ret, add_picture, update_prs; cbn.
        rewrite on_last_snoc. cbn.
        match goal with
        | |- context [add_pages _ _ _ _ _ _ _ rest ?s2] =>
            destruct (IH (S p_idx) s2 _ eq_refl) as (r & s' & Hrun & Hext)
        end.
        cbn in Hext.
        destruct (pages_out w dpi (slide_width d) (slide_height d) (S po) rest)
          as [more n'] eqn:Hout.
        exists r, s'. split; [exact Hrun|]. cbn [fst snd] in *.
        destruct Hext as ((d2 & Hd2 & Hd') & Hn & Hw & ev & Hev & Hfin).
        cbn in Hd2, Hw, Hev. inversion Hd2; subst d2; clear Hd2.
        unfold extends; cbn. repeat split; auto.
        -- exists d. split; [reflexivity|]. rewrite Hd'.
           unfold grow; cbn. rewrite <- app_assoc. reflexivity.
        -- eexists (_ :: ev). rewrite Hev, <- app_assoc. split; [reflexivity|].
           cbn. exact Hfin.
    + unfold ret. eexists _, _. split; [reflexivity|].
      unfold extends; cbn. repeat split.
      * exists d. rewrite grow_nil. auto.
      * exists []. rewrite app_nil_r. auto.
Qed.

(** Closes a case of [load_images]: the run is computed, and the signals it
    emitted are exhibited. *)
Ltac framed :=
  eexists _, _; split; [reflexivity|]; cbn; repeat split;
  first [ eexists [_]; split; reflexivity
        | eexists [_; _]; rewrite <- app_assoc; split; reflexivity ].

(** Loading a file touches neither the deck nor the flag; what it hands to
    the page loop is [images_of]. *)
Lemma load_images_frame w dpi i total path name s :
  exists r s',
    load_images w dpi i total path name s = (r, s') /\
    prs s' = prs s /\ polls s' = polls s /\ written s' = written s /\
    (exists ev, emitted s' = emitted s ++ ev /\ existsb is_finished ev = false) /\
    images_of w dpi path =
      match r with
      | Ok (Some images) => images
      | _ => []
      end.
Proof.
  unfold load_images, images_of.
  destruct (is_pdf path).
  - unfold bind, emit, of_result; cbn.
    destruct (convert_from_path w path dpi None (Some "jpeg"%string))
      as [[|img images]|e]; cbn; framed.
  - unfold bind, emit, try_except, of_result; cbn.
    destruct (Image_open w path) as [img|e]; cbn; [|framed].
    destruct (String.eqb (mode img) "RGBA" || String.eqb (mode img) "P"); cbn;
      [|framed].
    destruct (Image_convert w img "RGB") as [img'|e]; cbn; framed.
Qed.

(** One file adds the slides of its pages and never raises. *)
Lemma process_file_deck w dpi i total path s d :
  prs s = Some d ->
  exists fl s',
    process_file w dpi i total path s = (Ok fl, s') /\
    extends
      (fst (pages_out w dpi (slide_width d) (slide_height d) (polls s)
              (images_of w dpi path)))
      (snd (pages_out w dpi (slide_width d) (slide_height d) (polls s)
              (images_of w dpi path)))
      s s'.
Proof.
  intros Hd. unfold process_file, try_except. unfold bind at 1.
  destruct (load_images_frame w dpi i total path (PyStr.basename path) s)
    as (r & s1 & Hload & Hp & Hn & Hw & Hev & Himg).
  rewrite Hload, Himg.
  assert (H1 : extends [] (polls s) s s1) by (eapply extends_frame; eauto).
  assert (Hd1 : prs s1 = Some d) by congruence.
  destruct r as [[images|]|e].
  - unfold bind.
    destruct (add_pages_deck w dpi i total (PyStr.basename path)
                (List.length images) images 0%nat s1 d Hd1)
      as (r & s2 & Hrun & H2).
    rewrite Hrun. rewrite Hn in H2.
    pose proof (extends_trans _ _ _ _ _ _ _ H1 H2) as H12. cbn [app] in H12.
    destruct r as [[]|e].
    + unfold ret. eexists _, _. split; [reflexivity|]. exact H12.
    + unfold emit, ret; cbn. eexists _, _. split; [reflexivity|].
      pose proof (extends_prs _ _ _ _ _ H12 Hd) as Hd2.
      pose proof (extends_emit
                    (status_updated (ErrorOccurred (PyStr.basename path) e))
                    s2 _ Hd2 eq_refl) as H3.
      pose proof (extends_trans _ _ _ _ _ _ _ H12 H3) as H123.
      rewrite app_nil_r in H123.
      replace (polls s2) with
        (snd (pages_out w dpi (slide_width d) (slide_height d) (polls s) images))
        in H123 by (symmetry; apply H12).
      exact H123.
  - unfold ret. eexists _, _. split; [reflexivity|]. exact H1.
  - unfold bind, emit, ret; cbn. eexists _, _. split; [reflexivity|].
    pose proof (extends_emit
                  (status_updated (ErrorOccurred (PyStr.basename path) e))
                  s1 _ Hd1 eq_refl) as H3.
    pose proof (extends_trans _ _ _ _ _ _ _ H1 H3) as H13.
    rewrite Hn in H13. exact H13.
Qed.

(** The file loop adds the slides of [files_out] and never raises. *)
Lemma process_files_deck w dpi total : forall files i pc s d,
  prs s = Some d ->
  (i + List.length files = total)%nat -> 0 <= pc <= Z.of_nat i ->
  exists pc' s',
    process_files w dpi total i files pc s = (Ok pc', s') /\
    extends
      (fst (files_out w dpi (slide_width d) (slide_height d) (polls s) files))
      (snd (files_out w dpi (slide_width d) (slide_height d) (polls s) files))
      s s'.
Proof.
  induction files as [|path rest IH]; intros i pc s d Hd Hlen Hpc.
  - exists pc, s. split; [reflexivity|]. eapply extends_refl; eauto.
  - cbn [process_files files_out List.length] in *. unfold bind at 1.
    pose proof (extends_poll w s d Hd) as H0.
    cbn [is_running] in *. cbn [snd] in H0.
    destruct (flag_at (stop_after w) (polls s)) eqn:Hflag; cbn [negb].
    + set (s0 := {| prs := prs s; emitted := emitted s; printed := printed s;
                    polls := S (polls s); written := written s |}) in *.
      assert (Hd0 : prs s0 = Some d) by exact Hd.
      destruct (process_file_deck w dpi i total path s0 d Hd0)
        as (fl & s1 & Hrun & H1).
      unfold bind at 1. rewrite Hrun.
      change (polls s0) with (S (polls s)) in H1.
      destruct (pages_out w dpi (slide_width d) (slide_height d) (S (polls s))
                  (images_of w dpi path)) as [here n1] eqn:Hhere.
      cbn [fst snd] in H1.
      pose proof (extends_trans _ _ _ _ _ _ _ H0 H1) as H01. cbn [app] in H01.
      pose proof (extends_prs _ _ _ _ _ H01 Hd) as Hd1.
      assert (Hn1 : polls s1 = n1) by apply H1.
      destruct fl.
      * destruct (IH (S i) pc s1 _ Hd1 ltac:(lia) ltac:(lia))
          as (pc' & s2 & Hrest & H2).
        cbn [grow slide_width slide_height] in H2. rewrite Hn1 in H2.
        destruct (files_out w dpi (slide_width d) (slide_height d) n1 rest)
          as [more n2] eqn:Hmore.
        exists pc', s2. split; [exact Hrest|]. cbn [fst snd] in *.
        eapply extends_trans; eauto.
      * destruct (percent_defined (pc + 1) (Z.of_nat total) ltac:(lia))
          as (v & Hv).
        rewrite Hv. unfold of_option, ret, bind at 1. unfold bind at 1.
        pose proof (extends_emit (progress_updated v) s1 _ Hd1 eq_refl) as H2.
        pose proof (extends_trans _ _ _ _ _ _ _ H01 H2) as H012.
        rewrite app_nil_r in H012.
        set (s2 := snd (emit (progress_updated v) s1)) in *.
        change (emit (progress_updated v) s1) with (Ok tt, s2).
        pose proof (extends_prs _ _ _ _ _ H012 Hd) as Hd2.
        destruct (IH (S i) (pc + 1) s2 _ Hd2 ltac:(lia) ltac:(lia))
          as (pc' & s3 & Hrest & H3).
        cbn [grow slide_width slide_height] in H3.
        change (polls s2) with (polls s1) in H3. rewrite Hn1 in H3.
        destruct (files_out w dpi (slide_width d) (slide_height d) n1 rest)
          as [more n2] eqn:Hmore.
        exists pc', s3. split; [exact Hrest|]. cbn [fst snd] in *.
        eapply extends_trans; eauto.
    + unfold ret. eexists _, _. split; [reflexivity|]. exact H0.
Qed.

(** ** The whole run *)

Lemma sized_deck_slides w dpi first d0 :
  sized_deck w dpi first = Some d0 -> slides d0 = [].
Proof.
  unfold sized_deck.
  destruct (get_reference_size w dpi first) as [[wpx hpx]|].
  - destruct (emu_of_pixels wpx dpi) as [cx|], (emu_of_pixels hpx dpi) as [cy|];
      try discriminate.
    destruct (slide_size_accepted cx && slide_size_accepted cy);
      intros H; inversion H; reflexivity.
  - intros H; inversion H; reflexivity.
Qed.

(** Lines 72-78 set the size of [sized_deck]. *)
Lemma decide_slide_size_ok w dpi first s d0 :
  prs s = Some default_Presentation ->
  sized_deck w dpi first = Some d0 ->
  exists s',
    decide_slide_size w dpi first s = (Ok tt, s') /\
    prs s' = Some d0 /\ polls s' = polls s /\ written s' = written s /\
    exists ev, emitted s' = emitted s ++ ev /\ existsb is_finished ev = false.
Proof.
  intros Hs. destruct s as [p em pr po wr]. cbn in Hs. subst p.
  unfold sized_deck, decide_slide_size.
  destruct (get_reference_size w dpi first) as [[wpx hpx]|].
  - destruct (emu_of_pixels wpx dpi) as [cx|]; [|discriminate].
    destruct (emu_of_pixels hpx dpi) as [cy|]; [|discriminate].
    destruct (slide_size_accepted cx) eqn:Hcx; [|discriminate].
    destruct (slide_size_accepted cy) eqn:Hcy; [|discriminate].
    intros H; inversion H; subst d0; clear H.
    unfold of_option, set_slide_width, set_slide_height, bind, ret.
    rewrite Hcx, Hcy.
    eexists. split; [reflexivity|]. cbn. repeat split.
    exists []. rewrite app_nil_r. auto.
  - intros H; inversion H; subst d0; clear H.
    eexists. split; [reflexivity|]. cbn. repeat split.
    eexists [_]. split; reflexivity.
Qed.

(** When lines 75-76 raise, the run ends there. *)
Lemma decide_slide_size_raises w dpi first s :
  prs s = Some default_Presentation ->
  sized_deck w dpi first = None ->
  exists e s',
    decide_slide_size w dpi first s = (Raise e, s') /\
    deck_slides s' = [] /\ polls s' = polls s /\ written s' = written s /\
    emitted s' = emitted s.
Proof.
  intros Hs. destruct s as [p em pr po wr]. cbn in Hs. subst p.
  unfold sized_deck, decide_slide_size.
  destruct (get_reference_size w dpi first) as [[wpx hpx]|]; [|discriminate].
  unfold of_option, set_slide_width, set_slide_height, bind, ret, raise.
  destruct (emu_of_pixels wpx dpi) as [cx|];
    [|intros _; eexists _, _; split; [reflexivity|]; cbn; auto].
  destruct (slide_size_accepted cx) eqn:Hcx;
    [|intros _; eexists _, _; split; [reflexivity|]; cbn; auto].
  cbn [update_prs].
  destruct (emu_of_pixels hpx dpi) as [cy|];
    [|intros _; eexists _, _; split; [reflexivity|]; cbn; auto].
  destruct (slide_size_accepted cy) eqn:Hcy; [discriminate|].
  intros _. eexists _, _. split; [reflexivity|]. cbn. auto.
Qed.

(** The size arithmetic is defined for every resolution but zero, so that
    lines 75-76 raise only on a width or a height that python-pptx
    refuses. *)
Lemma size_defined_in_range w dpi first rest width_px height_px :
  get_reference_size w dpi first = Some (width_px, height_px) ->
  dpi <> 0 -> Z.abs width_px < 2 ^ 64 -> Z.abs height_px < 2 ^ 64 ->
  exists cx cy,
    emu_of_pixels width_px dpi = Some cx /\
    emu_of_pixels height_px dpi = Some cy /\
    size_defined w dpi (first :: rest)
    = (slide_size_accepted cx && slide_size_accepted cy)%bool.
Proof.
  intros Hprobe Hdpi Hw Hh.
  destruct (emu_of_pixels_defined width_px dpi Hdpi Hw) as (cx & Hcx).
  destruct (emu_of_pixels_defined height_px dpi Hdpi Hh) as (cy & Hcy).
  exists cx, cy. split; [exact Hcx|]. split; [exact Hcy|].
  unfold size_defined, sized_deck. rewrite Hprobe, Hcx, Hcy.
  destruct (slide_size_accepted cx && slide_size_accepted cy); reflexivity.
Qed.

(** The deck with which the file loop starts, when lines 75-76 do not raise. *)
Lemma size_defined_deck w dpi first rest :
  size_defined w dpi (first :: rest) = true ->
  exists d0, sized_deck w dpi first = Some d0.
Proof.
  cbn [size_defined]. destruct (sized_deck w dpi first) as [d0|];
    [exists d0; reflexivity|discriminate].
Qed.

(** A run on a non-empty list in which lines 75-76 do not raise: it returns,
    its deck is the sized deck grown by [files_out], the file is written
    when the flag still reads [True] at line 152, and [finished_signal] is
    the last signal and the only one of its kind. *)
Lemma run_spec w first rest dir dpi d0 :
  sized_deck w dpi first = Some d0 ->
  exists s,
    execute w (first :: rest) dir dpi = (Ok tt, s) /\
    prs s =
      Some (grow d0 (fst (files_out w dpi (slide_width d0) (slide_height d0)
                            0 (first :: rest)))) /\
    polls s =
      S (snd (files_out w dpi (slide_width d0) (slide_height d0)
                0 (first :: rest))) /\
    written s =
      saved w dir
        (snd (files_out w dpi (slide_width d0) (slide_height d0)
                0 (first :: rest)))
        (grow d0 (fst (files_out w dpi (slide_width d0) (slide_height d0)
                         0 (first :: rest)))) /\
    exists ev,
      emitted s = ev ++ [finished_signal dir] /\ existsb is_finished ev = false.
Proof.
  intros Hsized. unfold execute, run.
  set (files := first :: rest).
  unfold bind at 1. cbn [emit initial prs emitted printed polls written app].
  unfold bind at 1. cbn [emit prs emitted printed polls written app].
  unfold bind at 1. cbn [new_Presentation prs emitted printed polls written].
  match goal with
  | |- context [bind (decide_slide_size w dpi first) _ ?s0] =>
      destruct (decide_slide_size_ok w dpi first s0 d0 eq_refl Hsized)
        as (s1 & Hsize & Hd1 & Hn1 & Hw1 & ev1 & Hev1 & Hf1)
  end.
  unfold bind at 1. rewrite Hsize.
  destruct (process_files_deck w dpi (List.length files) files 0%nat 0 s1 d0
              Hd1 eq_refl ltac:(lia)) as (pc & s2 & Hloop & Hext).
  unfold bind at 1. rewrite Hloop.
  cbn [polls] in Hn1. rewrite Hn1 in Hext.
  destruct (files_out w dpi (slide_width d0) (slide_height d0) 0 files)
    as [new n] eqn:Hout.
  cbn [fst snd] in *.
  destruct Hext as ((d1 & Hd1' & Hd2) & Hn2 & Hw2 & ev2 & Hev2 & Hf2).
  rewrite Hd1 in Hd1'. inversion Hd1'; subst d1; clear Hd1'.
  destruct s2 as [p2 em2 pr2 po2 wr2].
  cbn [prs polls written emitted] in Hd2, Hn2, Hw2, Hev2. subst p2 po2.
  cbn [written emitted] in Hw1, Hev1. rewrite Hw1 in Hw2. subst wr2.
  unfold save_step, saved, bind, is_running, try_except, emit, prs_save, ret;
    cbn [prs polls written emitted printed].
  fold (save_path w dir).
  destruct (flag_at (stop_after w) n).
  - destruct (prs_save_error w (save_path w dir)) as [e|];
      cbn [prs polls written emitted printed option_map];
      (eexists; split; [reflexivity|]);
      cbn [prs polls written emitted printed]; repeat split.
    + eexists. split; [reflexivity|].
      rewrite Hev2, Hev1, !existsb_app, Hf1, Hf2. reflexivity.
    + eexists. split; [reflexivity|].
      rewrite Hev2, Hev1, !existsb_app, Hf1, Hf2. reflexivity.
  - eexists. split; [reflexivity|].
    cbn [prs polls written emitted printed]. repeat split.
    eexists. split; [reflexivity|].
    rewrite Hev2, Hev1, !existsb_app, Hf1, Hf2. reflexivity.
Qed.

(** A run in which lines 75-76 raise: nothing is polled, written or added
    to the deck, and no [finished_signal] is emitted. *)
Lemma run_size_error w first rest dir dpi :
  sized_deck w dpi first = None ->
  exists e s,
    execute w (first :: rest) dir dpi = (Raise e, s) /\
    deck_slides s = [] /\ polls s = 0%nat /\ written s = None /\
    existsb is_finished (emitted s) = false.
Proof.
  intros Hsized. unfold execute, run.
  unfold bind at 1. cbn [emit initial prs emitted printed polls written app].
  unfold bind at 1. cbn [emit prs emitted printed polls written app].
  unfold bind at 1. cbn [new_Presentation prs emitted printed polls written].
  match goal with
  | |- context [bind (decide_slide_size w dpi first) _ ?s0] =>
      destruct (decide_slide_size_raises w dpi first s0 eq_refl Hsized)
        as (e & s1 & Hsize & Hd1 & Hn1 & Hw1 & Hev1)
  end.
  unfold bind at 1. rewrite Hsize. exists e, s1.
  split; [reflexivity|]. repeat split; auto.
  rewrite Hev1. reflexivity.
Qed.

(** ** Properties of the deck functions *)

Lemma flag_at_mono stop n m :
  (n <= m)%nat -> flag_at stop n = false -> flag_at stop m = false.
Proof.
  destruct stop as [k|]; simpl; [|discriminate].
  rewrite !Nat.ltb_ge. lia.
Qed.

Section DeckFunctions.

Variables (w : world) (dpi cx cy : Z).

(** Runs the induction hypothesis of a lemma on [pages_out] through the
    recursive call. *)
Ltac step_pages IH n rest :=
  specialize (IH (S n));
  destruct (pages_out w dpi cx cy (S n) rest); cbn [fst snd] in *.

(** Each picture is placed at the origin with the extent [cx] x [cy] and
    encoded at the quality of the resolution. *)
Lemma pages_out_placed : forall images n,
  Forall (Forall (placed dpi cx cy)) (fst (pages_out w dpi cx cy n images)).
Proof.
  induction images as [|img rest IH]; intros n; cbn [pages_out]; [constructor|].
  destruct (flag_at (stop_after w) n); [|constructor].
  destruct (save_error w img "JPEG" (jpg_quality dpi)).
  - repeat constructor.
  - step_pages IH n rest.
    constructor; [|exact IH]. repeat constructor.
Qed.

Lemma files_out_placed : forall files n,
  Forall (Forall (placed dpi cx cy)) (fst (files_out w dpi cx cy n files)).
Proof.
  induction files as [|path rest IH]; intros n; cbn [files_out]; [constructor|].
  destruct (flag_at (stop_after w) n); [|constructor].
  pose proof (pages_out_placed (images_of w dpi path) (S n)) as H.
  destruct (pages_out w dpi cx cy (S n) (images_of w dpi path)) as [here n1].
  specialize (IH n1).
  destruct (files_out w dpi cx cy n1 rest) as [more n2]. simpl in *.
  apply Forall_app. split; assumption.
Qed.

(** The pictures of the page loop are made of the images it is given. *)
Lemma pages_out_sources : forall images n,
  Forall (Forall (fun p => In (jpeg_source (pic_stream p)) images))
    (fst (pages_out w dpi cx cy n images)).
Proof.
  induction images as [|img rest IH]; intros n; cbn [pages_out]; [constructor|].
  destruct (flag_at (stop_after w) n); [|constructor].
  destruct (save_error w img "JPEG" (jpg_quality dpi)).
  - repeat constructor.
  - step_pages IH n rest.
    constructor.
    + repeat constructor.
    + eapply Forall_impl; [|exact IH].
      intros sl Hsl. eapply Forall_impl; [|exact Hsl].
      intros p Hp. right. exact Hp.
Qed.

(** Once the flag is cleared, the file loop adds nothing. *)
Lemma files_out_dead n files :
  flag_at (stop_after w) n = false ->
  fst (files_out w dpi cx cy n files) = [].
Proof.
  intros Hflag. destruct files; cbn [files_out]; [reflexivity|].
  rewrite Hflag. reflexivity.
Qed.

(** Cancelled or not, the page loop builds the same slides up to the point
    where the flag is cleared. *)
Lemma pages_out_cancelled : forall images n n0,
  fst (pages_out w dpi cx cy n images)
  = fst (pages_out (uncancelled w) dpi cx cy n0 images)
  \/
  flag_at (stop_after w) (snd (pages_out w dpi cx cy n images)) = false /\
  exists more,
    fst (pages_out (uncancelled w) dpi cx cy n0 images)
    = fst (pages_out w dpi cx cy n images) ++ more.
Proof.
  induction images as [|img rest IH]; intros n n0; cbn [pages_out];
    [left; reflexivity|].
  cbn [uncancelled stop_after save_error flag_at].
  destruct (flag_at (stop_after w) n) eqn:Hflag.
  - destruct (save_error w img "JPEG" (jpg_quality dpi)); [left; reflexivity|].
    specialize (IH (S n) (S n0)).
    destruct (pages_out w dpi cx cy (S n) rest) as [a n1].
    destruct (pages_out (uncancelled w) dpi cx cy (S n0) rest) as [b m1].
    cbn [fst snd] in *.
    destruct IH as [->|(Hdead & more & ->)]; [left; reflexivity|].
    right. split; [exact Hdead|]. exists more. reflexivity.
  - right. cbn [fst snd]. split.
    + eapply flag_at_mono; [|exact Hflag]. lia.
    + eexists. reflexivity.
Qed.

Lemma files_out_cancelled : forall files n n0,
  exists more,
    fst (files_out (uncancelled w) dpi cx cy n0 files)
    = fst (files_out w dpi cx cy n files) ++ more.
Proof.
  induction files as [|path rest IH]; intros n n0; cbn [files_out].
  - exists []. reflexivity.
  - cbn [uncancelled stop_after flag_at].
    change (images_of (uncancelled w) dpi path) with (images_of w dpi path).
    destruct (flag_at (stop_after w) n) eqn:Hflag.
    + pose proof (pages_out_cancelled (images_of w dpi path) (S n) (S n0)) as Hp.
      destruct (pages_out w dpi cx cy (S n) (images_of w dpi path)) as [a n1].
      destruct (pages_out (uncancelled w) dpi cx cy (S n0) (images_of w dpi path))
        as [b m1].
      cbn [fst snd] in Hp.
      destruct Hp as [->|(Hdead & more & ->)].
      * destruct (IH n1 m1) as (more & Hmore).
        destruct (files_out w dpi cx cy n1 rest) as [c n2].
        destruct (files_out (uncancelled w) dpi cx cy m1 rest) as [e m2].
        cbn [fst] in *. subst e. exists more. rewrite app_assoc. reflexivity.
      * pose proof (files_out_dead n1 rest Hdead) as Hnil.
        destruct (files_out w dpi cx cy n1 rest) as [c n2].
        destruct (files_out (uncancelled w) dpi cx cy m1 rest) as [e m2].
        cbn [fst] in *. subst c. exists (more ++ e).
        rewrite app_nil_r, app_assoc. reflexivity.
    + eexists. reflexivity.
Qed.

Hypothesis not_cancelled : stop_after w = None.

(** Without cancellation the slides do not depend on the poll counter. *)
Lemma pages_out_uncancelled : forall images n,
  fst (pages_out w dpi cx cy n images) = fst (pages_out w dpi cx cy 0 images).
Proof.
  induction images as [|img rest IH]; intros n; cbn [pages_out];
    [reflexivity|].
  rewrite not_cancelled. cbn [flag_at].
  destruct (save_error w img "JPEG" (jpg_quality dpi)); [reflexivity|].
  pose proof (IH (S n)) as H1. pose proof (IH 1%nat) as H2.
  destruct (pages_out w dpi cx cy (S n) rest).
  destruct (pages_out w dpi cx cy 1 rest).
  cbn [fst] in *. congruence.
Qed.

(** When every page is encoded, the page loop gives one slide per page, in
    page order, each holding the page's picture. *)
Lemma pages_out_encoded : forall images n,
  forallb (fun img =>
             match save_error w img "JPEG"%string (jpg_quality dpi) with
             | Some _ => false
             | None => true
             end) images = true ->
  fst (pages_out w dpi cx cy n images)
  = map (fun img => [full_bleed dpi cx cy img]) images.
Proof.
  induction images as [|img rest IH]; intros n;
    cbn [pages_out forallb map]; [reflexivity|].
  rewrite not_cancelled. cbn [flag_at].
  destruct (save_error w img "JPEG" (jpg_quality dpi)); [discriminate|].
  cbn [andb]. intros Hrest. specialize (IH (S n) Hrest).
  destruct (pages_out w dpi cx cy (S n) rest). cbn [fst] in *. congruence.
Qed.

End DeckFunctions.

(** Without cancellation the deck is the concatenation, in list order, of
    what each file contributes. *)
Lemma files_out_uncancelled w dpi d :
  stop_after w = None ->
  forall files n,
    fst (files_out w dpi (slide_width d) (slide_height d) n files)
    = flat_map (item_slides w dpi d) files.
Proof.
  intros Hstop. induction files as [|path rest IH]; intros n; cbn [files_out];
    [reflexivity|].
  rewrite Hstop. cbn [flag_at flat_map]. unfold item_slides at 1.
  pose proof (pages_out_uncancelled w dpi (slide_width d) (slide_height d)
                Hstop (images_of w dpi path) (S n)) as Hp.
  destruct (pages_out w dpi (slide_width d) (slide_height d) (S n)
              (images_of w dpi path)) as [here n1].
  specialize (IH n1).
  destruct (files_out w dpi (slide_width d) (slide_height d) n1 rest).
  cbn [fst] in *. congruence.
Qed.

Lemma unreadable_images_of w dpi path :
  unreadable w dpi path = true -> images_of w dpi path = [].
Proof.
  unfold unreadable, images_of, Image_convert.
  destruct (is_pdf path).
  - destruct (convert_from_path w path dpi None (Some "jpeg"%string));
      [discriminate|reflexivity].
  - destruct (Image_open w path) as [img|]; [|reflexivity].
    destruct (String.eqb (mode img) "RGBA" || String.eqb (mode img) "P");
      [|discriminate].
    destruct (convert_error w img "RGB"); [reflexivity|discriminate].
Qed.

(** ** Auxiliary facts on signals and on the written file *)



Lemma deck_slides_grow s d0 new :
  prs s = Some (grow d0 new) -> slides d0 = [] -> deck_slides s = new.
Proof.
  intros Hs H0. unfold deck_slides. rewrite Hs. simpl. rewrite H0. reflexivity.
Qed.

(** The deck of the final state, in all three cases of a run. *)
Lemma final_deck_cases w files dir dpi :
  deck_slides (final w files dir dpi) = [] \/
  exists first rest d0,
    files = first :: rest /\ sized_deck w dpi first = Some d0 /\
    deck_slides (final w files dir dpi)
    = fst (files_out w dpi (slide_width d0) (slide_height d0) 0 files).
Proof.
  destruct files as [|first rest]; [left; reflexivity|].
  destruct (sized_deck w dpi first) as [d0|] eqn:Hsized.
  - right. exists first, rest, d0. repeat split; auto.
    destruct (run_spec w first rest dir dpi d0 Hsized) as (s & Hrun & Hd & _).
    unfold final. rewrite Hrun. cbn [snd].
    eapply deck_slides_grow; eauto using sized_deck_slides.
  - left. destruct (run_size_error w first rest dir dpi Hsized)
      as (e & s & Hrun & Hd & _).
    unfold final. rewrite Hrun. exact Hd.
Qed.

(** A written file holds the deck of the final state. *)
Lemma written_is_final_deck w files dir dpi path d :
  written (final w files dir dpi) = Some (path, d) ->
  prs (final w files dir dpi) = Some d.
Proof.
  destruct files as [|first rest]; [discriminate|].
  destruct (sized_deck w dpi first) as [d0|] eqn:Hsized.
  - destruct (run_spec w first rest dir dpi d0 Hsized)
      as (s & Hrun & Hd & _ & Hw & _).
    unfold final. rewrite Hrun. cbn [snd]. rewrite Hw, Hd. unfold saved.
    destruct (flag_at _ _); [|discriminate].
    destruct (prs_save_error _ _); [discriminate|].
    intros H; inversion H; reflexivity.
  - destruct (run_size_error w first rest dir dpi Hsized)
      as (e & s & Hrun & _ & _ & Hw & _).
    unfold final. rewrite Hrun. cbn [snd]. rewrite Hw. discriminate.
Qed.

(** * The claims *)

(** ** C1: cancellation *)

(** C1, as stated, fails: when [stop] is called while the second page of
    [a.pdf] is pending, the run keeps the one slide completed so far in
    memory but writes no file (the uncancelled run has two slides and
    writes them). *)
Lemma cancelled_job_writes_no_file :
  written (final (Sample.env (Some 2%nat)) ["a.pdf"%string] "out" 150) = None /\
  List.length (deck_slides (final (Sample.env (Some 2%nat)) ["a.pdf"%string] "out" 150))
  = 1%nat /\
  option_map (fun f => List.length (slides (snd f)))
    (written (final (Sample.env None) ["a.pdf"%string] "out" 150)) = Some 2%nat.
Proof. vm_compute. repeat split. Qed.

Section Reads.

Variables (w : world) (dpi cx cy : Z) (k : nat).

Hypothesis stopped : stop_after w = Some k.

Lemma pages_reads_after : forall images n,
  Forall (fun t => (n <= fst t)%nat) (fst (pages_reads w dpi cx cy n images)) /\
  (n <= snd (pages_reads w dpi cx cy n images))%nat.
Proof.
  induction images as [|img rest IH]; intros n; cbn [pages_reads].
  - split; [constructor|cbn; lia].
  - destruct (save_error w img "JPEG" (jpg_quality dpi)).
    + split; [repeat constructor|]; cbn; lia.
    + specialize (IH (S n)).
      destruct (pages_reads w dpi cx cy (S n) rest) as [more n'].
      cbn [fst snd] in *. destruct IH as [IH1 IH2]. split; [|lia].
      constructor; [cbn; lia|].
      eapply Forall_impl; [|exact IH1]. cbn. intros t Ht. lia.
Qed.

Lemma files_reads_after : forall files n,
  Forall (fun t => (n <= fst t)%nat) (fst (files_reads w dpi cx cy n files)) /\
  (n <= snd (files_reads w dpi cx cy n files))%nat.
Proof.
  induction files as [|path rest IH]; intros n; cbn [files_reads].
  - split; [constructor|cbn; lia].
  - pose proof (pages_reads_after (images_of w dpi path) (S n)) as [Hp1 Hp2].
    destruct (pages_reads w dpi cx cy (S n) (images_of w dpi path)) as [here n1].
    specialize (IH n1).
    destruct (files_reads w dpi cx cy n1 rest) as [more n2].
    cbn [fst snd] in *. destruct IH as [IH1 IH2]. split; [|lia].
    apply Forall_app. split.
    + eapply Forall_impl; [|exact Hp1]. cbn. intros t Ht. lia.
    + eapply Forall_impl; [|exact IH1]. cbn. intros t Ht. lia.
Qed.

Lemma none_before_stop (l : list (nat * slide)) n :
  (k <= n)%nat -> Forall (fun t => (n <= fst t)%nat) l ->
  filter (before_stop k) l = [].
Proof.
  intros Hk Hl. induction Hl as [|t l Ht Hl IH]; [reflexivity|].
  cbn [filter]. unfold before_stop at 1.
  replace (fst t <? k)%nat with false by (symmetry; apply Nat.ltb_ge; lia).
  exact IH.
Qed.

(** The run that is never stopped adds the slides of [pages_reads]. *)
Lemma pages_reads_uncancelled : forall images n,
  pages_out (uncancelled w) dpi cx cy n images
  = (map snd (fst (pages_reads w dpi cx cy n images)),
     snd (pages_reads w dpi cx cy n images)).
Proof.
  induction images as [|img rest IH]; intros n; cbn [pages_out pages_reads];
    [reflexivity|].
  cbn [uncancelled stop_after flag_at save_error].
  destruct (save_error w img "JPEG" (jpg_quality dpi)); [reflexivity|].
  rewrite (IH (S n)).
  destruct (pages_reads w dpi cx cy (S n) rest) as [more n']. reflexivity.
Qed.

Lemma files_reads_uncancelled : forall files n,
  files_out (uncancelled w) dpi cx cy n files
  = (map snd (fst (files_reads w dpi cx cy n files)),
     snd (files_reads w dpi cx cy n files)).
Proof.
  induction files as [|path rest IH]; intros n; cbn [files_out files_reads];
    [reflexivity|].
  cbn [uncancelled stop_after flag_at].
  change (images_of (uncancelled w) dpi path) with (images_of w dpi path).
  rewrite (pages_reads_uncancelled (images_of w dpi path) (S n)).
  destruct (pages_reads w dpi cx cy (S n) (images_of w dpi path)) as [here n1].
  cbn [fst snd]. rewrite (IH n1).
  destruct (files_reads w dpi cx cy n1 rest) as [more n2].
  cbn [fst snd]. rewrite map_app. reflexivity.
Qed.

(** The stopped run adds the slides whose read came before [stop], and no
    other. *)
Lemma pages_reads_stopped : forall images n,
  fst (pages_out w dpi cx cy n images)
  = map snd (filter (before_stop k) (fst (pages_reads w dpi cx cy n images))) /\
  (snd (pages_out w dpi cx cy n images)
   = snd (pages_reads w dpi cx cy n images) \/
   (k <= snd (pages_out w dpi cx cy n images))%nat /\
   (k <= snd (pages_reads w dpi cx cy n images))%nat).
Proof.
  induction images as [|img rest IH]; intros n; cbn [pages_out pages_reads].
  - split; [reflexivity|left; reflexivity].
  - rewrite stopped. cbn [flag_at].
    destruct (n <? k)%nat eqn:Hn.
    + destruct (save_error w img "JPEG" (jpg_quality dpi)).
      * cbn [fst snd filter]. unfold before_stop. cbn [fst]. rewrite Hn.
        split; [reflexivity|left; reflexivity].
      * specialize (IH (S n)).
        destruct (pages_out w dpi cx cy (S n) rest) as [a n1].
        destruct (pages_reads w dpi cx cy (S n) rest) as [b n1'].
        cbn [fst snd filter] in *. unfold before_stop at 1. cbn [fst].
        rewrite Hn. cbn [map snd]. destruct IH as [-> IH]. split; [reflexivity|].
        exact IH.
    + apply Nat.ltb_ge in Hn.
      pose proof (pages_reads_after (img :: rest) n) as [Hall Hlast].
      cbn [pages_reads] in Hall, Hlast. cbn [fst snd].
      rewrite (none_before_stop _ n Hn Hall).
      split; [reflexivity|]. right. split; lia.
Qed.

Lemma files_reads_stopped : forall files n n',
  n = n' \/ (k <= n)%nat /\ (k <= n')%nat ->
  fst (files_out w dpi cx cy n files)
  = map snd (filter (before_stop k) (fst (files_reads w dpi cx cy n' files))).
Proof.
  induction files as [|path rest IH]; intros n n' Hn; [reflexivity|].
  cbn [files_out]. rewrite stopped. cbn [flag_at].
  destruct (n <? k)%nat eqn:Hflag.
  - apply Nat.ltb_lt in Hflag.
    destruct Hn as [<-|[Hn _]]; [|lia]. cbn [files_reads].
    pose proof (pages_reads_stopped (images_of w dpi path) (S n)) as [Hp Hq].
    destruct (pages_out w dpi cx cy (S n) (images_of w dpi path)) as [a n1].
    destruct (pages_reads w dpi cx cy (S n) (images_of w dpi path)) as [b n1'].
    cbn [fst snd] in Hp, Hq.
    specialize (IH n1 n1' Hq).
    destruct (files_out w dpi cx cy n1 rest) as [c n2].
    destruct (files_reads w dpi cx cy n1' rest) as [e n2'].
    cbn [fst] in *. rewrite filter_app, map_app, Hp, IH. reflexivity.
  - apply Nat.ltb_ge in Hflag.
    assert (Hn' : (k <= n')%nat) by (destruct Hn as [<-|[_ Hn]]; assumption).
    pose proof (files_reads_after (path :: rest) n') as [Hall _].
    rewrite (none_before_stop _ n' Hn' Hall). reflexivity.
Qed.

End Reads.

(** C1, amended: if the job is cancelled mid-run (some read of the flag
    finds it cleared), the run still returns normally and it stops adding
    slides: the deck in memory holds exactly the slides of the job whose
    page was begun (line 121) by one of the [k] reads of the flag that came
    before [stop], and no other, which is a prefix of what the uncancelled
    job builds; but the save step is skipped and no file is written.
    [finished_signal] is still the last signal. *)
Theorem cancelled_run_skips_save w files dir dpi k :
  stop_after w = Some k ->
  (k < polls (final w files dir dpi))%nat ->
  fst (execute w files dir dpi) = Ok tt /\
  written (final w files dir dpi) = None /\
  deck_slides (final (uncancelled w) files dir dpi)
  = map snd (slide_reads w dpi files) /\
  deck_slides (final w files dir dpi)
  = map snd (filter (before_stop k) (slide_reads w dpi files)) /\
  (exists more,
     deck_slides (final (uncancelled w) files dir dpi)
     = deck_slides (final w files dir dpi) ++ more) /\
  (exists ev,
     emitted (final w files dir dpi) = ev ++ [finished_signal dir] /\
     existsb is_finished ev = false).
Proof.
  intros Hstop Hk.
  destruct files as [|first rest]; [cbn in Hk; lia|].
  unfold slide_reads.
  destruct (sized_deck w dpi first) as [d0|] eqn:Hsized.
  - destruct (run_spec w first rest dir dpi d0 Hsized)
      as (s & Hrun & Hd & Hn & Hw & Hev).
    destruct (run_spec (uncancelled w) first rest dir dpi d0 Hsized)
      as (s0 & Hrun0 & Hd0 & _).
    unfold final in *. rewrite Hrun in *. rewrite Hrun0. cbn [fst snd] in *.
    pose proof (sized_deck_slides _ _ _ _ Hsized) as Hnil.
    rewrite (deck_slides_grow _ _ _ Hd Hnil), (deck_slides_grow _ _ _ Hd0 Hnil).
    repeat split; auto.
    + rewrite Hw. unfold saved. rewrite Hstop. cbn [flag_at].
      replace (_ <? k)%nat with false; [reflexivity|].
      symmetry. apply Nat.ltb_ge. lia.
    + rewrite files_reads_uncancelled. reflexivity.
    + apply (files_reads_stopped w dpi _ _ k Hstop). left. reflexivity.
    + apply files_out_cancelled.
  - destruct (run_size_error w first rest dir dpi Hsized)
      as (e & s & Hrun & _ & Hn & _).
    unfold final in Hk. rewrite Hrun in Hk. cbn [snd] in Hk. lia.
Qed.

Lemma cancelled_run_skips_save_witness :
  fst (execute (Sample.env (Some 2%nat)) ["a.pdf"%string] "out" 150) = Ok tt /\
  written (final (Sample.env (Some 2%nat)) ["a.pdf"%string] "out" 150) = None /\
  deck_slides (final (uncancelled (Sample.env (Some 2%nat))) ["a.pdf"%string] "out" 150)
  = map snd (slide_reads (Sample.env (Some 2%nat)) 150 ["a.pdf"%string]) /\
  deck_slides (final (Sample.env (Some 2%nat)) ["a.pdf"%string] "out" 150)
  = map snd (filter (before_stop 2)
               (slide_reads (Sample.env (Some 2%nat)) 150 ["a.pdf"%string])) /\
  (exists more,
     deck_slides (final (uncancelled (Sample.env (Some 2%nat))) ["a.pdf"%string] "out" 150)
     = deck_slides (final (Sample.env (Some 2%nat)) ["a.pdf"%string] "out" 150) ++ more) /\
  (exists ev,
     emitted (final (Sample.env (Some 2%nat)) ["a.pdf"%string] "out" 150)
     = ev ++ [finished_signal "out"] /\
     existsb is_finished ev = false).
Proof.
  apply (cancelled_run_skips_save (Sample.env (Some 2%nat)) ["a.pdf"%string] "out" 150 2%nat).
  - reflexivity.
  - vm_compute. lia.
Defined.

(** The reads of the example: the two pages of [a.pdf] are begun by the
    reads 1 and 2 of the flag (read 0 is the one of line 87), so that a
    stop after two reads keeps the first page only. *)
Lemma slide_reads_of_a_pdf :
  map fst (slide_reads (Sample.env None) 150 ["a.pdf"%string]) = [1; 2]%nat /\
  List.length
    (deck_slides (final (Sample.env (Some 2%nat)) ["a.pdf"%string] "out" 150))
  = 1%nat.
Proof. vm_compute. split; reflexivity. Qed.

(** ** C2: one page size for the whole job *)

(** The deck with which the file loop starts when the probe succeeded and
    lines 75-76 did not raise. *)
Lemma sized_deck_of_probe w first rest dpi width_px height_px :
  get_reference_size w dpi first = Some (width_px, height_px) ->
  size_defined w dpi (first :: rest) = true ->
  exists cx cy,
    emu_of_pixels width_px dpi = Some cx /\
    emu_of_pixels height_px dpi = Some cy /\
    slide_size_accepted cx = true /\ slide_size_accepted cy = true /\
    sized_deck w dpi first
    = Some {| slide_width := cx; slide_height := cy; slides := [] |}.
Proof.
  intros Hprobe. unfold size_defined, sized_deck. rewrite Hprobe.
  destruct (emu_of_pixels width_px dpi) as [cx|]; [|discriminate].
  destruct (emu_of_pixels height_px dpi) as [cy|]; [|discriminate].
  destruct (slide_size_accepted cx) eqn:Hcx; [|discriminate].
  destruct (slide_size_accepted cy) eqn:Hcy; [|discriminate].
  intros _. exists cx, cy. repeat split; assumption.
Qed.

(** Each slide of the page loop is the slide of one of its pages. *)
Lemma pages_out_slide_for w dpi cx cy : forall images n,
  exists pages,
    incl pages images /\
    fst (pages_out w dpi cx cy n images) = map (slide_for w dpi cx cy) pages.
Proof.
  induction images as [|img rest IH]; intros n; cbn [pages_out].
  - exists []. split; [apply incl_refl|reflexivity].
  - destruct (flag_at (stop_after w) n);
      [|exists []; split; [apply incl_nil_l|reflexivity]].
    destruct (save_error w img "JPEG" (jpg_quality dpi)) eqn:Hsave.
    + exists [img]. split.
      * intros x [<-|[]]. left. reflexivity.
      * cbn [map]. unfold slide_for. rewrite Hsave. reflexivity.
    + destruct (IH (S n)) as (pages & Hincl & Hpages).
      destruct (pages_out w dpi cx cy (S n) rest) as [more n'].
      cbn [fst] in *. exists (img :: pages). split.
      * intros x [<-|Hx]; [left; reflexivity|right; apply Hincl, Hx].
      * cbn [map]. unfold slide_for at 1. rewrite Hsave, Hpages. reflexivity.
Qed.

Lemma files_out_slide_for w dpi cx cy : forall files n,
  exists pages,
    incl pages (flat_map (images_of w dpi) files) /\
    fst (files_out w dpi cx cy n files) = map (slide_for w dpi cx cy) pages.
Proof.
  induction files as [|path rest IH]; intros n; cbn [files_out flat_map].
  - exists []. split; [apply incl_refl|reflexivity].
  - destruct (flag_at (stop_after w) n);
      [|exists []; split; [apply incl_nil_l|reflexivity]].
    destruct (pages_out_slide_for w dpi cx cy (images_of w dpi path) (S n))
      as (here & Hincl1 & Hhere).
    destruct (pages_out w dpi cx cy (S n) (images_of w dpi path)) as [a n1].
    destruct (IH n1) as (more & Hincl2 & Hmore).
    destruct (files_out w dpi cx cy n1 rest) as [b n2].
    cbn [fst] in *. exists (here ++ more). split.
    + apply incl_app; [apply incl_appl|apply incl_appr]; assumption.
    + rewrite map_app, Hhere, Hmore. reflexivity.
Qed.

(** C2, as stated, fails: the size is not [pixels / dpi * 914400] but what
    binary64 arithmetic and [int] make of it.  For [scan.png] (2480 x 3508
    pixels) at 96 dpi the exact height is 33413700, and the deck and both
    of its pictures are 33413699 high. *)
Lemma page_height_is_not_the_exact_length :
  option_map slide_height
    (prs (final (Sample.env None) ["scan.png"; "b.jpg"]%string "out" 96))
  = Some 33413699 /\
  map (map pic_height)
    (deck_slides (final (Sample.env None) ["scan.png"; "b.jpg"]%string "out" 96))
  = [[33413699]; [33413699]] /\
  Qeq_bool (inject_Z 3508 / inject_Z 96 * inject_Z 914400) (inject_Z 33413700)
  = true.
Proof. vm_compute. repeat split. Qed.

(** C2, amended: when the probe of the first file succeeds and python-pptx
    accepts the size computed from it, the deck's width and height are
    [int(pixels / dpi * 914400)] of the probed dimensions, evaluated in
    binary64; every slide of the deck is the slide of a page of the job,
    holding the picture of that page at the origin with exactly this width
    and height, whatever the size of the page's own image (and holding
    nothing when the JPEG writer refused the page); the file written, if
    any, holds this deck. *)
Theorem page_size_is_fixed w first rest dir dpi width_px height_px :
  get_reference_size w dpi first = Some (width_px, height_px) ->
  size_defined w dpi (first :: rest) = true ->
  exists d,
    prs (final w (first :: rest) dir dpi) = Some d /\
    emu_of_pixels width_px dpi = Some (slide_width d) /\
    emu_of_pixels height_px dpi = Some (slide_height d) /\
    (exists pages,
       incl pages (flat_map (images_of w dpi) (first :: rest)) /\
       slides d
       = map (slide_for w dpi (slide_width d) (slide_height d)) pages) /\
    Forall (Forall (fun p => pic_left p = 0 /\ pic_top p = 0 /\
                             pic_width p = slide_width d /\
                             pic_height p = slide_height d)) (slides d) /\
    (written (final w (first :: rest) dir dpi) = None \/
     exists path, written (final w (first :: rest) dir dpi) = Some (path, d)).
Proof.
  intros Hprobe Hsize.
  destruct (sized_deck_of_probe w first rest dpi _ _ Hprobe Hsize)
    as (cx & cy & Hcx & Hcy & _ & _ & Hsized).
  destruct (run_spec w first rest dir dpi _ Hsized)
    as (s & Hrun & Hd & _ & Hwr & _).
  unfold final. rewrite Hrun. cbn [snd].
  eexists. split; [exact Hd|]. cbn [grow slide_width slide_height slides app].
  repeat split; auto.
  - apply files_out_slide_for.
  - eapply Forall_impl; [|apply files_out_placed].
    intros sl Hsl. eapply Forall_impl; [|exact Hsl].
    intros p (H1 & H2 & H3 & H4 & _). auto.
  - rewrite Hwr. unfold saved.
    destruct (flag_at _ _); [|left; reflexivity].
    destruct (prs_save_error _ _); [left; reflexivity|].
    right. eexists. reflexivity.
Qed.

Lemma page_size_is_fixed_witness :
  exists d,
    prs (final (Sample.env None) Sample.job "out" 150) = Some d /\
    emu_of_pixels 1275 150 = Some (slide_width d) /\
    emu_of_pixels 1650 150 = Some (slide_height d) /\
    (exists pages,
       incl pages (flat_map (images_of (Sample.env None) 150) Sample.job) /\
       slides d
       = map (slide_for (Sample.env None) 150 (slide_width d) (slide_height d))
           pages) /\
    Forall (Forall (fun p => pic_left p = 0 /\ pic_top p = 0 /\
                             pic_width p = slide_width d /\
                             pic_height p = slide_height d)) (slides d) /\
    (written (final (Sample.env None) Sample.job "out" 150) = None \/
     exists path,
       written (final (Sample.env None) Sample.job "out" 150) = Some (path, d)).
Proof.
  apply (page_size_is_fixed (Sample.env None) "a.pdf" ["bad.png"; "b.jpg"]%string
           "out" 150 1275 1650).
  - reflexivity.
  - vm_compute. reflexivity.
Defined.

(** The slides of the example: the two pages of [a.pdf] and [b.jpg], each
    covering the page of 7772400 x 10058400 units exactly. *)
Lemma example_job_page_size :
  map (map (fun p => (pic_left p, pic_top p, pic_width p, pic_height p)))
    (deck_slides (final (Sample.env None) Sample.job "out" 150))
  = [[(0, 0, 7772400, 10058400)]; [(0, 0, 7772400, 10058400)];
     [(0, 0, 7772400, 10058400)]].
Proof. vm_compute. reflexivity. Qed.

(** ** C3: an unreadable file is skipped *)



(** ** C7: JPEG quality *)

(** C7: every picture of the deck, and of the written file, is a JPEG
    stream encoded at quality 95 when the resolution is at least 300 dpi and
    at quality 85 when it is below. *)
Theorem jpeg_quality_follows_dpi w files dir dpi :
  Forall (Forall (fun p =>
            (300 <= dpi -> jpeg_quality (pic_stream p) = 95) /\
            (dpi < 300 -> jpeg_quality (pic_stream p) = 85)))
    (deck_slides (final w files dir dpi)) /\
  match written (final w files dir dpi) with
  | Some (_, d) => slides d = deck_slides (final w files dir dpi)
  | None => True
  end.
Proof.
  split.
  - destruct (final_deck_cases w files dir dpi)
      as [->|(first & rest & d0 & _ & _ & ->)]; [constructor|].
    eapply Forall_impl; [|apply files_out_placed].
    intros sl Hsl. eapply Forall_impl; [|exact Hsl].
    intros p (_ & _ & _ & _ & Hq). rewrite Hq. unfold jpg_quality.
    destruct (dpi >=? 300) eqn:Hge; split; intros; try reflexivity; lia.
  - destruct (written (final w files dir dpi)) as [[path d]|] eqn:Hw; [|exact I].
    unfold deck_slides. rewrite (written_is_final_deck _ _ _ _ _ _ Hw).
    reflexivity.
Qed.

(** C7, the two resolutions of the example. *)
Lemma jpeg_quality_examples :
  map (map (fun p => jpeg_quality (pic_stream p)))
    (deck_slides (final (Sample.env None) Sample.job "out" 400))
  = [[95]; [95]; [95]] /\
  map (map (fun p => jpeg_quality (pic_stream p)))
    (deck_slides (final (Sample.env None) Sample.job "out" 150))
  = [[85]; [85]; [85]].
Proof. vm_compute. split; reflexivity. Qed.

(** ** C10: the empty list *)




(** ** C9: truncation of the page size *)

Lemma Qtrunc_Z z : Qtrunc (inject_Z z) = z.
Proof.
  unfold Qtrunc. destruct (Qle_bool 0 (inject_Z z));
    [apply Qfloor_Z|apply Qceiling_Z].
Qed.

Lemma Qtrunc_floor q : (0 <= q)%Q -> Qtrunc q = Qfloor q.
Proof.
  intros Hq. unfold Qtrunc. apply Qle_bool_iff in Hq. rewrite Hq. reflexivity.
Qed.

Lemma shiftl_pos m p : 0 < Z.shiftl (Zpos m) (Zpos p).
Proof.
  rewrite Z.shiftl_mul_pow2 by lia.
  apply Z.mul_pos_pos; [lia|]. apply Z.pow_pos_nonneg; lia.
Qed.

(** [int(x)] is the truncation toward zero of the value of [x]. *)
Lemma py_int_truncates x v :
  PyNum.py_int x = Some v -> v = Qtrunc (PyNum.SF2Q x).
Proof.
  destruct x as [s|s| |s m e]; cbn [PyNum.py_int PyNum.SF2Q]; try discriminate.
  - intros H; inversion H. reflexivity.
  - intros H; inversion H; subst v; clear H.
    destruct e as [|p|p].
    + destruct s;
        [change (Qopp (inject_Z (Zpos m))) with (inject_Z (- Zpos m))|];
        rewrite Qtrunc_Z; reflexivity.
    + set (z := Z.shiftl (Zpos m) (Zpos p)).
      destruct s; [change (Qopp (inject_Z z)) with (inject_Z (- z))|];
        rewrite Qtrunc_Z; reflexivity.
    + rewrite Z.shiftr_div_pow2 by lia.
      rewrite <- Pos2Z.inj_pow.
      destruct s; unfold Qtrunc, Qle_bool, Qceiling, Qfloor;
        cbn [Qopp Qnum Qden Z.opp Z.mul Z.leb Z.compare]; reflexivity.
Qed.

Lemma Qtrunc_nonnegative x :
  is_negative x = false -> Qtrunc (PyNum.SF2Q x) = Qfloor (PyNum.SF2Q x).
Proof.
  intros Hx. apply Qtrunc_floor.
  destruct x as [s|s| |s m e]; cbn [is_negative PyNum.SF2Q] in *;
    try apply Qle_refl.
  subst s. destruct e as [|p|p]; unfold Qle; cbn [Qnum Qden inject_Z]; try lia.
  pose proof (shiftl_pos m p) as Hz.
  rewrite Z.mul_0_l, Z.mul_1_r. apply Z.lt_le_incl. exact Hz.
Qed.

Lemma binary_round_aux_sign s m e l :
  0 <= m ->
  is_negative (binary_round_aux PyNum.prec PyNum.emax s m e l) = s \/
  binary_round_aux PyNum.prec PyNum.emax s m e l = S754_nan.
Proof.
  intros Hm. unfold binary_round_aux.
  destruct (shr_fexp _ _ m e l) as [mrs1 e1].
  destruct (shr_fexp _ _ _ e1 loc_Exact) as [mrs3 e3].
  destruct (shr_m mrs3); [left; reflexivity| |right; reflexivity].
  destruct (e3 <=? _); left; reflexivity.
Qed.

(** The quotient and the product of non-negative operands are not negative. *)
Lemma int_div_mul_sign a b q :
  0 <= a -> 0 < b -> PyNum.int_truediv a b = Some q ->
  is_negative (PyNum.float_mul_int q 914400) = false.
Proof.
  intros Ha Hb. unfold PyNum.int_truediv.
  destruct b as [|b|b]; try lia.
  destruct a as [|a|a]; try lia.
  - intros H; inversion H. reflexivity.
  - destruct (SFdiv_core_binary PyNum.prec PyNum.emax (Z.abs (Zpos a)) 0
                (Z.abs (Zpos b)) 0) as [[m e] l] eqn:Hdiv.
    destruct (SFdiv_core_binary_bounds (Z.abs (Zpos a)) (Z.abs (Zpos b)) m e l
                ltac:(lia) ltac:(lia) Hdiv) as (Hm & _).
    cbn [Z.ltb Z.compare xorb].
    destruct (binary_round_aux_sign false m e l Hm) as [Hs|Hnan].
    + destruct (binary_round_aux PyNum.prec PyNum.emax false m e l)
        as [s|s| |s m' e']; try discriminate; cbn [is_negative] in Hs; subst s;
        intros H; inversion H; subst q; clear H; [reflexivity|].
      unfold PyNum.float_mul_int.
      change (PyNum.float_of_int 914400)
        with (S754_finite false 7854636190924800 (-33)).
      cbn [SFmul xorb].
      destruct (binary_round_aux_sign false
                  (Zpos (m' * 7854636190924800)) (e' + -33) loc_Exact ltac:(lia))
        as [Hs|Hnan]; [exact Hs|]. rewrite Hnan. reflexivity.
    + rewrite Hnan. discriminate.
Qed.

(** C9, as stated, fails: for an A4 page scanned at 300 dpi (2480 x 3508
    pixels) and a resolution of 96 dpi the exact height 3508 / 96 * 914400
    is 33413700 with no fractional part, yet 33413699 is stored. *)
Lemma a4_scan_at_96_dpi_is_one_unit_short :
  option_map slide_height
    (prs (final (Sample.env None) ["scan.png"%string] "out" 96))
  = Some 33413699 /\
  Qfloor (inject_Z 3508 / inject_Z 96 * inject_Z 914400) = 33413700 /\
  Qeq_bool (inject_Z 3508 / inject_Z 96 * inject_Z 914400) (inject_Z 33413700)
  = true.
Proof. vm_compute. repeat split. Qed.

(** C9, amended: when the probe succeeds and python-pptx accepts the size
    (lines 75-76 do not raise), each stored dimension is the truncation
    toward zero (the floor, for non-negative operands) of the binary64
    value that [pixels / dpi * 914400] evaluates to: the fractional part of
    the computed value is discarded, never rounded to nearest; and both
    stored dimensions lie between 914400 and 51206400. *)
Theorem slide_size_truncates_binary64 w first rest dir dpi width_px height_px :
  get_reference_size w dpi first = Some (width_px, height_px) ->
  size_defined w dpi (first :: rest) = true ->
  exists d qw qh,
    prs (final w (first :: rest) dir dpi) = Some d /\
    PyNum.int_truediv width_px dpi = Some qw /\
    PyNum.int_truediv height_px dpi = Some qh /\
    slide_width d = Qtrunc (PyNum.SF2Q (PyNum.float_mul_int qw 914400)) /\
    slide_height d = Qtrunc (PyNum.SF2Q (PyNum.float_mul_int qh 914400)) /\
    914400 <= slide_width d <= 51206400 /\
    914400 <= slide_height d <= 51206400 /\
    (0 <= width_px -> 0 <= height_px -> 0 < dpi ->
     slide_width d = Qfloor (PyNum.SF2Q (PyNum.float_mul_int qw 914400)) /\
     slide_height d = Qfloor (PyNum.SF2Q (PyNum.float_mul_int qh 914400))).
Proof.
  intros Hprobe Hsize.
  destruct (sized_deck_of_probe w first rest dpi _ _ Hprobe Hsize)
    as (cx & cy & Hcx & Hcy & Hax & Hay & Hsized).
  destruct (run_spec w first rest dir dpi _ Hsized) as (s & Hrun & Hd0 & _).
  assert (Hfinal : exists d, prs (final w (first :: rest) dir dpi) = Some d /\
                             slide_width d = cx /\ slide_height d = cy).
  { unfold final. rewrite Hrun. cbn [snd].
    eexists. split; [exact Hd0|]. split; reflexivity. }
  destruct Hfinal as (d & Hd & Hdx & Hdy).
  unfold slide_size_accepted in Hax, Hay.
  apply andb_true_iff in Hax as [Hax1 Hax2]. apply andb_true_iff in Hay as [Hay1 Hay2].
  apply Z.leb_le in Hax1, Hax2, Hay1, Hay2.
  unfold emu_of_pixels, PyNum.int_div_mul in Hcx, Hcy.
  destruct (PyNum.int_truediv width_px dpi) as [qw|] eqn:Hqw; [|discriminate].
  destruct (PyNum.int_truediv height_px dpi) as [qh|] eqn:Hqh; [|discriminate].
  apply py_int_truncates in Hcx, Hcy.
  exists d, qw, qh.
  split; [exact Hd|]. split; [reflexivity|]. split; [reflexivity|].
  split; [congruence|]. split; [congruence|].
  split; [lia|]. split; [lia|].
  intros Hx Hy Hpos. split.
  - rewrite <- Qtrunc_nonnegative
      by exact (int_div_mul_sign _ _ _ Hx Hpos Hqw).
    congruence.
  - rewrite <- Qtrunc_nonnegative
      by exact (int_div_mul_sign _ _ _ Hy Hpos Hqh).
    congruence.
Qed.

Lemma slide_size_truncates_binary64_witness :
  exists d qw qh,
    prs (final (Sample.env None) ["scan.png"%string] "out" 96) = Some d /\
    PyNum.int_truediv 2480 96 = Some qw /\
    PyNum.int_truediv 3508 96 = Some qh /\
    slide_width d = Qtrunc (PyNum.SF2Q (PyNum.float_mul_int qw 914400)) /\
    slide_height d = Qtrunc (PyNum.SF2Q (PyNum.float_mul_int qh 914400)) /\
    914400 <= slide_width d <= 51206400 /\
    914400 <= slide_height d <= 51206400 /\
    (0 <= 2480 -> 0 <= 3508 -> 0 < 96 ->
     slide_width d = Qfloor (PyNum.SF2Q (PyNum.float_mul_int qw 914400)) /\
     slide_height d = Qfloor (PyNum.SF2Q (PyNum.float_mul_int qh 914400))).
Proof.
  apply (slide_size_truncates_binary64 (Sample.env None) "scan.png" [] "out" 96
           2480 3508).
  - reflexivity.
  - vm_compute. reflexivity.
Defined.

(** ** C4, C5: slides and pages *)

(** A file whose pages are all encoded contributes one slide per page. *)
Lemma item_slides_encoded w dpi d path :
  stop_after w = None -> encodable w dpi path = true ->
  item_slides w dpi d path
  = map (fun img => [full_bleed dpi (slide_width d) (slide_height d) img])
      (images_of w dpi path).
Proof.
  intros Hstop Henc. unfold item_slides.
  apply pages_out_encoded; assumption.
Qed.

Lemma flat_map_agree {A B} (f g : A -> list B) (l : list A) :
  (forall a, In a l -> f a = g a) -> flat_map f l = flat_map g l.
Proof.
  induction l as [|a l IH]; intros H; [reflexivity|].
  cbn [flat_map]. rewrite (H a (or_introl eq_refl)), IH; [reflexivity|].
  intros b Hb. apply H. right. exact Hb.
Qed.

(** Off the defect reported for C5: in a job that is not cancelled, whose
    page size is accepted and whose pages are all encoded, the slides
    follow the list order and then
    the page order, and each holds the one picture of its page, at the
    origin and of the size of the page. *)
Lemma slides_follow_input_order w files dir dpi :
  stop_after w = None -> files <> [] ->
  size_defined w dpi files = true ->
  forallb (encodable w dpi) files = true ->
  exists d,
    prs (final w files dir dpi) = Some d /\
    slides d
    = flat_map (fun path =>
                  map (fun img =>
                         [full_bleed dpi (slide_width d) (slide_height d) img])
                    (images_of w dpi path)) files.
Proof.
  intros Hstop Hne Hsize Henc.
  destruct files as [|first rest]; [congruence|].
  cbn [size_defined] in Hsize.
  destruct (sized_deck w dpi first) as [d0|] eqn:Hsized; [|discriminate].
  destruct (run_spec w first rest dir dpi d0 Hsized) as (s & Hrun & Hd & _).
  rewrite (files_out_uncancelled w dpi d0 Hstop) in Hd.
  unfold final. rewrite Hrun. cbn [snd].
  eexists. split; [exact Hd|]. cbn [grow slides slide_width slide_height].
  rewrite (sized_deck_slides _ _ _ _ Hsized). cbn [app].
  rewrite forallb_forall in Henc.
  apply flat_map_agree. intros path Hin.
  apply item_slides_encoded; auto.
Qed.

(** Off the defect reported for C4: in a job that is not cancelled, whose
    page size is accepted and whose pages are all encoded, the deck has as
    many slides as the
    successfully processed files have pages. *)
Lemma slide_count_when_pages_encode w files dir dpi :
  stop_after w = None -> files <> [] ->
  size_defined w dpi files = true ->
  forallb (encodable w dpi) files = true ->
  List.length (deck_slides (final w files dir dpi))
  = pages_of_successful w dpi files.
Proof.
  intros Hstop Hne Hsize Henc.
  destruct (slides_follow_input_order w files dir dpi Hstop Hne Hsize Henc)
    as (d & Hd & Hslides).
  unfold deck_slides. rewrite Hd, Hslides. unfold pages_of_successful.
  rewrite forallb_forall in Henc.
  clear Hd Hslides Hne Hsize. induction files as [|path rest IH]; [reflexivity|].
  cbn [flat_map map]. rewrite length_app, length_map.
  unfold list_sum in *. cbn [fold_right].
  f_equal; [|apply IH; intros f Hf; apply Henc; right; exact Hf].
  unfold successfully_processed.
  rewrite (Henc path (or_introl eq_refl)), andb_true_r.
  destruct (unreadable w dpi path) eqn:Hbad; [|reflexivity].
  rewrite (unreadable_images_of _ _ _ Hbad). reflexivity.
Qed.

(** C4, the example of the specification: two pages of [a.pdf], nothing
    for the corrupt [bad.png], one slide for [b.jpg]. *)
Lemma example_job_has_three_slides :
  List.length (deck_slides (final (Sample.env None) Sample.job "out" 150)) = 3%nat /\
  pages_of_successful (Sample.env None) 150 Sample.job = 3%nat.
Proof. vm_compute. split; reflexivity. Qed.

(** C4 fails on the code: [gray_alpha.png] is opened, is not converted, and
    is refused by the JPEG writer after its slide was added.  No file of
    the job is processed successfully, yet the deck, and the file written,
    hold one slide. *)
Theorem unencodable_image_leaves_a_slide :
  successfully_processed (Sample.env None) 150 "gray_alpha.png" = false /\
  pages_of_successful (Sample.env None) 150 ["gray_alpha.png"%string] = 0%nat /\
  List.length
    (deck_slides (final (Sample.env None) ["gray_alpha.png"%string] "out" 150))
  = 1%nat /\
  option_map (fun f => List.length (slides (snd f)))
    (written (final (Sample.env None) ["gray_alpha.png"%string] "out" 150))
  = Some 1%nat.
Proof. vm_compute. repeat split. Qed.

(** C5 fails on the code, by the same defect: the slide is appended before
    the page is encoded, so the slide of a page the JPEG writer refuses
    stays in the deck and holds no picture.  Here the slides hold the pages
    1 and 2 of [a.pdf], nothing, and [b.jpg]. *)
Theorem refused_page_leaves_an_empty_slide :
  map (map (fun p => pixels (jpeg_source (pic_stream p))))
    (deck_slides
       (final (Sample.env None) ["a.pdf"; "gray_alpha.png"; "b.jpg"]%string "out" 150))
  = [[1]; [2]; []; [3]]%nat /\
  In (status_updated
        (ErrorOccurred "gray_alpha.png" (Exception "cannot write mode as JPEG")))
    (emitted
       (final (Sample.env None) ["a.pdf"; "gray_alpha.png"; "b.jpg"]%string "out" 150)).
Proof. vm_compute. split; [reflexivity|]. tauto. Qed.

(** ** C6: progress *)

(** C6 fails on the code: the [continue] taken for an image that cannot be
    opened skips the update of [processed_count] and of the progress.  The
    three files of the example give two updates, 33 and 66, and never 100;
    a job of the one file [bad.png] gives none. *)
Theorem skipped_file_gives_no_progress :
  progress_values (emitted (final (Sample.env None) Sample.job "out" 150))
  = [33; 66] /\
  progress_values (emitted (final (Sample.env None) ["bad.png"%string] "out" 150))
  = [] /\
  progress_values
    (emitted (final (Sample.env None) ["a.pdf"; "b.jpg"]%string "out" 150))
  = [50; 100].
Proof. vm_compute. repeat split. Qed.

(** The percentage is truncated from a binary64 product: 29 files of 100
    are reported as 28. *)
Lemma percent_29_of_100 : percent 29 100 = Some 28 /\ percent 100 100 = Some 100.
Proof. vm_compute. split; reflexivity. Qed.

(** ** C8: flattening *)

(** C8, as stated, fails: [gray_alpha.png] has the mode [LA], which carries
    an alpha channel, and reaches the page loop unchanged. *)
Lemma gray_alpha_is_not_flattened :
  carries_alpha_or_palette (mode Sample.gray_alpha) = true /\
  fst (load_images (Sample.env None) 150 0 1 "gray_alpha.png" "gray_alpha.png"
         initial)
  = Ok (Some [Sample.gray_alpha]) /\
  mode Sample.gray_alpha = "LA"%string.
Proof. vm_compute. repeat split. Qed.

(** C8, amended: an image file whose mode is [RGBA] or [P] is converted to
    [RGB] before it is encoded: what the page loop receives, and the source
    of every picture placed for the file, is the converted image. *)
Theorem rgba_and_palette_images_are_flattened w dpi path img dir :
  is_pdf path = false ->
  Image_open w path = Ok img ->
  mode img = "RGBA"%string \/ mode img = "P"%string ->
  convert_error w img "RGB"%string = None ->
  (forall i total name s,
     fst (load_images w dpi i total path name s)
     = Ok (Some [{| pixels := pixels img; mode := "RGB"; size := size img |}])) /\
  Forall (Forall (fun p =>
            jpeg_source (pic_stream p)
            = {| pixels := pixels img; mode := "RGB"; size := size img |}))
    (deck_slides (final w [path] dir dpi)).
Proof.
  intros Hpdf Hopen Hmode Hconv.
  assert (Hguard : String.eqb (mode img) "RGBA" || String.eqb (mode img) "P" = true).
  { destruct Hmode as [-> | ->]; reflexivity. }
  split.
  - intros i total name s. unfold load_images.
    rewrite Hpdf. unfold bind, emit, try_except, of_result, ret; cbn.
    rewrite Hopen. cbn. rewrite Hguard. unfold Image_convert.
    rewrite Hconv. reflexivity.
  - destruct (final_deck_cases w [path] dir dpi)
      as [->|(first & rest & d0 & _ & _ & ->)]; [constructor|].
    cbn [files_out]. destruct (flag_at (stop_after w) 0); [|constructor].
    pose proof (pages_out_sources w dpi (slide_width d0) (slide_height d0)
                  (images_of w dpi path) 1%nat) as Hsrc.
    destruct (pages_out w dpi (slide_width d0) (slide_height d0) 1
                (images_of w dpi path)) as [here n1].
    cbn [fst] in *. rewrite app_nil_r.
    unfold images_of, Image_convert in Hsrc.
    rewrite Hpdf, Hopen, Hguard, Hconv in Hsrc.
    eapply Forall_impl; [|exact Hsrc].
    intros sl Hsl. eapply Forall_impl; [|exact Hsl].
    intros p [Hp|[]]. symmetry. exact Hp.
Qed.

Lemma rgba_and_palette_images_are_flattened_witness :
  (forall i total name s,
     fst (load_images (Sample.env None) 150 i total "logo.png" name s)
     = Ok (Some [{| pixels := pixels Sample.logo; mode := "RGB";
                    size := size Sample.logo |}])) /\
  Forall (Forall (fun p =>
            jpeg_source (pic_stream p)
            = {| pixels := pixels Sample.logo; mode := "RGB";
                 size := size Sample.logo |}))
    (deck_slides (final (Sample.env None) ["logo.png"%string] "out" 150)).
Proof.
  apply (rgba_and_palette_images_are_flattened (Sample.env None) 150 "logo.png"
           Sample.logo "out").
  - reflexivity.
  - reflexivity.
  - left. reflexivity.
  - reflexivity.
Defined.

(** * Further properties of the worker *)

(** ** The run, step by step *)

Lemma progress_values_app l1 l2 :
  progress_values (l1 ++ l2) = progress_values l1 ++ progress_values l2.
Proof.
  induction l1 as [|[msg|v|dir] l1 IH]; cbn [app progress_values];
    rewrite ?IH; reflexivity.
Qed.

Lemma errors_reported_app l1 l2 :
  errors_reported (l1 ++ l2) = errors_reported l1 ++ errors_reported l2.
Proof.
  induction l1 as [|[msg|v|dir] l1 IH]; cbn [app errors_reported];
    rewrite ?IH; try reflexivity.
  destruct msg; rewrite ?IH; reflexivity.
Qed.

(** Lines 54-83 leave the state [loop_start]. *)
Lemma run_unfold w first rest dir dpi d0 :
  sized_deck w dpi first = Some d0 ->
  execute w (first :: rest) dir dpi
  = match process_files w dpi (List.length (first :: rest)) 0 (first :: rest) 0
            (loop_start w dpi first d0) with
    | (Ok _, s) => (save_step w (save_path w dir) ;; emit (finished_signal dir)) s
    | (Raise e, s) => (Raise e, s)
    end.
Proof.
  intros Hsized. unfold execute, run.
  unfold bind at 1. cbn [emit initial prs emitted printed polls written app].
  unfold bind at 1. cbn [emit prs emitted printed polls written app].
  unfold bind at 1. cbn [new_Presentation prs emitted printed polls written].
  unfold bind at 1.
  assert (Hsize : forall s0,
            prs s0 = Some default_Presentation ->
            decide_slide_size w dpi first s0
            = (Ok tt, {| prs := Some d0;
                         emitted := emitted s0 ++ sizing_signals w dpi first;
                         printed := printed s0; polls := polls s0;
                         written := written s0 |})).
  { intros [p em pr po wr] Hp. cbn in Hp. subst p.
    unfold sized_deck in Hsized. unfold decide_slide_size, sizing_signals.
    destruct (get_reference_size w dpi first) as [[wpx hpx]|].
    - destruct (emu_of_pixels wpx dpi) as [cx|]; [|discriminate].
      destruct (emu_of_pixels hpx dpi) as [cy|]; [|discriminate].
      destruct (slide_size_accepted cx) eqn:Hcx; [|discriminate].
      destruct (slide_size_accepted cy) eqn:Hcy; [|discriminate].
      inversion Hsized; subst d0.
      unfold of_option, set_slide_width, set_slide_height, bind, ret.
      rewrite Hcx, Hcy. cbn. rewrite app_nil_r. reflexivity.
    - inversion Hsized; subst d0. reflexivity. }
  rewrite Hsize by reflexivity.
  cbn [prs emitted printed polls written app]. unfold loop_start, bind.
  cbn [app]. fold (save_path w dir). reflexivity.
Qed.

(** The save step and the last signal. *)
Lemma save_and_finish w dir s d :
  prs s = Some d ->
  (save_step w (save_path w dir) ;; emit (finished_signal dir)) s
  = (Ok tt, {| prs := prs s;
               emitted := emitted s ++ save_signals w dir (polls s)
                          ++ [finished_signal dir];
               printed := printed s;
               polls := S (polls s);
               written := match saved w dir (polls s) d with
                          | Some f => Some f
                          | None => written s
                          end |}).
Proof.
  intros Hd. destruct s as [p em pr po wr]. cbn in Hd. subst p.
  unfold save_step, save_signals, saved, bind, is_running, try_except, emit,
    prs_save, ret; cbn [prs polls written emitted printed].
  destruct (flag_at (stop_after w) po).
  - destruct (prs_save_error w (save_path w dir));
      cbn [prs polls written emitted printed option_map app];
      rewrite <- ?app_assoc; reflexivity.
  - cbn [app]. reflexivity.
Qed.

(** A run in which lines 75-76 do not raise, with the state the loop
    leaves. *)
Lemma run_after_loop w first rest dir dpi d0 :
  sized_deck w dpi first = Some d0 ->
  exists pc s2 ev,
    process_files w dpi (List.length (first :: rest)) 0 (first :: rest) 0
      (loop_start w dpi first d0) = (Ok pc, s2) /\
    prs s2 = Some (grow d0 (fst (files_out w dpi (slide_width d0)
                                   (slide_height d0) 0 (first :: rest)))) /\
    polls s2 = snd (files_out w dpi (slide_width d0) (slide_height d0) 0
                      (first :: rest)) /\
    written s2 = None /\
    emitted s2 = emitted (loop_start w dpi first d0) ++ ev /\
    existsb is_finished ev = false /\
    execute w (first :: rest) dir dpi
    = (Ok tt, {| prs := prs s2;
                 emitted := emitted s2 ++ save_signals w dir (polls s2)
                            ++ [finished_signal dir];
                 printed := printed s2;
                 polls := S (polls s2);
                 written := saved w dir (polls s2)
                              (grow d0 (fst (files_out w dpi (slide_width d0)
                                               (slide_height d0) 0
                                               (first :: rest)))) |}).
Proof.
  intros Hsized.
  destruct (process_files_deck w dpi (List.length (first :: rest)) (first :: rest)
              0%nat 0 (loop_start w dpi first d0) d0 eq_refl eq_refl ltac:(lia))
    as (pc & s2 & Hloop & (d & Hd & Hd2) & Hn & Hw & ev & Hev & Hfin).
  cbn [loop_start prs polls written] in Hd, Hn, Hw.
  inversion Hd; subst d; clear Hd.
  exists pc, s2, ev. repeat split; auto.
  rewrite (run_unfold _ _ _ _ _ _ Hsized), Hloop.
  rewrite (save_and_finish w dir s2 _ Hd2), Hn, Hw.
  f_equal. f_equal. destruct (saved _ _ _ _); reflexivity.
Qed.

(** ** What an uncancelled run reports *)

Section Reports.

Variables (w : world) (dpi : Z).
Hypothesis not_cancelled : stop_after w = None.

(** Closes a case of the lemmas below: the run is computed and the two
    projections of the signals are pushed through the concatenations. *)
Ltac close_report :=
  eexists; split; [reflexivity|]; cbn;
  repeat first [ rewrite progress_values_app | rewrite errors_reported_app ];
  cbn; rewrite ?app_nil_r; repeat split; auto.

(** The page loop stops at the first page the JPEG writer refuses; it
    prints nothing and emits only page statuses. *)
Lemma add_pages_trace i total name tp : forall images p_idx s,
  exists s',
    add_pages w dpi i total name tp p_idx images s
    = (match first_refusal w dpi images with
       | Some e => Raise e
       | None => Ok tt
       end, s') /\
    printed s' = printed s /\
    progress_values (emitted s') = progress_values (emitted s) /\
    errors_reported (emitted s') = errors_reported (emitted s).
Proof.
  induction images as [|img rest IH]; intros p_idx s; cbn [add_pages first_refusal].
  - exists s. repeat split.
  - unfold bind at 1. unfold is_running. rewrite not_cancelled. cbn [flag_at negb].
    unfold bind, emit, add_slide, update_prs, of_error; cbn.
    destruct (save_error w img "JPEG" (jpg_quality dpi)) as [e|].
    + unfold raise. close_report.
    + unfold ret, add_picture, update_prs; cbn.
      match goal with
      | |- context [add_pages _ _ _ _ _ _ _ rest ?s2] =>
          destruct (IH (S p_idx) s2) as (s' & -> & H2 & H3 & H4)
      end.
      exists s'. split; [reflexivity|].
      rewrite H2, H3, H4. cbn.
      rewrite progress_values_app, errors_reported_app. cbn.
      rewrite !app_nil_r. repeat split.
Qed.

(** Runs the page loop of one case of [process_file]. *)
Ltac run_pages :=
  match goal with
  | |- context [add_pages ?a1 ?a2 ?a3 ?a4 ?a5 ?a6 ?a7 ?a8 ?s1] =>
      let s2 := fresh "s" in
      let H2 := fresh "H" in
      let H3 := fresh "H" in
      let H4 := fresh "H" in
      destruct (add_pages_trace a3 a4 a5 a6 a8 a7 s1) as (s2 & -> & H2 & H3 & H4);
      match goal with
      | |- context [first_refusal w dpi ?l] =>
          destruct (first_refusal w dpi l) as [e|]
      end;
      unfold bind, emit, ret;
      (eexists; split; [reflexivity|]); cbn;
      repeat first [ rewrite progress_values_app | rewrite errors_reported_app ];
      rewrite ?H2, ?H3, ?H4; cbn;
      repeat first [ rewrite progress_values_app | rewrite errors_reported_app ];
      cbn; rewrite ?app_nil_r; repeat split; auto
  end.

(** One file: which way the body is left, what is printed and which error
    is reported. *)
Lemma process_file_trace i total path s :
  exists s',
    process_file w dpi i total path s
    = (Ok (if skipped w dpi path then Continue else FallThrough), s') /\
    printed s' = printed s ++ print_of w path /\
    progress_values (emitted s') = progress_values (emitted s) /\
    errors_reported (emitted s')
    = errors_reported (emitted s)
      ++ map (pair (PyStr.basename path)) (error_of w dpi path).
Proof.
  unfold process_file, try_except, load_images, skipped, print_of, error_of,
    images_of.
  destruct (is_pdf path).
  - unfold bind at 1. unfold bind at 1. unfold emit at 1. unfold bind at 1.
    unfold of_result at 1.
    destruct (convert_from_path w path dpi None (Some "jpeg"%string))
      as [[|img images]|e].
    + unfold bind, emit, ret. close_report.
    + unfold ret at 1. unfold bind at 1. run_pages.
    + unfold bind, emit, ret. close_report.
  - unfold bind at 1. unfold bind at 1. unfold emit at 1. unfold try_except at 1.
    unfold bind at 1. unfold of_result at 1.
    destruct (Image_open w path) as [img|e].
    + unfold bind at 1.
      destruct (String.eqb (mode img) "RGBA" || String.eqb (mode img) "P").
      * unfold of_result at 1. unfold Image_convert.
        destruct (convert_error w img "RGB") as [e|].
        -- unfold bind, print, emit, ret. close_report.
        -- unfold ret at 1. unfold ret at 1. unfold bind at 1. run_pages.
      * unfold ret at 1. unfold ret at 1. unfold bind at 1. run_pages.
    + unfold bind, print, emit, ret. close_report.
Qed.

End Reports.

(** The file loop of an uncancelled run: the progress is updated once for
    each file that is not left by [continue], with the percentages of
    1, 2, ... files; a line is printed for each image that cannot be loaded,
    and an error status is emitted for each file the outer [except] catches. *)
Lemma process_files_trace w dpi total :
  stop_after w = None ->
  forall files i pc s,
    (i + List.length files = total)%nat -> 0 <= pc <= Z.of_nat i ->
    exists s',
      process_files w dpi total i files pc s
      = (Ok (pc + Z.of_nat (List.length (handled w dpi files))), s') /\
      printed s' = printed s ++ flat_map (print_of w) files /\
      map Some (progress_values (emitted s'))
      = map Some (progress_values (emitted s))
        ++ map (fun j => percent (pc + Z.of_nat j) (Z.of_nat total))
             (seq 1 (List.length (handled w dpi files))) /\
      errors_reported (emitted s')
      = errors_reported (emitted s)
        ++ flat_map (fun f => map (pair (PyStr.basename f)) (error_of w dpi f))
             files.
Proof.
  intros Hstop. induction files as [|path rest IH]; intros i pc s Hlen Hpc.
  - exists s. cbn. rewrite Z.add_0_r, !app_nil_r. repeat split.
  - cbn [process_files List.length] in *. unfold bind at 1. unfold is_running.
    rewrite Hstop. cbn [flag_at negb]. unfold bind at 1.
    match goal with
    | |- context [process_file w dpi i total path ?s0] =>
        destruct (process_file_trace w dpi Hstop i total path s0)
          as (s1 & -> & Hp1 & Hg1 & He1)
    end.
    cbn [printed emitted] in Hp1, Hg1, He1.
    unfold handled in *. cbn [filter flat_map].
    destruct (skipped w dpi path); cbn [negb].
    + destruct (IH (S i) pc s1 ltac:(lia) ltac:(lia))
        as (s2 & Hrun & Hp2 & Hg2 & He2).
      exists s2. split; [exact Hrun|].
      rewrite Hp2, Hg2, He2, Hp1, Hg1, He1, <- !app_assoc. repeat split.
    + destruct (percent_defined (pc + 1) (Z.of_nat total) ltac:(lia)) as (v & Hv).
      rewrite Hv. unfold of_option, ret, bind at 1. unfold bind at 1.
      unfold emit at 1.
      match goal with
      | |- context [process_files w dpi total (S i) rest (pc + 1) ?s1'] =>
          destruct (IH (S i) (pc + 1) s1' ltac:(lia) ltac:(lia))
            as (s2 & Hrun & Hp2 & Hg2 & He2)
      end.
      cbn [printed emitted] in Hp2, Hg2, He2.
      exists s2. split.
      * rewrite Hrun. cbn [List.length]. do 2 f_equal. lia.
      * rewrite Hp2, Hg2, He2, Hp1.
        rewrite progress_values_app, errors_reported_app, He1, Hg1, map_app.
        cbn [progress_values errors_reported List.length seq map].
        rewrite <- ?app_assoc, ?app_nil_r. cbn [app].
        split; [reflexivity|]. split; [|reflexivity].
        apply f_equal. change (Z.of_nat 1) with 1. rewrite Hv. apply f_equal.
        rewrite <- (seq_shift _ 1), map_map. apply map_ext.
        intros j. f_equal. lia.
Qed.

(** The signals of the save step carry no progress and no error status. *)
Lemma save_signals_plain w dir n :
  progress_values (save_signals w dir n ++ [finished_signal dir]) = [] /\
  errors_reported (save_signals w dir n ++ [finished_signal dir]) = [].
Proof.
  unfold save_signals. destruct (flag_at _ _); [|split; reflexivity].
  destruct (prs_save_error _ _); split; reflexivity.
Qed.

Lemma loop_start_plain w dpi first d0 :
  progress_values (emitted (loop_start w dpi first d0)) = [] /\
  errors_reported (emitted (loop_start w dpi first d0)) = [].
Proof.
  unfold loop_start, sizing_signals. cbn [emitted].
  destruct (get_reference_size w dpi first); split; reflexivity.
Qed.

(** X1.  In a run that is not cancelled and whose page size is accepted
    (lines 75-76 do not raise), the progress is updated once for
    each file that is not left by [continue] (a PDF without page, an image
    that cannot be loaded), and the [j]-th update carries
    [int((j / total_files) * 100)]. *)
Theorem progress_counts_handled_files w files dir dpi :
  stop_after w = None -> files <> [] ->
  size_defined w dpi files = true ->
  map Some (progress_values (emitted (final w files dir dpi)))
  = map (fun j => percent (Z.of_nat j) (Z.of_nat (List.length files)))
      (seq 1 (List.length (handled w dpi files))).
Proof.
  intros Hstop Hne Hsize.
  destruct files as [|first rest]; [congruence|].
  cbn [size_defined] in Hsize.
  destruct (sized_deck w dpi first) as [d0|] eqn:Hsized; [|discriminate].
  destruct (run_after_loop w first rest dir dpi d0 Hsized)
    as (pc & s2 & ev & Hloop & _ & _ & _ & _ & _ & Hrun).
  destruct (process_files_trace w dpi (List.length (first :: rest)) Hstop
              (first :: rest) 0%nat 0 (loop_start w dpi first d0)
              eq_refl ltac:(lia)) as (s2' & Hloop' & _ & Hg & _).
  rewrite Hloop in Hloop'. inversion Hloop'; subst s2'; clear Hloop'.
  unfold final. rewrite Hrun. cbn [snd emitted].
  rewrite progress_values_app, (proj1 (save_signals_plain _ _ _)), app_nil_r.
  rewrite Hg, (proj1 (loop_start_plain _ _ _ _)). reflexivity.
Qed.

Lemma progress_counts_handled_files_witness :
  map Some (progress_values (emitted (final (Sample.env None) Sample.job "out" 150)))
  = map (fun j => percent (Z.of_nat j) (Z.of_nat (List.length Sample.job)))
      (seq 1 (List.length (handled (Sample.env None) 150 Sample.job))).
Proof.
  apply (progress_counts_handled_files (Sample.env None) Sample.job "out" 150).
  - reflexivity.
  - discriminate.
  - vm_compute. reflexivity.
Defined.

(** X2.  In a run that is not cancelled and whose page size is accepted
    (lines 75-76 do not raise), the lines printed are the errors of the
    images that cannot be opened or converted, one line each and in list
    order; the error statuses emitted are those of the files whose
    rasterizing raises or one of whose pages the JPEG writer refuses, in
    list order: an image that cannot be loaded gets no error status. *)
Theorem errors_are_printed_or_reported w files dir dpi :
  stop_after w = None -> files <> [] ->
  size_defined w dpi files = true ->
  printed (final w files dir dpi) = flat_map (print_of w) files /\
  errors_reported (emitted (final w files dir dpi))
  = flat_map (fun f => map (pair (PyStr.basename f)) (error_of w dpi f)) files.
Proof.
  intros Hstop Hne Hsize.
  destruct files as [|first rest]; [congruence|].
  cbn [size_defined] in Hsize.
  destruct (sized_deck w dpi first) as [d0|] eqn:Hsized; [|discriminate].
  destruct (run_after_loop w first rest dir dpi d0 Hsized)
    as (pc & s2 & ev & Hloop & _ & _ & _ & _ & _ & Hrun).
  destruct (process_files_trace w dpi (List.length (first :: rest)) Hstop
              (first :: rest) 0%nat 0 (loop_start w dpi first d0)
              eq_refl ltac:(lia)) as (s2' & Hloop' & Hp & _ & He).
  rewrite Hloop in Hloop'. inversion Hloop'; subst s2'; clear Hloop'.
  unfold final. rewrite Hrun. cbn [snd emitted printed]. split.
  - rewrite Hp. reflexivity.
  - rewrite errors_reported_app, (proj2 (save_signals_plain _ _ _)), app_nil_r.
    rewrite He, (proj2 (loop_start_plain _ _ _ _)). reflexivity.
Qed.

Lemma errors_are_printed_or_reported_witness :
  printed (final (Sample.env None) Sample.job "out" 150)
  = flat_map (print_of (Sample.env None)) Sample.job /\
  errors_reported (emitted (final (Sample.env None) Sample.job "out" 150))
  = flat_map (fun f => map (pair (PyStr.basename f))
                         (error_of (Sample.env None) 150 f)) Sample.job.
Proof.
  apply (errors_are_printed_or_reported (Sample.env None) Sample.job "out" 150).
  - reflexivity.
  - discriminate.
  - vm_compute. reflexivity.
Defined.

(** ** The size probe and the save step *)

(** X3.  When the size probe of the first file fails, the run goes on: it
    returns normally, reports the fallback once the reference file was
    announced, and the deck keeps the size of [Presentation()], which is
    also the size of every picture. *)
Theorem failed_probe_keeps_default_size w first rest dir dpi :
  get_reference_size w dpi first = None ->
  fst (execute w (first :: rest) dir dpi) = Ok tt /\
  (exists later,
     emitted (final w (first :: rest) dir dpi)
     = [status_updated Initializing;
        status_updated (CheckingReference (PyStr.basename first));
        status_updated SizeFallback] ++ later) /\
  exists d,
    prs (final w (first :: rest) dir dpi) = Some d /\
    slide_width d = slide_width default_Presentation /\
    slide_height d = slide_height default_Presentation /\
    Forall (Forall (fun p => pic_width p = slide_width default_Presentation /\
                             pic_height p = slide_height default_Presentation))
      (slides d).
Proof.
  intros Hprobe.
  assert (Hsized : sized_deck w dpi first = Some default_Presentation).
  { unfold sized_deck. rewrite Hprobe. reflexivity. }
  destruct (run_after_loop w first rest dir dpi _ Hsized)
    as (pc & s2 & ev & _ & Hd & _ & _ & Hev & _ & Hrun).
  unfold final. rewrite Hrun. cbn [fst snd emitted prs].
  split; [reflexivity|]. split.
  - rewrite Hev. unfold loop_start, sizing_signals. rewrite Hprobe.
    cbn [emitted app]. eexists. reflexivity.
  - eexists. split; [exact Hd|]. cbn [grow slide_width slide_height slides].
    repeat split.
    cbn [default_Presentation slides app].
    eapply Forall_impl; [|apply files_out_placed].
    intros sl Hsl. eapply Forall_impl; [|exact Hsl].
    intros p (_ & _ & H3 & H4 & _). split; assumption.
Qed.

Lemma failed_probe_keeps_default_size_witness :
  fst (execute (Sample.env None) ["bad.png"; "b.jpg"]%string "out" 150) = Ok tt /\
  (exists later,
     emitted (final (Sample.env None) ["bad.png"; "b.jpg"]%string "out" 150)
     = [status_updated Initializing;
        status_updated (CheckingReference (PyStr.basename "bad.png"));
        status_updated SizeFallback] ++ later) /\
  exists d,
    prs (final (Sample.env None) ["bad.png"; "b.jpg"]%string "out" 150) = Some d /\
    slide_width d = slide_width default_Presentation /\
    slide_height d = slide_height default_Presentation /\
    Forall (Forall (fun p => pic_width p = slide_width default_Presentation /\
                             pic_height p = slide_height default_Presentation))
      (slides d).
Proof.
  apply (failed_probe_keeps_default_size (Sample.env None) "bad.png"
           ["b.jpg"%string] "out" 150).
  reflexivity.
Defined.

(** X4.  When [prs.save] raises in a run that is not cancelled and whose
    page size is accepted (lines 75-76 do not raise), the run does not
    raise: it returns normally, no file is written, and its last three signals are the saving status, the
    failure status carrying the error, and [finished_signal]. *)
Theorem failed_save_is_reported w files dir dpi e :
  stop_after w = None -> files <> [] ->
  size_defined w dpi files = true ->
  prs_save_error w (save_path w dir) = Some e ->
  fst (execute w files dir dpi) = Ok tt /\
  written (final w files dir dpi) = None /\
  exists before,
    emitted (final w files dir dpi)
    = before ++ [status_updated Saving; status_updated (SaveFailed e);
                 finished_signal dir].
Proof.
  intros Hstop Hne Hsize Hsave.
  destruct files as [|first rest]; [congruence|].
  cbn [size_defined] in Hsize.
  destruct (sized_deck w dpi first) as [d0|] eqn:Hsized; [|discriminate].
  destruct (run_after_loop w first rest dir dpi d0 Hsized)
    as (pc & s2 & ev & _ & _ & _ & _ & _ & _ & Hrun).
  unfold final. rewrite Hrun. cbn [fst snd emitted written].
  unfold saved, save_signals. rewrite Hstop, Hsave. cbn [flag_at].
  repeat split. exists (emitted s2). reflexivity.
Qed.

Lemma failed_save_is_reported_witness :
  fst (execute
         {| convert_from_path := convert_from_path (Sample.env None);
            Image_open := Image_open (Sample.env None);
            convert_error := convert_error (Sample.env None);
            save_error := save_error (Sample.env None);
            prs_save_error := fun _ => Some (Exception "Permission denied");
            timestamp_now := timestamp_now (Sample.env None);
            stop_after := None |} Sample.job "out" 150) = Ok tt /\
  written (final
         {| convert_from_path := convert_from_path (Sample.env None);
            Image_open := Image_open (Sample.env None);
            convert_error := convert_error (Sample.env None);
            save_error := save_error (Sample.env None);
            prs_save_error := fun _ => Some (Exception "Permission denied");
            timestamp_now := timestamp_now (Sample.env None);
            stop_after := None |} Sample.job "out" 150) = None /\
  exists before,
    emitted (final
         {| convert_from_path := convert_from_path (Sample.env None);
            Image_open := Image_open (Sample.env None);
            convert_error := convert_error (Sample.env None);
            save_error := save_error (Sample.env None);
            prs_save_error := fun _ => Some (Exception "Permission denied");
            timestamp_now := timestamp_now (Sample.env None);
            stop_after := None |} Sample.job "out" 150)
    = before ++ [status_updated Saving;
                 status_updated (SaveFailed (Exception "Permission denied"));
                 finished_signal "out"].
Proof.
  apply failed_save_is_reported.
  - reflexivity.
  - discriminate.
  - vm_compute. reflexivity.
  - reflexivity.
Defined.

(** X5.  When the job is not cancelled, its page size is accepted (lines
    75-76 do not raise) and [prs.save] succeeds, the file
    [Combined_Slides_<timestamp>.pptx] of the output directory is written
    with the final deck, and the last three signals are the saving status,
    the success status and [finished_signal]. *)
Theorem uncancelled_run_saves_the_deck w files dir dpi :
  stop_after w = None -> files <> [] ->
  size_defined w dpi files = true ->
  prs_save_error w (save_path w dir) = None ->
  exists d,
    prs (final w files dir dpi) = Some d /\
    written (final w files dir dpi)
    = Some (PyStr.path_join dir
              ("Combined_Slides_" ++ timestamp_now w ++ ".pptx")%string, d) /\
    exists before,
      emitted (final w files dir dpi)
      = before ++ [status_updated Saving; status_updated SaveDone;
                   finished_signal dir].
Proof.
  intros Hstop Hne Hsize Hsave.
  destruct files as [|first rest]; [congruence|].
  cbn [size_defined] in Hsize.
  destruct (sized_deck w dpi first) as [d0|] eqn:Hsized; [|discriminate].
  destruct (run_after_loop w first rest dir dpi d0 Hsized)
    as (pc & s2 & ev & _ & Hd & _ & _ & _ & _ & Hrun).
  unfold final. rewrite Hrun. cbn [fst snd emitted written prs].
  unfold saved, save_signals. rewrite Hstop, Hsave. cbn [flag_at].
  eexists. split; [exact Hd|]. split; [reflexivity|].
  exists (emitted s2). reflexivity.
Qed.

Lemma uncancelled_run_saves_the_deck_witness :
  exists d,
    prs (final (Sample.env None) Sample.job "out" 150) = Some d /\
    written (final (Sample.env None) Sample.job "out" 150)
    = Some (PyStr.path_join "out"
              ("Combined_Slides_" ++ timestamp_now (Sample.env None) ++ ".pptx")%string,
            d) /\
    exists before,
      emitted (final (Sample.env None) Sample.job "out" 150)
      = before ++ [status_updated Saving; status_updated SaveDone;
                   finished_signal "out"].
Proof.
  apply (uncancelled_run_saves_the_deck (Sample.env None) Sample.job "out" 150).
  - reflexivity.
  - discriminate.
  - vm_compute. reflexivity.
  - reflexivity.
Defined.

(** ** Cancellation *)

(** X6.  A worker stopped before its first read of the flag still probes
    the size and announces the reference file; when lines 69-78 do not
    raise and leave the deck [d0] ([sized_deck]: the size is computed and
    python-pptx accepts it, or the probe failed), it then reads the flag
    twice
    (lines 87 and 152), adds no slide, updates no progress, writes no file
    and emits [finished_signal]. *)
Theorem stopped_before_the_first_file w first rest dir dpi d0 :
  stop_after w = Some 0%nat ->
  sized_deck w dpi first = Some d0 ->
  execute w (first :: rest) dir dpi
  = (Ok tt,
     {| prs := Some d0;
        emitted := [status_updated Initializing;
                    status_updated (CheckingReference (PyStr.basename first))]
                   ++ sizing_signals w dpi first ++ [finished_signal dir];
        printed := [];
        polls := 2;
        written := None |}).
Proof.
  intros Hstop Hsized.
  rewrite (run_unfold _ _ _ _ _ _ Hsized).
  cbn [process_files]. unfold bind at 1. unfold is_running at 1.
  rewrite Hstop. cbn [flag_at loop_start polls Nat.ltb Nat.leb negb ret].
  rewrite save_and_finish with (d := d0) by reflexivity.
  cbn [prs emitted printed polls written].
  unfold save_signals, saved. rewrite Hstop. cbn [flag_at Nat.ltb Nat.leb app].
  reflexivity.
Qed.

Lemma stopped_before_the_first_file_witness :
  execute (Sample.env (Some 0%nat)) Sample.job "out" 150
  = (Ok tt,
     {| prs := Some {| slide_width := 7772400; slide_height := 10058400;
                       slides := [] |};
        emitted := [status_updated Initializing;
                    status_updated (CheckingReference (PyStr.basename "a.pdf"))]
                   ++ sizing_signals (Sample.env (Some 0%nat)) 150 "a.pdf"
                   ++ [finished_signal "out"];
        printed := [];
        polls := 2;
        written := None |}).
Proof.
  apply (stopped_before_the_first_file (Sample.env (Some 0%nat)) "a.pdf"
           ["bad.png"; "b.jpg"]%string "out" 150).
  - reflexivity.
  - vm_compute. reflexivity.
Defined.

Section LaterStop.

Variables (w : world) (dpi cx cy : Z) (stop1 stop2 : option nat).

(** [stop2] comes no earlier than [stop1]. *)
Hypothesis later :
  forall n, flag_at stop1 n = true -> flag_at stop2 n = true.

Lemma pages_out_later : forall images n,
  pages_out (stopped_at w stop1) dpi cx cy n images
  = pages_out (stopped_at w stop2) dpi cx cy n images
  \/
  flag_at stop1 (snd (pages_out (stopped_at w stop1) dpi cx cy n images)) = false /\
  exists more,
    fst (pages_out (stopped_at w stop2) dpi cx cy n images)
    = fst (pages_out (stopped_at w stop1) dpi cx cy n images) ++ more.
Proof.
  induction images as [|img rest IH]; intros n; cbn [pages_out];
    [left; reflexivity|].
  cbn [stopped_at stop_after save_error].
  destruct (flag_at stop1 n) eqn:Hflag.
  - rewrite (later n Hflag).
    destruct (save_error w img "JPEG" (jpg_quality dpi)); [left; reflexivity|].
    specialize (IH (S n)).
    destruct (pages_out (stopped_at w stop1) dpi cx cy (S n) rest) as [a n1].
    destruct (pages_out (stopped_at w stop2) dpi cx cy (S n) rest) as [b m1].
    cbn [fst snd] in *.
    destruct IH as [IH|(Hdead & more & ->)].
    + inversion IH; subst. left; reflexivity.
    + right. split; [exact Hdead|]. exists more. reflexivity.
  - right. cbn [fst snd]. split.
    + eapply flag_at_mono; [|exact Hflag]. lia.
    + eexists. reflexivity.
Qed.

Lemma files_out_later : forall files n,
  exists more,
    fst (files_out (stopped_at w stop2) dpi cx cy n files)
    = fst (files_out (stopped_at w stop1) dpi cx cy n files) ++ more.
Proof.
  induction files as [|path rest IH]; intros n; cbn [files_out].
  - exists []. reflexivity.
  - cbn [stopped_at stop_after].
    change (images_of (stopped_at w stop1) dpi path) with (images_of w dpi path).
    change (images_of (stopped_at w stop2) dpi path) with (images_of w dpi path).
    destruct (flag_at stop1 n) eqn:Hflag.
    + rewrite (later n Hflag).
      pose proof (pages_out_later (images_of w dpi path) (S n)) as Hp.
      destruct (pages_out (stopped_at w stop1) dpi cx cy (S n)
                  (images_of w dpi path)) as [a n1].
      destruct (pages_out (stopped_at w stop2) dpi cx cy (S n)
                  (images_of w dpi path)) as [b m1].
      cbn [fst snd] in Hp.
      destruct Hp as [Hp|(Hdead & more & ->)].
      * inversion Hp; subst b m1. destruct (IH n1) as (more & Hmore).
        destruct (files_out (stopped_at w stop1) dpi cx cy n1 rest) as [c n2].
        destruct (files_out (stopped_at w stop2) dpi cx cy n1 rest) as [e m2].
        cbn [fst] in *. subst e. exists more. rewrite app_assoc. reflexivity.
      * pose proof (files_out_dead (stopped_at w stop1) dpi cx cy n1 rest Hdead)
          as Hnil.
        destruct (files_out (stopped_at w stop1) dpi cx cy n1 rest) as [c n2].
        destruct (files_out (stopped_at w stop2) dpi cx cy m1 rest) as [e m2].
        cbn [fst] in *. subst c. exists (more ++ e).
        rewrite app_nil_r, app_assoc. reflexivity.
    + eexists. reflexivity.
Qed.

End LaterStop.

(** X7.  Stopping later never loses a slide: the deck of a run stopped
    after [k1] reads of the flag is an initial segment of the deck of the
    same run stopped after [k2 >= k1] reads. *)
Theorem later_stop_keeps_the_slides w files dir dpi k1 k2 :
  (k1 <= k2)%nat ->
  exists more,
    deck_slides (final (stopped_at w (Some k2)) files dir dpi)
    = deck_slides (final (stopped_at w (Some k1)) files dir dpi) ++ more.
Proof.
  intros Hk.
  destruct files as [|first rest]; [exists []; reflexivity|].
  destruct (sized_deck w dpi first) as [d0|] eqn:Hsized.
  - destruct (run_spec (stopped_at w (Some k1)) first rest dir dpi d0 Hsized)
      as (s1 & Hrun1 & Hd1 & _).
    destruct (run_spec (stopped_at w (Some k2)) first rest dir dpi d0 Hsized)
      as (s2 & Hrun2 & Hd2 & _).
    unfold final. rewrite Hrun1, Hrun2. cbn [snd].
    pose proof (sized_deck_slides _ _ _ _ Hsized) as Hnil.
    rewrite (deck_slides_grow _ _ _ Hd1 Hnil), (deck_slides_grow _ _ _ Hd2 Hnil).
    apply files_out_later.
    intros n. cbn [flag_at]. rewrite !Nat.ltb_lt. lia.
  - destruct (run_size_error (stopped_at w (Some k1)) first rest dir dpi Hsized)
      as (e1 & s1 & Hrun1 & Hd1 & _).
    destruct (run_size_error (stopped_at w (Some k2)) first rest dir dpi Hsized)
      as (e2 & s2 & Hrun2 & Hd2 & _).
    unfold final. rewrite Hrun1, Hrun2. cbn [snd]. rewrite Hd1, Hd2.
    exists []. reflexivity.
Qed.

Lemma later_stop_keeps_the_slides_witness :
  exists more,
    deck_slides (final (stopped_at (Sample.env None) (Some 4%nat)) Sample.job "out" 150)
    = deck_slides (final (stopped_at (Sample.env None) (Some 2%nat)) Sample.job "out" 150)
      ++ more.
Proof.
  apply (later_stop_keeps_the_slides (Sample.env None) Sample.job "out" 150 2 4).
  lia.
Defined.

Section LateStop.

Variables (w : world) (dpi cx cy : Z) (k : nat).

Lemma pages_out_polls : forall images n,
  (n <= snd (pages_out (uncancelled w) dpi cx cy n images))%nat.
Proof.
  induction images as [|img rest IH]; intros n; cbn [pages_out]; [simpl; lia|].
  cbn [uncancelled stop_after flag_at save_error].
  destruct (save_error w img "JPEG" (jpg_quality dpi)); [simpl; lia|].
  specialize (IH (S n)).
  destruct (pages_out (uncancelled w) dpi cx cy (S n) rest). simpl in *. lia.
Qed.

Lemma files_out_polls : forall files n,
  (n <= snd (files_out (uncancelled w) dpi cx cy n files))%nat.
Proof.
  induction files as [|path rest IH]; intros n; cbn [files_out]; [simpl; lia|].
  cbn [uncancelled stop_after flag_at].
  pose proof (pages_out_polls (images_of (uncancelled w) dpi path) (S n)) as Hp.
  destruct (pages_out (uncancelled w) dpi cx cy (S n)
              (images_of (uncancelled w) dpi path)) as [here n1].
  specialize (IH n1).
  destruct (files_out (uncancelled w) dpi cx cy n1 rest). simpl in *. lia.
Qed.

(** A stop that comes after the last read of the page loop is not seen. *)
Lemma pages_out_late : forall images n,
  (snd (pages_out (uncancelled w) dpi cx cy n images) <= k)%nat ->
  pages_out (stopped_at w (Some k)) dpi cx cy n images
  = pages_out (uncancelled w) dpi cx cy n images.
Proof.
  induction images as [|img rest IH]; intros n; cbn [pages_out]; [reflexivity|].
  cbn [uncancelled stopped_at stop_after flag_at save_error].
  destruct (save_error w img "JPEG" (jpg_quality dpi)).
  - cbn [snd]. intros Hn.
    replace (n <? k)%nat with true by (symmetry; apply Nat.ltb_lt; lia).
    reflexivity.
  - pose proof (pages_out_polls rest (S n)) as Hp. specialize (IH (S n)).
    destruct (pages_out (uncancelled w) dpi cx cy (S n) rest) as [a n1].
    cbn [snd] in *. intros Hn.
    replace (n <? k)%nat with true by (symmetry; apply Nat.ltb_lt; lia).
    rewrite IH by exact Hn. reflexivity.
Qed.

Lemma files_out_late : forall files n,
  (snd (files_out (uncancelled w) dpi cx cy n files) <= k)%nat ->
  files_out (stopped_at w (Some k)) dpi cx cy n files
  = files_out (uncancelled w) dpi cx cy n files.
Proof.
  induction files as [|path rest IH]; intros n; cbn [files_out]; [reflexivity|].
  cbn [uncancelled stopped_at stop_after flag_at].
  change (images_of (stopped_at w (Some k)) dpi path) with (images_of w dpi path).
  change (images_of (uncancelled w) dpi path) with (images_of w dpi path).
  pose proof (pages_out_polls (images_of w dpi path) (S n)) as Hp.
  pose proof (pages_out_late (images_of w dpi path) (S n)) as Hl.
  destruct (pages_out (uncancelled w) dpi cx cy (S n) (images_of w dpi path))
    as [here n1].
  pose proof (files_out_polls rest n1) as Hq. specialize (IH n1).
  destruct (files_out (uncancelled w) dpi cx cy n1 rest) as [more n2].
  cbn [snd] in *. intros Hn.
  replace (n <? k)%nat with true by (symmetry; apply Nat.ltb_lt; lia).
  rewrite Hl by lia. rewrite IH by exact Hn. reflexivity.
Qed.

End LateStop.

(** When lines 75-76 raise, the run is what these lines make of the state
    they find. *)
Lemma run_size_error_state w first rest dir dpi :
  sized_deck w dpi first = None ->
  execute w (first :: rest) dir dpi
  = decide_slide_size w dpi first
      {| prs := Some default_Presentation;
         emitted := [status_updated Initializing;
                     status_updated (CheckingReference (PyStr.basename first))];
         printed := []; polls := 0; written := None |}.
Proof.
  intros Hsized. unfold execute, run.
  unfold bind at 1. cbn [emit initial prs emitted printed polls written app].
  unfold bind at 1. cbn [emit prs emitted printed polls written app].
  unfold bind at 1. cbn [new_Presentation prs emitted printed polls written].
  match goal with
  | |- context [bind (decide_slide_size w dpi first) _ ?s0] =>
      destruct (decide_slide_size_raises w dpi first s0 eq_refl Hsized)
        as (e & s1 & Hsize & _)
  end.
  unfold bind at 1. rewrite Hsize. reflexivity.
Qed.

(** So it is the same whenever [stop] is called: the flag was not read yet. *)
Lemma size_error_whenever_stopped w stop first rest dir dpi :
  sized_deck w dpi first = None ->
  execute (stopped_at w stop) (first :: rest) dir dpi
  = execute (uncancelled w) (first :: rest) dir dpi.
Proof.
  intros Hsized.
  rewrite (run_size_error_state (stopped_at w stop) first rest dir dpi Hsized).
  rewrite (run_size_error_state (uncancelled w) first rest dir dpi Hsized).
  reflexivity.
Qed.

(** X8.  A stop that comes after the last read of the flag changes neither
    the deck nor the file: when the uncancelled run reads the flag at most
    [k] times, the run stopped after [k] reads builds and writes the same. *)
Theorem stop_after_the_last_read_is_not_seen w files dir dpi k :
  (polls (final (uncancelled w) files dir dpi) <= k)%nat ->
  prs (final (stopped_at w (Some k)) files dir dpi)
  = prs (final (uncancelled w) files dir dpi) /\
  written (final (stopped_at w (Some k)) files dir dpi)
  = written (final (uncancelled w) files dir dpi) /\
  polls (final (stopped_at w (Some k)) files dir dpi)
  = polls (final (uncancelled w) files dir dpi).
Proof.
  destruct files as [|first rest]; [intros _; repeat split|].
  destruct (sized_deck w dpi first) as [d0|] eqn:Hsized;
    [|intros _; unfold final;
      rewrite (size_error_whenever_stopped w (Some k) first rest dir dpi Hsized);
      repeat split].
  destruct (run_spec (uncancelled w) first rest dir dpi d0 Hsized)
    as (s0 & Hrun0 & Hd0 & Hn0 & Hw0 & _).
  destruct (run_spec (stopped_at w (Some k)) first rest dir dpi d0 Hsized)
    as (s1 & Hrun1 & Hd1 & Hn1 & Hw1 & _).
  unfold final. rewrite Hrun0, Hrun1. cbn [snd]. rewrite Hn0. intros Hk.
  pose proof (files_out_late w dpi (slide_width d0) (slide_height d0) k
                (first :: rest) 0%nat) as Hlate.
  rewrite Hlate in Hd1, Hn1, Hw1 by lia.
  rewrite Hd0, Hd1, Hn1, Hw0, Hw1. repeat split.
  unfold saved. cbn [stopped_at uncancelled stop_after flag_at prs_save_error].
  replace (_ <? k)%nat with true by (symmetry; apply Nat.ltb_lt; lia).
  reflexivity.
Qed.

Lemma stop_after_the_last_read_is_not_seen_witness :
  prs (final (stopped_at (Sample.env None) (Some 7%nat)) Sample.job "out" 150)
  = prs (final (uncancelled (Sample.env None)) Sample.job "out" 150) /\
  written (final (stopped_at (Sample.env None) (Some 7%nat)) Sample.job "out" 150)
  = written (final (uncancelled (Sample.env None)) Sample.job "out" 150) /\
  polls (final (stopped_at (Sample.env None) (Some 7%nat)) Sample.job "out" 150)
  = polls (final (uncancelled (Sample.env None)) Sample.job "out" 150).
Proof.
  apply (stop_after_the_last_read_is_not_seen (Sample.env None) Sample.job "out"
           150 7).
  vm_compute. lia.
Defined.

(** * The file list *)

(** ** Suffixes *)

Lemma endswith_cons c s suffix :
  PyStr.endswith s suffix = true ->
  PyStr.endswith (String c s) suffix = true.
Proof.
  unfold PyStr.endswith. cbn [String.length].
  intros H. apply andb_true_iff in H as [Hlen Heq].
  apply Nat.leb_le in Hlen. apply andb_true_iff. split.
  - apply Nat.leb_le. lia.
  - replace (S (String.length s) - String.length suffix)%nat
      with (S (String.length s - String.length suffix)) by lia.
    exact Heq.
Qed.

Lemma endswith_app a b suffix :
  PyStr.endswith b suffix = true ->
  PyStr.endswith (a ++ b) suffix = true.
Proof.
  intros H. induction a as [|c a IH]; [exact H|].
  cbn [String.append]. apply endswith_cons, IH.
Qed.

Lemma lower_app a b :
  PyStr.lower (a ++ b) = (PyStr.lower a ++ PyStr.lower b)%string.
Proof.
  induction a as [|c a IH]; [reflexivity|].
  cbn [String.append PyStr.lower]. rewrite IH. reflexivity.
Qed.

Lemma path_join_suffix dir name :
  exists pre, PyStr.path_join dir name = (pre ++ name)%string.
Proof.
  unfold PyStr.path_join.
  destruct (String.eqb dir ""); [exists ""%string; reflexivity|].
  destruct (PyStr.endswith dir "/"); [exists dir; reflexivity|].
  exists (dir ++ "/")%string.
  induction dir as [|c dir IH]; [reflexivity|].
  cbn [String.append]. f_equal. exact IH.
Qed.

(** Joining a directory in front keeps the extension. *)
Lemma has_valid_extension_join root file :
  has_valid_extension file = true ->
  has_valid_extension (PyStr.path_join root file) = true.
Proof.
  unfold has_valid_extension, endswith_any. intros H.
  apply existsb_exists in H as (ext & Hin & Hext).
  apply existsb_exists. exists ext. split; [exact Hin|].
  destruct (path_join_suffix root file) as (pre & ->).
  rewrite lower_app. apply endswith_app, Hext.
Qed.

Lemma contains_In items path : contains items path = true <-> In path items.
Proof.
  unfold contains. rewrite existsb_exists. split.
  - intros (x & Hin & Heq). apply String.eqb_eq in Heq. subst. exact Hin.
  - intros Hin. exists path. split; [exact Hin|apply String.eqb_refl].
Qed.

(** ** Loops that add items *)

Lemma appends_only_refl P items : appends_only P items items.
Proof.
  exists []. rewrite app_nil_r. repeat split; constructor.
Qed.

Lemma appends_only_trans P a b c :
  appends_only P a b -> appends_only P b c -> appends_only P a c.
Proof.
  intros (x & -> & Px & Nx & Dx) (y & -> & Py & Ny & Dy).
  exists (x ++ y). rewrite app_assoc. split; [reflexivity|].
  rewrite Forall_forall in Nx, Ny.
  split; [apply Forall_app; split; assumption|]. split.
  - apply Forall_forall. intros p Hp. apply in_app_or in Hp as [Hp|Hp].
    + apply Nx, Hp.
    + intros Hin. apply (Ny p Hp). apply in_or_app. left. exact Hin.
  - apply NoDup_app; [exact Dx|exact Dy|].
    intros p Hx Hy. apply (Ny p Hy). apply in_or_app. right. exact Hx.
Qed.

Lemma add_unique_appends (P : string -> Prop) items path :
  P path -> appends_only P items (add_unique items path).
Proof.
  intros HP. unfold add_unique.
  destruct (contains items path) eqn:Hc; [apply appends_only_refl|].
  exists [path]. repeat split.
  - constructor; [exact HP|constructor].
  - constructor; [|constructor]. rewrite <- contains_In, Hc. discriminate.
  - constructor; [intros []|constructor].
Qed.

Section Loop.

Variables (A : Type) (step : list string -> A -> list string).

Lemma fold_appends (P : string -> Prop) :
  (forall items x, appends_only P items (step items x)) ->
  forall xs items, appends_only P items (fold_left step xs items).
Proof.
  intros Hstep. induction xs as [|x xs IH]; intros items; cbn [fold_left].
  - apply appends_only_refl.
  - eapply appends_only_trans; [apply Hstep|apply IH].
Qed.

Lemma fold_grows : grows step -> forall xs items p,
  In p items -> In p (fold_left step xs items).
Proof.
  intros Hg. induction xs as [|x xs IH]; intros items p Hin; cbn [fold_left].
  - exact Hin.
  - apply IH, Hg, Hin.
Qed.

Lemma fold_absorbed : grows step -> absorbed step -> forall xs items items',
  incl (fold_left step xs items) items' -> fold_left step xs items' = items'.
Proof.
  intros Hg Ha. induction xs as [|x xs IH]; intros items items' Hincl;
    cbn [fold_left] in *; [reflexivity|].
  rewrite (Ha items items' x).
  - apply (IH (step items x)). exact Hincl.
  - intros p Hp. apply Hincl. apply fold_grows; assumption.
Qed.

Lemma fold_reaches xs x p :
  grows step ->
  In x xs -> (forall items, In p (step items x)) ->
  forall items, In p (fold_left step xs items).
Proof.
  intros Hg Hin Hstep items.
  apply in_split in Hin as (l1 & l2 & ->).
  rewrite fold_left_app. cbn [fold_left].
  apply fold_grows; [exact Hg|]. apply Hstep.
Qed.

End Loop.

Lemma appends_only_In P items items' p :
  appends_only P items items' -> In p items -> In p items'.
Proof.
  intros (added & -> & _) Hin. apply in_or_app. left. exact Hin.
Qed.

Lemma add_unique_In items path : In path (add_unique items path).
Proof.
  unfold add_unique. destruct (contains items path) eqn:Hc.
  - apply contains_In, Hc.
  - apply in_or_app. right. left. reflexivity.
Qed.

Lemma add_unique_absorbed items items' path :
  incl (add_unique items path) items' -> add_unique items' path = items'.
Proof.
  intros Hincl. unfold add_unique at 1.
  replace (contains items' path) with true; [reflexivity|].
  symmetry. apply contains_In, Hincl, add_unique_In.
Qed.

Lemma add_walked_file_appends root items file :
  appends_only valid items (add_walked_file root items file).
Proof.
  unfold add_walked_file. destruct (has_valid_extension file) eqn:Hv.
  - apply add_unique_appends. apply has_valid_extension_join, Hv.
  - apply appends_only_refl.
Qed.

Lemma add_walked_dir_appends items entry :
  appends_only valid items (add_walked_dir items entry).
Proof.
  destruct entry as [[root dirs] files]. cbn [add_walked_dir].
  apply fold_appends. apply add_walked_file_appends.
Qed.

Lemma add_folder_appends fs items folder :
  appends_only valid items (add_folder fs items folder).
Proof. apply fold_appends. apply add_walked_dir_appends. Qed.

Lemma add_path_appends fs items path :
  appends_only valid items (add_path fs items path).
Proof.
  unfold add_path.
  destruct (os_path_isfile fs path && has_valid_extension path) eqn:Hf.
  - apply andb_true_iff in Hf as [_ Hv]. apply add_unique_appends, Hv.
  - destruct (os_path_isdir fs path).
    + apply add_folder_appends.
    + apply appends_only_refl.
Qed.

Lemma add_files_appends fs items paths :
  appends_only valid items (add_files fs items paths).
Proof. apply fold_appends. apply add_path_appends. Qed.

Lemma add_walked_file_grows root : grows (add_walked_file root).
Proof.
  intros items x p. apply appends_only_In with (P := valid).
  apply add_walked_file_appends.
Qed.

Lemma add_walked_dir_grows : grows add_walked_dir.
Proof.
  intros items x p. apply appends_only_In with (P := valid).
  apply add_walked_dir_appends.
Qed.

Lemma add_path_grows fs : grows (add_path fs).
Proof.
  intros items x p. apply appends_only_In with (P := valid).
  apply add_path_appends.
Qed.

Lemma add_walked_file_absorbed root : absorbed (add_walked_file root).
Proof.
  intros items items' file. unfold add_walked_file.
  destruct (has_valid_extension file); [apply add_unique_absorbed|reflexivity].
Qed.

Lemma add_walked_dir_absorbed : absorbed add_walked_dir.
Proof.
  intros items items' [[root dirs] files]. cbn [add_walked_dir].
  apply fold_absorbed.
  - apply add_walked_file_grows.
  - apply add_walked_file_absorbed.
Qed.

Lemma add_folder_absorbed fs items items' folder :
  incl (add_folder fs items folder) items' -> add_folder fs items' folder = items'.
Proof.
  apply fold_absorbed.
  - apply add_walked_dir_grows.
  - apply add_walked_dir_absorbed.
Qed.

Lemma add_path_absorbed fs : absorbed (add_path fs).
Proof.
  intros items items' path. unfold add_path.
  destruct (os_path_isfile fs path && has_valid_extension path).
  - apply add_unique_absorbed.
  - destruct (os_path_isdir fs path); [apply add_folder_absorbed|reflexivity].
Qed.

Lemma walked_file_reached fs folder root dirs files file :
  In (root, dirs, files) (os_walk fs folder) ->
  In file files ->
  has_valid_extension file = true ->
  forall items, In (PyStr.path_join root file) (add_folder fs items folder).
Proof.
  intros Hentry Hfile Hvalid items. unfold add_folder.
  apply fold_reaches with (x := (root, dirs, files));
    [apply add_walked_dir_grows|exact Hentry|].
  intros items1. cbn [add_walked_dir].
  apply fold_reaches with (x := file);
    [apply add_walked_file_grows|exact Hfile|].
  intros items2. unfold add_walked_file. rewrite Hvalid.
  apply add_unique_In.
Qed.

Lemma add_files_NoDup fs items paths :
  NoDup items -> NoDup (add_files fs items paths).
Proof.
  intros Hnd.
  destruct (add_files_appends fs items paths) as (added & -> & _ & Hn & Hd).
  rewrite Forall_forall in Hn.
  apply NoDup_app; [exact Hnd|exact Hd|]. intros p Hp Ha. exact (Hn p Ha Hp).
Qed.

Lemma add_folder_NoDup fs items folder :
  NoDup items -> NoDup (add_folder fs items folder).
Proof.
  intros Hnd.
  destruct (add_folder_appends fs items folder) as (added & -> & _ & Hn & Hd).
  rewrite Forall_forall in Hn.
  apply NoDup_app; [exact Hnd|exact Hd|]. intros p Hp Ha. exact (Hn p Ha Hp).
Qed.

(** X9.  [add_files] only appends: the items that were in the list stay
    where they are, and what comes after them are paths with one of the six
    extensions (whatever the letter case), none of which was in the list
    before, and no two of which are equal. *)
Theorem add_files_only_appends fs items file_paths :
  exists added,
    add_files fs items file_paths = items ++ added /\
    Forall (fun p => has_valid_extension p = true) added /\
    Forall (fun p => ~ In p items) added /\
    NoDup added.
Proof. apply (add_files_appends fs items file_paths). Qed.

(** X10.  The list never shows a path twice: if its items are distinct
    before [add_files], or before [add_folder], they are distinct after. *)
Theorem list_items_stay_distinct fs items file_paths folder_path :
  NoDup items ->
  NoDup (add_files fs items file_paths) /\
  NoDup (add_folder fs items folder_path).
Proof.
  intros Hnd. split; [apply add_files_NoDup|apply add_folder_NoDup]; exact Hnd.
Qed.

Lemma list_items_stay_distinct_witness :
  NoDup (add_files Desk.fs ["/in/scans/a.pdf"]%string Desk.dropped) /\
  NoDup (add_folder Desk.fs ["/in/scans/a.pdf"]%string "/in/scans").
Proof.
  apply (list_items_stay_distinct Desk.fs ["/in/scans/a.pdf"]%string
           Desk.dropped "/in/scans").
  constructor; [intros []|constructor].
Defined.

(** X11.  Every file that is given to [add_files], exists and has one of
    the six extensions is in the list afterwards. *)
Theorem added_file_is_listed fs items file_paths path :
  In path file_paths ->
  os_path_isfile fs path = true ->
  has_valid_extension path = true ->
  In path (add_files fs items file_paths).
Proof.
  intros Hin Hfile Hvalid. unfold add_files.
  apply fold_reaches with (x := path); [apply add_path_grows|exact Hin|].
  intros items0. unfold add_path. rewrite Hfile, Hvalid. cbn [andb].
  apply add_unique_In.
Qed.

Lemma added_file_is_listed_witness :
  In "/in/cover.PNG"%string (add_files Desk.fs [] Desk.dropped).
Proof.
  apply (added_file_is_listed Desk.fs [] Desk.dropped "/in/cover.PNG").
  - left. reflexivity.
  - reflexivity.
  - reflexivity.
Defined.

(** X12.  Every file with one of the six extensions that the walk of a
    folder finds, in the folder or below it, is in the list after
    [add_folder], under the name of its directory joined with its own. *)
Theorem walked_file_is_listed fs items folder root dirs files file :
  In (root, dirs, files) (os_walk fs folder) ->
  In file files ->
  has_valid_extension file = true ->
  In (PyStr.path_join root file) (add_folder fs items folder).
Proof.
  intros Hentry Hfile Hvalid. revert items.
  apply (walked_file_reached fs folder root dirs files file); assumption.
Qed.

Lemma walked_file_is_listed_witness :
  In (PyStr.path_join "/in/scans/old" "c.tiff")
     (add_folder Desk.fs [] "/in/scans").
Proof.
  apply (walked_file_is_listed Desk.fs [] "/in/scans"
           "/in/scans/old" [] ["c.tiff"]%string "c.tiff").
  - right. left. reflexivity.
  - left. reflexivity.
  - reflexivity.
Defined.

(** X13.  A folder given to [add_files] is walked: every file with one of
    the six extensions found in it or below it is in the list afterwards. *)
Theorem added_folder_is_walked fs items file_paths folder root dirs files file :
  In folder file_paths ->
  os_path_isfile fs folder = false ->
  os_path_isdir fs folder = true ->
  In (root, dirs, files) (os_walk fs folder) ->
  In file files ->
  has_valid_extension file = true ->
  In (PyStr.path_join root file) (add_files fs items file_paths).
Proof.
  intros Hin Hnofile Hdir Hentry Hfile Hvalid. unfold add_files.
  apply fold_reaches with (x := folder); [apply add_path_grows|exact Hin|].
  intros items0. unfold add_path. rewrite Hnofile, Hdir. cbn [andb].
  apply (walked_file_reached fs folder root dirs files file); assumption.
Qed.

Lemma added_folder_is_walked_witness :
  In (PyStr.path_join "/in/scans" "b.JPG") (add_files Desk.fs [] Desk.dropped).
Proof.
  apply (added_folder_is_walked Desk.fs [] Desk.dropped "/in/scans"
           "/in/scans" ["old"]%string ["a.pdf"; "readme.md"; "b.JPG"]%string
           "b.JPG").
  - right. right. left. reflexivity.
  - reflexivity.
  - reflexivity.
  - left. reflexivity.
  - right. right. left. reflexivity.
  - reflexivity.
Defined.

(** X14.  Adding the same paths a second time, or the same folder, changes
    nothing, as long as the file system answers the same. *)
Theorem adding_again_changes_nothing fs items file_paths folder_path :
  add_files fs (add_files fs items file_paths) file_paths
  = add_files fs items file_paths /\
  add_folder fs (add_folder fs items folder_path) folder_path
  = add_folder fs items folder_path.
Proof.
  split.
  - unfold add_files.
    apply fold_absorbed with (items := items);
      [apply add_path_grows|apply add_path_absorbed|apply incl_refl].
  - apply add_folder_absorbed with (items := items). apply incl_refl.
Qed.

(** * The window *)

(** ** Rows *)

Lemma firstn_length_app (a l : list string) :
  firstn (List.length a) (a ++ l) = a.
Proof. induction a as [|x a IH]; [reflexivity|]. cbn. f_equal. exact IH. Qed.

Lemma skipn_length_app (a l : list string) :
  skipn (List.length a) (a ++ l) = l.
Proof. induction a as [|x a IH]; [reflexivity|]. exact IH. Qed.

Lemma nth_error_length_app (a : list string) x l :
  nth_error (a ++ x :: l) (List.length a) = Some x.
Proof. induction a as [|y a IH]; [reflexivity|]. exact IH. Qed.

Lemma takeItem_app a x b :
  takeItem (Z.of_nat (List.length a)) (a ++ x :: b) = (Some x, a ++ b).
Proof.
  unfold takeItem. rewrite length_app. cbn [List.length].
  replace (0 <=? Z.of_nat (List.length a)) with true
    by (symmetry; apply Z.leb_le; lia).
  replace (Z.of_nat (List.length a)
           <? Z.of_nat (List.length a + S (List.length b))) with true
    by (symmetry; apply Z.ltb_lt; lia).
  cbn [andb]. rewrite Nat2Z.id, nth_error_length_app, firstn_length_app.
  change (S (List.length a)) with (1 + List.length a)%nat.
  rewrite <- skipn_skipn, skipn_length_app. reflexivity.
Qed.

Lemma insertItem_app a x b :
  insertItem (Z.of_nat (List.length a)) (Some x) (a ++ b) = a ++ x :: b.
Proof.
  unfold insertItem. rewrite length_app.
  replace (Z.of_nat (List.length a) <? 0) with false
    by (symmetry; apply Z.ltb_ge; lia).
  replace (Z.of_nat (List.length a + List.length b)
           <? Z.of_nat (List.length a)) with false
    by (symmetry; apply Z.ltb_ge; lia).
  rewrite Nat2Z.id, firstn_length_app, skipn_length_app. reflexivity.
Qed.

Lemma takeItem_cases row items :
  takeItem row items = (None, items) \/
  exists a x b, items = a ++ x :: b /\ takeItem row items = (Some x, a ++ b).
Proof.
  unfold takeItem.
  destruct ((0 <=? row) && (row <? Z.of_nat (List.length items))) eqn:Hin;
    [|left; reflexivity].
  apply andb_true_iff in Hin as [H0 H1].
  apply Z.leb_le in H0. apply Z.ltb_lt in H1.
  destruct (nth_error items (Z.to_nat row)) as [x|] eqn:Hnth.
  - right. apply nth_error_split in Hnth as (a & b & -> & Hlen).
    exists a, x, b. split; [reflexivity|].
    rewrite <- Hlen, firstn_length_app.
    change (S (List.length a)) with (1 + List.length a)%nat.
    rewrite <- skipn_skipn, skipn_length_app. reflexivity.
  - apply nth_error_None in Hnth. lia.
Qed.

Lemma insertItem_Permutation row x items :
  Permutation (x :: items) (insertItem row (Some x) items).
Proof.
  unfold insertItem.
  set (r := if row <? 0 then 0%nat
            else if Z.of_nat (List.length items) <? row then List.length items
            else Z.to_nat row).
  rewrite <- (firstn_skipn r items) at 1. apply Permutation_middle.
Qed.

Lemma take_insert_Permutation row row' items :
  Permutation items
    (insertItem row' (fst (takeItem row items)) (snd (takeItem row items))).
Proof.
  destruct (takeItem_cases row items) as [->|(a & x & b & -> & ->)];
    cbn [fst snd insertItem]; [reflexivity|].
  etransitivity; [symmetry; apply Permutation_middle|].
  apply insertItem_Permutation.
Qed.

Lemma takeItem_NoDup row items :
  NoDup items -> NoDup (snd (takeItem row items)).
Proof.
  intros Hnd.
  destruct (takeItem_cases row items) as [->|(a & x & b & -> & ->)];
    cbn [snd]; [exact Hnd|].
  apply NoDup_remove_1 in Hnd. exact Hnd.
Qed.

Lemma move_item_up_Permutation curr_row items :
  Permutation items (fst (move_item_up curr_row items)).
Proof.
  unfold move_item_up. destruct (0 <? curr_row); [|reflexivity].
  pose proof (take_insert_Permutation curr_row (curr_row - 1) items) as H.
  destruct (takeItem curr_row items) as [item items1]. exact H.
Qed.

Lemma move_item_down_Permutation curr_row items :
  Permutation items (fst (move_item_down curr_row items)).
Proof.
  unfold move_item_down.
  destruct ((curr_row <? Z.of_nat (List.length items) - 1) && (0 <=? curr_row));
    [|reflexivity].
  pose proof (take_insert_Permutation curr_row (curr_row + 1) items) as H.
  destruct (takeItem curr_row items) as [item items1]. exact H.
Qed.

Lemma remove_selected_item_NoDup rows : forall items,
  NoDup items -> NoDup (remove_selected_item rows items).
Proof.
  unfold remove_selected_item.
  induction rows as [|row rows IH]; intros items Hnd; cbn [fold_left].
  - exact Hnd.
  - apply IH, takeItem_NoDup, Hnd.
Qed.

(** Moving the second of two neighbours up, or the first one down,
    exchanges them. *)
Lemma move_item_up_swap a x y b :
  move_item_up (Z.of_nat (List.length a) + 1) (a ++ x :: y :: b)
  = (a ++ y :: x :: b, Some (Z.of_nat (List.length a))).
Proof.
  unfold move_item_up.
  replace (0 <? Z.of_nat (List.length a) + 1) with true
    by (symmetry; apply Z.ltb_lt; lia).
  replace (Z.of_nat (List.length a) + 1)
    with (Z.of_nat (List.length (a ++ [x])))
    by (rewrite length_app; cbn [List.length]; lia).
  replace (a ++ x :: y :: b) with ((a ++ [x]) ++ y :: b)
    by (rewrite <- app_assoc; reflexivity).
  rewrite takeItem_app.
  replace (Z.of_nat (List.length (a ++ [x])) - 1)
    with (Z.of_nat (List.length a))
    by (rewrite length_app; cbn [List.length]; lia).
  rewrite <- app_assoc. cbn [app]. rewrite insertItem_app. reflexivity.
Qed.

Lemma move_item_down_swap a x y b :
  move_item_down (Z.of_nat (List.length a)) (a ++ x :: y :: b)
  = (a ++ y :: x :: b, Some (Z.of_nat (List.length a) + 1)).
Proof.
  unfold move_item_down.
  replace (Z.of_nat (List.length a)
           <? Z.of_nat (List.length (a ++ x :: y :: b)) - 1) with true
    by (symmetry; apply Z.ltb_lt; rewrite length_app; cbn [List.length]; lia).
  replace (0 <=? Z.of_nat (List.length a)) with true
    by (symmetry; apply Z.leb_le; lia).
  cbn [andb]. rewrite takeItem_app.
  replace (Z.of_nat (List.length a) + 1)
    with (Z.of_nat (List.length (a ++ [y])))
    by (rewrite length_app; cbn [List.length]; lia).
  replace (a ++ y :: b) with ((a ++ [y]) ++ b)
    by (rewrite <- app_assoc; reflexivity).
  rewrite insertItem_app, <- app_assoc. reflexivity.
Qed.

(** Two neighbouring rows of a list. *)
Lemma neighbours (items : list string) (n : nat) :
  (S n < List.length items)%nat ->
  exists a x y b, items = a ++ x :: y :: b /\ List.length a = n.
Proof.
  revert items. induction n as [|n IH]; intros items Hlen.
  - destruct items as [|x [|y b]]; cbn in Hlen; try lia.
    exists [], x, y, b. split; reflexivity.
  - destruct items as [|z items]; cbn in Hlen; [lia|].
    destruct (IH items ltac:(lia)) as (a & x & y & b & -> & Ha).
    exists (z :: a), x, y, b. split; [reflexivity|]. cbn. lia.
Qed.

(** X15.  Up, then down, gives the list back: on a row that is not the
    first one, [move_item_up] puts the item one row higher, moves the
    current row with it, and [move_item_down] on the new current row
    restores the list and the current row. *)
Theorem up_then_down_restores_the_list curr_row items :
  0 < curr_row < Z.of_nat (List.length items) ->
  exists items',
    move_item_up curr_row items = (items', Some (curr_row - 1)) /\
    nth_error items' (Z.to_nat (curr_row - 1))
      = nth_error items (Z.to_nat curr_row) /\
    nth_error items' (Z.to_nat curr_row)
      = nth_error items (Z.to_nat (curr_row - 1)) /\
    move_item_down (curr_row - 1) items' = (items, Some curr_row).
Proof.
  intros Hrow.
  destruct (neighbours items (Z.to_nat (curr_row - 1)) ltac:(lia))
    as (a & x & y & b & -> & Ha).
  replace curr_row with (Z.of_nat (List.length a) + 1) by lia.
  exists (a ++ y :: x :: b).
  replace (Z.of_nat (List.length a) + 1 - 1) with (Z.of_nat (List.length a))
    by lia.
  rewrite move_item_up_swap, move_item_down_swap.
  replace (Z.to_nat (Z.of_nat (List.length a) + 1))
    with (List.length (a ++ [x])) by (rewrite length_app; cbn; lia).
  rewrite Nat2Z.id, !nth_error_length_app.
  replace (List.length (a ++ [x])) with (List.length (a ++ [y]))
    by (rewrite !length_app; reflexivity).
  replace (a ++ y :: x :: b) with ((a ++ [y]) ++ x :: b)
    by (rewrite <- app_assoc; reflexivity).
  rewrite nth_error_length_app.
  replace (List.length (a ++ [y])) with (List.length (a ++ [x]))
    by (rewrite !length_app; reflexivity).
  replace (a ++ x :: y :: b) with ((a ++ [x]) ++ y :: b)
    by (rewrite <- app_assoc; reflexivity).
  rewrite nth_error_length_app.
  repeat split; reflexivity.
Qed.

Lemma up_then_down_restores_the_list_witness :
  exists items',
    move_item_up 2 Sample.job = (items', Some (2 - 1)) /\
    nth_error items' (Z.to_nat (2 - 1)) = nth_error Sample.job (Z.to_nat 2) /\
    nth_error items' (Z.to_nat 2) = nth_error Sample.job (Z.to_nat (2 - 1)) /\
    move_item_down (2 - 1) items' = (Sample.job, Some 2).
Proof.
  apply (up_then_down_restores_the_list 2 Sample.job).
  cbn. lia.
Defined.

(** X16.  Down, then up, gives the list back: on a row that is not the
    last one, [move_item_down] puts the item one row lower, moves the
    current row with it, and [move_item_up] on the new current row restores
    the list and the current row. *)
Theorem down_then_up_restores_the_list curr_row items :
  0 <= curr_row < Z.of_nat (List.length items) - 1 ->
  exists items',
    move_item_down curr_row items = (items', Some (curr_row + 1)) /\
    nth_error items' (Z.to_nat (curr_row + 1))
      = nth_error items (Z.to_nat curr_row) /\
    nth_error items' (Z.to_nat curr_row)
      = nth_error items (Z.to_nat (curr_row + 1)) /\
    move_item_up (curr_row + 1) items' = (items, Some curr_row).
Proof.
  intros Hrow.
  destruct (neighbours items (Z.to_nat curr_row) ltac:(lia))
    as (a & x & y & b & -> & Ha).
  replace curr_row with (Z.of_nat (List.length a)) by lia.
  exists (a ++ y :: x :: b).
  rewrite move_item_up_swap, move_item_down_swap.
  replace (Z.to_nat (Z.of_nat (List.length a) + 1))
    with (List.length (a ++ [x])) by (rewrite length_app; cbn; lia).
  rewrite Nat2Z.id, !nth_error_length_app.
  replace (a ++ x :: y :: b) with ((a ++ [x]) ++ y :: b)
    by (rewrite <- app_assoc; reflexivity).
  rewrite nth_error_length_app.
  replace (List.length (a ++ [x])) with (List.length (a ++ [y]))
    by (rewrite !length_app; reflexivity).
  replace (a ++ y :: x :: b) with ((a ++ [y]) ++ x :: b)
    by (rewrite <- app_assoc; reflexivity).
  rewrite nth_error_length_app.
  repeat split; reflexivity.
Qed.

Lemma down_then_up_restores_the_list_witness :
  exists items',
    move_item_down 0 Sample.job = (items', Some (0 + 1)) /\
    nth_error items' (Z.to_nat (0 + 1)) = nth_error Sample.job (Z.to_nat 0) /\
    nth_error items' (Z.to_nat 0) = nth_error Sample.job (Z.to_nat (0 + 1)) /\
    move_item_up (0 + 1) items' = (Sample.job, Some 0).
Proof.
  apply (down_then_up_restores_the_list 0 Sample.job).
  cbn. lia.
Defined.

(** X17.  Moving an item neither loses nor repeats a file: whatever the
    current row is, the list after [move_item_up] or [move_item_down] is a
    permutation of the list before. *)
Theorem moving_keeps_the_files curr_row items :
  Permutation items (fst (move_item_up curr_row items)) /\
  Permutation items (fst (move_item_down curr_row items)).
Proof.
  split; [apply move_item_up_Permutation|apply move_item_down_Permutation].
Qed.

(** ** The window while a job runs *)

Lemma locked_flags win :
  locked win = true ->
  btn_add_file win = false /\ btn_add_folder win = false /\
  btn_clear win = false /\ btn_remove win = false /\ btn_up win = false /\
  btn_down win = false /\ list_widget win = false /\ combo_dpi win = false /\
  btn_convert win = false.
Proof.
  unfold locked.
  destruct (btn_add_file win), (btn_add_folder win), (btn_clear win),
    (btn_remove win), (btn_up win), (btn_down win), (list_widget win),
    (combo_dpi win), (btn_convert win); cbn; intros H;
    try discriminate; repeat split.
Qed.

Lemma locked_on_user e win : locked win = true -> on_user e win = win.
Proof.
  intros H. apply locked_flags in H
    as (H1 & H2 & H3 & H4 & H5 & H6 & H7 & H8 & H9).
  destruct e; cbn [on_user];
    rewrite ?H1, ?H2, ?H3, ?H4, ?H5, ?H6, ?H7, ?H8, ?H9; reflexivity.
Qed.

Lemma handle_before_the_end win ev :
  locked win = true -> before_the_end ev = true ->
  locked (handle win ev) = true /\
  list_items (handle win ev) = list_items win /\
  currentData (handle win ev) = currentData win /\
  worker (handle win ev) = worker win.
Proof.
  intros Hlocked Hev. destruct ev as [e|d sg]; cbn [handle].
  - rewrite (locked_on_user e win Hlocked). repeat split; exact Hlocked.
  - destruct sg; cbn in Hev; try discriminate; cbn [deliver];
      unfold update_progress, update_status, setValue;
      try destruct (_ && _); repeat split; exact Hlocked.
Qed.

Lemma handle_all_before_the_end events : forall win,
  locked win = true -> forallb before_the_end events = true ->
  locked (fold_left handle events win) = true /\
  list_items (fold_left handle events win) = list_items win /\
  currentData (fold_left handle events win) = currentData win /\
  worker (fold_left handle events win) = worker win.
Proof.
  induction events as [|ev events IH]; intros win Hlocked Hall;
    cbn [fold_left]; [repeat split; exact Hlocked|].
  cbn [forallb] in Hall. apply andb_true_iff in Hall as [Hev Hall].
  destruct (handle_before_the_end win ev Hlocked Hev) as (Hl & Hi & Hc & Hw).
  destruct (IH (handle win ev) Hl Hall) as (Hl' & Hi' & Hc' & Hw').
  rewrite Hi', Hc', Hw', Hi, Hc, Hw. repeat split. exact Hl'.
Qed.

Lemma start_conversion_accepted output_dir win :
  list_items win <> [] -> output_dir <> ""%string ->
  start_conversion output_dir win
  = set_worker
      (Some (mkWorker (list_items win) output_dir (item_data (currentData win))))
      (setText Preparing (setValue 0 (toggle_ui false win))).
Proof.
  intros Hitems Hdir. unfold start_conversion.
  destruct (list_items win) as [|first rest] eqn:Hl; [contradiction|].
  apply String.eqb_neq in Hdir. rewrite Hdir. cbn. rewrite Hl. reflexivity.
Qed.

(** X18.  A running job cannot be disturbed from the window: from an
    accepted [start_conversion] on, whatever the user clicks, drops or
    chooses and whatever progress and status the worker reports, every
    widget with a handler stays disabled, and the list, the resolution and
    the worker stay as they were when the job was started, until the
    finished signal is delivered.  (So no second job is started, and
    [clear_list_and_reset], the only caller of [stop], does not run.) *)
Theorem running_job_is_not_disturbed output_dir win events :
  list_items win <> [] -> output_dir <> ""%string ->
  forallb before_the_end events = true ->
  locked (fold_left handle events (start_conversion output_dir win)) = true /\
  list_items (fold_left handle events (start_conversion output_dir win))
    = list_items win /\
  currentData (fold_left handle events (start_conversion output_dir win))
    = currentData win /\
  worker (fold_left handle events (start_conversion output_dir win))
    = Some (mkWorker (list_items win) output_dir (item_data (currentData win))).
Proof.
  intros Hitems Hdir Hall.
  rewrite (start_conversion_accepted output_dir win Hitems Hdir).
  match goal with
  | |- locked (fold_left _ _ ?win0) = _ /\ _ =>
      destruct (handle_all_before_the_end events win0 eq_refl Hall)
        as (Hl & Hi & Hc & Hw)
  end.
  rewrite Hl, Hi, Hc, Hw. repeat split.
Qed.

Lemma running_job_is_not_disturbed_witness :
  locked (fold_left handle
            [user click_clear; delivered Session.d (progress_updated 33);
             user (click_convert "again"); user (click_up 1)]
            (start_conversion "out" Session.win)) = true /\
  list_items (fold_left handle
            [user click_clear; delivered Session.d (progress_updated 33);
             user (click_convert "again"); user (click_up 1)]
            (start_conversion "out" Session.win))
    = list_items Session.win /\
  currentData (fold_left handle
            [user click_clear; delivered Session.d (progress_updated 33);
             user (click_convert "again"); user (click_up 1)]
            (start_conversion "out" Session.win))
    = currentData Session.win /\
  worker (fold_left handle
            [user click_clear; delivered Session.d (progress_updated 33);
             user (click_convert "again"); user (click_up 1)]
            (start_conversion "out" Session.win))
    = Some (mkWorker (list_items Session.win) "out"
              (item_data (currentData Session.win))).
Proof.
  apply (running_job_is_not_disturbed "out" Session.win
           [user click_clear; delivered Session.d (progress_updated 33);
            user (click_convert "again"); user (click_up 1)]).
  - discriminate.
  - discriminate.
  - reflexivity.
Defined.

(** ** The end of a job *)

Lemma deliver_keeps d sg win :
  list_items (deliver d win sg) = list_items win /\
  currentData (deliver d win sg) = currentData win /\
  worker (deliver d win sg) = worker win.
Proof.
  destruct sg; cbn [deliver]; unfold update_progress, setValue;
    try destruct (_ && _); try (repeat split; reflexivity).
  unfold conversion_finished, open_folder.
  destruct (open_error d output_dir); repeat split; reflexivity.
Qed.

Lemma deliver_all_keeps d sgs : forall win,
  list_items (fold_left (deliver d) sgs win) = list_items win /\
  currentData (fold_left (deliver d) sgs win) = currentData win /\
  worker (fold_left (deliver d) sgs win) = worker win.
Proof.
  induction sgs as [|sg sgs IH]; intros win; cbn [fold_left];
    [repeat split; reflexivity|].
  destruct (IH (deliver d win sg)) as (Hi & Hc & Hw).
  destruct (deliver_keeps d sg win) as (Hi' & Hc' & Hw').
  rewrite Hi, Hc, Hw, Hi', Hc', Hw'. repeat split; reflexivity.
Qed.

Lemma item_data_nonzero q : item_data q <> 0.
Proof. destruct q; discriminate. Qed.

(** X19.  When the job ends the window is usable again: after an accepted
    [start_conversion], once the signals of the run have been delivered,
    every widget is enabled, the button reads as before, the bar is at
    100, the label says that the conversion is complete (or that the
    output folder could not be opened), and the list, the resolution and
    the worker are those of the start.  This holds whenever [stop] is
    called and whatever the libraries answer, provided the page size of the
    first file is accepted (lines 75-76 of [run] do not raise): a run that
    raises there never emits [finished_signal]. *)
Theorem finished_job_unlocks_the_window w d output_dir win :
  list_items win <> [] -> output_dir <> ""%string ->
  size_defined w (item_data (currentData win)) (list_items win) = true ->
  run_worker w d (start_conversion output_dir win)
  = open_folder d output_dir
      {| btn_add_file := true; btn_add_folder := true; btn_clear := true;
         btn_remove := true; btn_up := true; btn_down := true;
         list_widget := true; combo_dpi := true; btn_convert := true;
         list_items := list_items win;
         currentData := currentData win;
         btn_convert_text := StartConversion;
         progress_bar := 100;
         status_label := Completed;
         worker := Some (mkWorker (list_items win) output_dir
                           (item_data (currentData win))) |}.
Proof.
  intros Hitems Hdir Hsize.
  rewrite (start_conversion_accepted output_dir win Hitems Hdir).
  unfold run_worker. cbn [worker set_worker worker_file_list worker_output_dir
                            worker_dpi].
  destruct (list_items win) as [|first rest] eqn:Hl; [contradiction|].
  cbn [size_defined] in Hsize.
  destruct (sized_deck w (item_data (currentData win)) first) as [d0|] eqn:Hsized;
    [|discriminate].
  destruct (run_spec w first rest output_dir _ d0 Hsized)
    as (s & Hrun & _ & _ & _ & ev & Hev & _).
  unfold final. rewrite Hrun. cbn [snd]. rewrite Hev, fold_left_app.
  cbn [fold_left deliver].
  match goal with
  | |- conversion_finished _ _ (fold_left _ _ ?win0) = _ =>
      destruct (deliver_all_keeps d ev win0) as (Hi & Hc & Hw);
      remember (fold_left (deliver d) ev win0) as win1 eqn:Hwin1
  end.
  clear Hwin1. cbn in Hi, Hc, Hw. rewrite Hl in Hi.
  unfold conversion_finished, toggle_ui, setValue, setText. cbn.
  rewrite Hi, Hc, Hw. reflexivity.
Qed.

Lemma finished_job_unlocks_the_window_witness :
  run_worker (Sample.env (Some 3%nat)) Session.d
    (start_conversion "out" Session.win)
  = open_folder Session.d "out"
      {| btn_add_file := true; btn_add_folder := true; btn_clear := true;
         btn_remove := true; btn_up := true; btn_down := true;
         list_widget := true; combo_dpi := true; btn_convert := true;
         list_items := list_items Session.win;
         currentData := currentData Session.win;
         btn_convert_text := StartConversion;
         progress_bar := 100;
         status_label := Completed;
         worker := Some (mkWorker (list_items Session.win) "out"
                           (item_data (currentData Session.win))) |}.
Proof.
  apply (finished_job_unlocks_the_window (Sample.env (Some 3%nat)) Session.d
           "out" Session.win).
  - discriminate.
  - discriminate.
  - vm_compute. reflexivity.
Defined.

(** ** Every job the window starts *)

Lemma set_list_items_sound items win :
  sound win -> NoDup items -> sound (set_list_items items win).
Proof. intros [_ Hw] Hnd. split; [exact Hnd|exact Hw]. Qed.

Lemma start_conversion_sound output_dir win :
  sound win -> sound (start_conversion output_dir win).
Proof.
  intros Hs. pose proof Hs as [Hnd Hw]. unfold start_conversion.
  destruct (list_items win) as [|first rest] eqn:Hl; [exact Hs|].
  destruct (String.eqb output_dir "") eqn:Hdir; [exact Hs|].
  split; cbn; rewrite ?Hl; [exact Hnd|].
  repeat split.
  - discriminate.
  - exact Hnd.
  - apply String.eqb_neq, Hdir.
  - destruct (currentData win); cbn; tauto.
Qed.

Lemma on_user_sound e win : sound win -> sound (on_user e win).
Proof.
  intros Hs. pose proof Hs as [Hnd Hw]. destruct e; cbn [on_user].
  - destruct (btn_add_file win); [|exact Hs]. unfold open_file_dialog.
    destruct files; [exact Hs|].
    apply set_list_items_sound; [exact Hs|]. apply add_files_NoDup, Hnd.
  - destruct (btn_add_folder win); [|exact Hs]. unfold open_folder_dialog.
    destruct (String.eqb folder ""); [exact Hs|].
    apply set_list_items_sound; [exact Hs|]. apply add_folder_NoDup, Hnd.
  - destruct (btn_clear win); [|exact Hs]. split; cbn; [constructor|exact I].
  - destruct (btn_remove win); [|exact Hs].
    apply set_list_items_sound; [exact Hs|].
    apply remove_selected_item_NoDup, Hnd.
  - destruct (btn_up win); [|exact Hs].
    apply set_list_items_sound; [exact Hs|].
    eapply Permutation_NoDup; [apply move_item_up_Permutation|exact Hnd].
  - destruct (btn_down win); [|exact Hs].
    apply set_list_items_sound; [exact Hs|].
    eapply Permutation_NoDup; [apply move_item_down_Permutation|exact Hnd].
  - destruct (btn_convert win); [|exact Hs]. apply start_conversion_sound, Hs.
  - destruct (list_widget win); [|exact Hs].
    apply set_list_items_sound; [exact Hs|].
    destruct urls; cbn [dropEvent fst]; [apply add_files_NoDup|]; exact Hnd.
  - destruct (combo_dpi win); exact Hs.
Qed.

Lemma handle_sound win ev : sound win -> sound (handle win ev).
Proof.
  intros Hs. destruct ev as [e|d sg]; cbn [handle].
  - apply on_user_sound, Hs.
  - destruct (deliver_keeps d sg win) as (Hi & _ & Hw).
    unfold sound. rewrite Hi, Hw. exact Hs.
Qed.

(** X20.  Whatever the user does with the window, in any order, and
    whatever signals arrive, the list never shows a path twice, and the
    worker the window holds was made with a list that is not empty and has
    no path twice, with an output folder that is not the empty string and
    with one of the four resolutions 96, 150, 300 and 400. *)
Theorem window_starts_only_sound_jobs events :
  NoDup (list_items (fold_left handle events init_ui)) /\
  match worker (fold_left handle events init_ui) with
  | Some job =>
      worker_file_list job <> [] /\
      NoDup (worker_file_list job) /\
      worker_output_dir job <> ""%string /\
      In (worker_dpi job) [96; 150; 300; 400]
  | None => True
  end.
Proof.
  change (sound (fold_left handle events init_ui)).
  assert (Hinit : sound init_ui) by (split; [constructor|exact I]).
  revert Hinit. generalize init_ui.
  induction events as [|ev events IH]; intros win Hs; cbn [fold_left].
  - exact Hs.
  - apply IH, handle_sound, Hs.
Qed.
